(** * ViticultureSimulator: a shallow embedding of [simulatore_dati.py]

    The simulator builds a pandas [DataFrame] indexed by the calendar days of
    a date range, fills four climate columns from the process-wide NumPy
    random generator, and then derives five annual columns, one value per
    calendar year, which it broadcasts over the rows of that year.

    Modelling choices, all visible in the definitions below:
    - a [Timestamp] at day granularity is the number of days since
      1970-01-01, a [Z]; [year_of] and [dayofyear] are computed from it with
      the proleptic Gregorian calendar;
    - a float64 is an exact rational or NaN ([option Q], [None] is NaN);
      rounding and infinities are outside the model;
    - a [DataFrame] is its index together with a finite map from column
      names to columns; a missing column raises [KeyError], a column of the
      wrong length raises [ValueError];
    - the global random generator is a state [S] with three samplers
      (interface [RandomSource]); code that draws is written in a state and
      exception monad over it;
    - [np.sin] is a parameter of the development. *)

From Stdlib Require Import ZArith QArith Qround Qminmax Lqa Lia List Sorted Ascii.
From stdpp Require Import base option list gmap strings sorting pretty.

Open Scope string_scope.

(** ** Calendar arithmetic behind [Timestamp], [.year] and [.dayofyear] *)

Module Calendar.
Open Scope Z_scope.

(** Days since 1970-01-01 of the civil date [y]-[m]-[d]. *)
Definition days_from_civil (y m d : Z) : Z :=
  let y' := if m <=? 2 then y - 1 else y in
  let era := y' / 400 in
  let yoe := y' - era * 400 in
  let mp := if 2 <? m then m - 3 else m + 9 in
  let doy := (153 * mp + 2) / 5 + d - 1 in
  let doe := yoe * 365 + yoe / 4 - yoe / 100 + doy in
  era * 146097 + doe - 719468.

(** Calendar year of a day number. *)
Definition year_of (days : Z) : Z :=
  let z := days + 719468 in
  let era := z / 146097 in
  let doe := z - era * 146097 in
  let yoe := (doe - doe / 1460 + doe / 36524 - doe / 146096) / 365 in
  let doy := doe - (365 * yoe + yoe / 4 - yoe / 100) in
  let mp := (5 * doy + 2) / 153 in
  let m := if mp <? 10 then mp + 3 else mp - 9 in
  if m <=? 2 then yoe + era * 400 + 1 else yoe + era * 400.

(** Ordinal of the day inside its year, 1 for the first of January. *)
Definition dayofyear (days : Z) : Z :=
  days - days_from_civil (year_of days) 1 1 + 1.

(** Leap years and the length of a month. *)
Definition is_leap (y : Z) : bool :=
  ((y mod 4 =? 0) && negb (y mod 100 =? 0)) || (y mod 400 =? 0).
Definition days_in_month (y m : Z) : Z :=
  if m =? 2 then (if is_leap y then 29 else 28)
  else if (m =? 4) || (m =? 6) || (m =? 9) || (m =? 11) then 30
  else 31.

(** Whether [y]-[m]-[d] is a day of the calendar, in the years 1 to 9999. *)
Definition is_date (y m d : Z) : bool :=
  (1 <=? y) && (y <=? 9999) && (1 <=? m) && (m <=? 12)
  && (1 <=? d) && (d <=? days_in_month y m).
End Calendar.

(** A date, at day granularity: the number of its day. *)
Abbreviation Timestamp := Z (only parsing).

(** The digit that a character shows. *)
Definition digit (c : ascii) : option Z :=
  let n := (Z.of_N (N_of_ascii c) - 48)%Z in
  if (0 <=? n)%Z && (n <=? 9)%Z then Some n else None.

(** The number that a string of digits shows, after the digits [acc]. *)
Fixpoint number (s : string) (acc : Z) : option Z :=
  match s with
  | EmptyString => Some acc
  | String c s => d ← digit c; number s (10 * acc + d)%Z
  end.

(** [pd.to_datetime(date)] for a string, at day granularity: the day that
    a string in the form 'YYYY-MM-DD' names.  The result is [None] for
    every other string, and for a string in this form that names no day of
    the calendar: pandas then raises ([DateParseError] for '2021-02-29') or
    reads the string in another way ('1-08-01' is the eighth of January
    2001), and none of this is modelled.  The simulator is modelled from
    the dates that [pd.to_datetime] returned, [__init__] below takes them
    as day numbers; the dashboard compares its index with strings, which
    pandas reads in the same way. *)
Definition pd_to_datetime (date : string) : option Timestamp :=
  match date with
  | String y1 (String y2 (String y3 (String y4 (String "-" (String m1 (String m2
      (String "-" (String d1 (String d2 EmptyString))))))))) =>
      y ← number (String y1 (String y2 (String y3 (String y4 EmptyString)))) 0;
      m ← number (String m1 (String m2 EmptyString)) 0;
      d ← number (String d1 (String d2 EmptyString)) 0;
      if Calendar.is_date y m d then Some (Calendar.days_from_civil y m d) else None
  | _ => None
  end.

(** [pd.date_range(start, end, freq='D')]: start, start + 1 day, ... while
    not after [end]; empty when [end] is before [start]. *)
Definition pd_date_range (start_date end_date : Timestamp) : list Timestamp :=
  (fun i : nat => (start_date + Z.of_nat i)%Z) <$> seq 0 (Z.to_nat (end_date - start_date + 1)).

(** [Index.unique()]: the distinct values in order of first appearance. *)
Definition unique (l : list Z) : list Z :=
  fold_left (fun seen x => if decide (x ∈ seen) then seen else (seen ++ [x])%list) l [].

(** ** Floats, Python's [min] and [max], NumPy arrays *)

Module Float.
Abbreviation float := (option Q) (only parsing).
Definition nan : float := None.

Definition lift2 (f : Q -> Q -> Q) (a b : float) : float :=
  match a, b with
  | Some x, Some y => Some (f x y)
  | _, _ => nan
  end.
Definition add : float -> float -> float := lift2 Qplus.
Definition sub : float -> float -> float := lift2 Qminus.
Definition mul : float -> float -> float := lift2 Qmult.
Definition div : float -> float -> float := lift2 Qdiv.

(** Every comparison with NaN is false. *)
Definition lt (a b : float) : bool :=
  match a, b with
  | Some x, Some y => QMicromega.Qlt_bool x y
  | _, _ => false
  end.
Definition gt (a b : float) : bool := lt b a.

(** The builtins [min(a, b)] and [max(a, b)]: the first argument is kept
    unless the second compares strictly better. *)
Definition py_min (a b : float) : float := if lt b a then b else a.
Definition py_max (a b : float) : float := if gt b a then b else a.

(** [x.clip(lower, upper)] on one cell; NaN stays NaN. *)
Definition clip (lower : Q) (upper : option Q) (x : float) : float :=
  match x with
  | None => nan
  | Some q =>
      let q := if QMicromega.Qlt_bool q lower then lower else q in
      match upper with
      | Some u => Some (if QMicromega.Qlt_bool u q then u else q)
      | None => Some q
      end
  end.

(** [count / total] for a count of days and a number of days. *)
Definition ratio (count total : nat) : float :=
  match total with
  | O => nan
  | S _ => Some (inject_Z (Z.of_nat count) / inject_Z (Z.of_nat total))%Q
  end.
End Float.
Import Float.

(** Elementwise operations on arrays and Series of equal length. *)
Module Arr.
Definition add (a b : list float) : list float := zip_with Float.add a b.
Definition sub (a b : list float) : list float := zip_with Float.sub a b.
Definition scale (a : list float) (c : Q) : list float := (fun x => Float.mul x (Some c)) <$> a.
Definition shift (c : Q) (a : list float) : list float := (fun x => Float.add (Some c) x) <$> a.
Definition clip (lower : Q) (upper : option Q) (a : list float) : list float :=
  Float.clip lower upper <$> a.
Definition and (a b : list bool) : list bool := zip_with andb a b.
Definition or (a b : list bool) : list bool := zip_with orb a b.
Definition gt (a : list float) (c : Q) : list bool := (fun x => Float.gt x (Some c)) <$> a.
Definition lt (a : list float) (c : Q) : list bool := (fun x => Float.lt x (Some c)) <$> a.
(** [mask.sum()]: the number of [True] entries. *)
Definition count (mask : list bool) : nat := length (filter (fun b => b = true) mask).
(** [np.where(cond, a, b)] with a scalar [b]. *)
Definition where_ (cond : list bool) (a : list float) (b : float) : list float :=
  zip_with (fun (c : bool) x => if c then x else b) cond a.
(** [arr[mask]]. *)
Fixpoint select {A} (mask : list bool) (a : list A) : list A :=
  match mask, a with
  | m :: mask, x :: a => if m then x :: select mask a else select mask a
  | _, _ => []
  end.
End Arr.

(** Sum and count of the cells that are not NaN. *)
Definition observations (xs : list float) : list Q := omap id xs.
Definition Qsum (xs : list Q) : Q := foldr Qplus 0%Q xs.

(** [Series.mean()]: NaN cells are skipped; NaN when nothing is left. *)
Definition series_mean (xs : list float) : float :=
  let obs := observations xs in
  match obs with
  | [] => nan
  | _ => Some (Qsum obs / inject_Z (Z.of_nat (length obs)))%Q
  end.

(** [Series.rolling(window, center=True, min_periods).mean()]: the window of
    position [i] is [i + offset - window + 1 .. i + offset] with
    [offset = (window - 1) / 2], cut to the positions that exist; the result
    is NaN when fewer than [min_periods] cells of it are not NaN. *)
Definition rolling_window (window : nat) (xs : list float) (i : nat) : list float :=
  let offset := ((window - 1) / 2)%nat in
  let lo := (i + offset - (window - 1))%nat in
  let hi := (i + offset)%nat in
  take (hi + 1 - lo) (drop lo xs).

Definition rolling_mean (window min_periods : nat) (xs : list float) : list float :=
  (fun i =>
     let obs := observations (rolling_window window xs i) in
     if (length obs <? min_periods)%nat then nan else series_mean (Some <$> obs))
  <$> seq 0 (length xs).

(** [np.pi], the double nearest to pi, exactly. *)
Definition np_pi : Q := (884279719003555 # 281474976710656)%Q.

(** ** The [DataFrame] *)

(** What pandas raises on the paths the simulator takes: [KeyError] for a
    column that is not there, [ValueError] for an array that does not fit
    the index. [InvalidConfiguration] is the error of the specification's
    taxonomy; no statement of [simulatore_dati.py] raises it. *)
Inductive exn : Type :=
| KeyError (key : string)
| ValueError (msg : string)
| InvalidConfiguration.

Record DataFrame : Type := mkDataFrame {
  index : list Timestamp;
  columns : gmap string (list float)
}.

(** [df[key]]. *)
Definition getitem (key : string) (df : DataFrame) : exn + list float :=
  match columns df !! key with
  | Some col => inr col
  | None => inl (KeyError key)
  end.

(** [df[key] = values] for an array or a Series on the same index. *)
Definition setitem (key : string) (values : list float) (df : DataFrame) : exn + DataFrame :=
  if decide (length values = length (index df))
  then inr (mkDataFrame (index df) (<[key := values]> (columns df)))
  else inl (ValueError "Length of values does not match length of index").

(** [df[key] = value] for a scalar, which is repeated on every row. *)
Definition setitem_scalar (key : string) (value : float) (df : DataFrame) : DataFrame :=
  mkDataFrame (index df) (<[key := replicate (length (index df)) value]> (columns df)).

(** [df[mask]]: the rows where the mask holds, a new frame. *)
Definition boolean_index (mask : list bool) (df : DataFrame) : DataFrame :=
  mkDataFrame (Arr.select mask (index df)) (Arr.select mask <$> columns df).

(** [df.loc[mask, key] = value]: the cells of the column on the rows where
    the mask holds; a column that does not exist yet starts as NaN. *)
Definition loc_setitem (mask : list bool) (key : string) (value : float) (df : DataFrame) : DataFrame :=
  let old := default (replicate (length (index df)) nan) (columns df !! key) in
  mkDataFrame (index df)
    (<[key := zip_with (fun (m : bool) cell => if m then value else cell) mask old]> (columns df)).

(** ** The random generator *)

(** The state of [np.random] and its three basic samplers. [seed] is
    [np.random.seed]; a uniform draw lies in [0, 1) and an exponential draw
    is not negative. *)
Class RandomSource (S : Type) : Type := {
  seed : Z -> S;
  standard_normal : S -> Q * S;
  random_sample : S -> Q * S;
  standard_exponential : S -> Q * S;
  random_sample_range : forall s, (0 <= (random_sample s).1 < 1)%Q;
  standard_exponential_nonneg : forall s, (0 <= (standard_exponential s).1)%Q
}.

(** [size] successive draws. *)
Fixpoint draws {S : Type} (sampler : S -> Q * S) (size : nat) (s : S) : list Q * S :=
  match size with
  | O => ([], s)
  | Datatypes.S n =>
      let '(x, s1) := sampler s in
      let '(xs, s2) := draws sampler n s1 in
      (x :: xs, s2)
  end.

(** [index.year == year], the mask of the rows of a year. *)
Definition in_year (year : Z) (idx : list Timestamp) : list bool :=
  (fun d => Calendar.year_of d =? year)%Z <$> idx.

(** ** The simulator *)

Record ViticultureSimulator : Type := mkSimulator {
  start_date : Timestamp;
  end_date : Timestamp;
  date_range : list Timestamp;
  data : DataFrame;
  total_hectares : Q;
  years : list Z
}.

Definition with_data (self : ViticultureSimulator) (df : DataFrame) : ViticultureSimulator :=
  mkSimulator (start_date self) (end_date self) (date_range self) df
    (total_hectares self) (years self).

(** [ViticultureSimulator.__init__]. *)
Definition __init__ (start_date end_date : Timestamp) (total_hectares : Q) : ViticultureSimulator :=
  let date_range := pd_date_range start_date end_date in
  let data := mkDataFrame date_range ∅ in
  mkSimulator start_date end_date date_range data total_hectares
    (unique (Calendar.year_of <$> index data)).

(** Computations that draw from the generator and may raise. *)
Definition M (S A : Type) : Type := S -> exn + (A * S).
Definition ret {S A} (a : A) : M S A := fun s => inr (a, s).
Definition bind {S A B} (c : M S A) (k : A -> M S B) : M S B :=
  fun s => match c s with
           | inl e => inl e
           | inr (a, s') => k a s'
           end.
Definition try {S A} (r : exn + A) : M S A :=
  fun s => match r with
           | inl e => inl e
           | inr a => inr (a, s)
           end.
Definition sample {S} (size : nat) (sampler : S -> Q * S) (f : Q -> Q) : M S (list float) :=
  fun s => let '(xs, s') := draws sampler size s in inr ((fun x => Some (f x)) <$> xs, s').

Notation "'let*' x ':=' c 'in' k" := (bind c (fun x => k))
  (at level 10, x name, c at level 100, k at level 200).

(** [for x in xs: self = body(self, x)]. *)
Fixpoint for_each {S A B} (xs : list A) (body : B -> A -> M S B) (self : B) : M S B :=
  match xs with
  | [] => ret self
  | x :: xs => let* self := body self x in for_each xs body self
  end.

Section Simulator.
Context {S : Type} `{RandomSource S}.
Variable np_sin : Q -> Q.

(** [np.random.normal(loc, scale, size)], [np.random.rand(size)] and
    [np.random.exponential(scale, size)]. *)
Definition np_random_normal (loc scale : Q) (size : nat) : M S (list float) :=
  sample size standard_normal (fun z => loc + scale * z)%Q.
Definition np_random_rand (size : nat) : M S (list float) :=
  sample size random_sample (fun u => u).
Definition np_random_exponential (scale : Q) (size : nat) : M S (list float) :=
  sample size standard_exponential (fun e => scale * e)%Q.
(** [np.random.normal(loc, scale)], one number. *)
Definition np_random_normal1 (loc scale : Q) : M S float :=
  fun s => let '(z, s') := standard_normal s in inr (Some (loc + scale * z)%Q, s').

(** A seasonal sinusoid [amplitude * sin(2 pi (day - phase) / 365)]. *)
Definition seasonal (amplitude : Q) (phase : Z) (day_of_year : Z) : Q :=
  (amplitude * np_sin (2 * np_pi * inject_Z (day_of_year - phase) / 365))%Q.

(** [ViticultureSimulator.generate_ambient_data]. *)
Definition generate_ambient_data (self : ViticultureSimulator) : M S ViticultureSimulator :=
  let num_days := length (date_range self) in
  let avg_annual_temp : Q := 12.0%Q in
  let day_of_year := Calendar.dayofyear <$> index (data self) in
  let seasonal_temp_effect := (fun d => Some (seasonal 10 110 d + 3)%Q) <$> day_of_year in
  let* random_noise := np_random_normal 0 3 num_days in
  let smoothed_noise := rolling_mean 7 1 random_noise in
  let* df := try (setitem "Temperature_C"
                    (Arr.add (Arr.shift avg_annual_temp seasonal_temp_effect) smoothed_noise)
                    (data self)) in
  let rain_prob_seasonal := (fun d => Some (0.25 + seasonal 0.2 60 d)%Q) <$> day_of_year in
  let* uniform := np_random_rand num_days in
  let is_raining := zip_with Float.lt uniform rain_prob_seasonal in
  let* rain := np_random_exponential 7.0 num_days in
  let* df := try (setitem "Precipitation_mm" (Arr.where_ is_raining rain (Some 0%Q)) df) in
  let* humidity := np_random_normal 75 12 num_days in
  let* df := try (setitem "Humidity_percent" (Arr.clip 0 (Some 100%Q) humidity) df) in
  let seasonal_irradiance_effect := (fun d => Some (seasonal 150 80 d)) <$> day_of_year in
  let* irradiance_noise := np_random_normal 0 40 num_days in
  let* df := try (setitem "Solar_Irradiance_W_m2"
                    (Arr.clip 20 None
                       (Arr.add (Arr.shift 180 seasonal_irradiance_effect) irradiance_noise))
                    df) in
  let* temperature := try (getitem "Temperature_C" df) in
  let* irradiance := try (getitem "Solar_Irradiance_W_m2" df) in
  let* df := try (setitem "Temperature_C" (Arr.add temperature (Arr.scale irradiance 0.005)) df) in
  let* humidity := try (getitem "Humidity_percent" df) in
  let* temperature := try (getitem "Temperature_C" df) in
  let* df := try (setitem "Humidity_percent" (Arr.sub humidity (Arr.scale temperature 0.5)) df) in
  let* humidity := try (getitem "Humidity_percent" df) in
  let* df := try (setitem "Humidity_percent" (Arr.clip 0 (Some 100%Q) humidity) df) in
  let df := setitem_scalar "Hectares_Simulated" (Some (total_hectares self)) df in
  ret (with_data self df).

(** One turn of the loop over [self.years]. *)
Definition annual_metrics_of_year (self : ViticultureSimulator) (year : Z)
  : M S ViticultureSimulator :=
  let yearly_data := boolean_index (in_year year (index (data self))) (data self) in
  let* base_yield := np_random_normal1 12000 800 in
  let* irradiance := try (getitem "Solar_Irradiance_W_m2" yearly_data) in
  let mean_solar_irradiance := series_mean irradiance in
  let solar_effect_annual := Float.mul (Float.sub mean_solar_irradiance (Some 200%Q)) (Some 15%Q) in
  let total_days := length (index yearly_data) in
  let* temperature_hot := try (getitem "Temperature_C" yearly_data) in
  let* temperature_cold := try (getitem "Temperature_C" yearly_data) in
  let extreme_temp_days_ratio :=
    Float.ratio (Arr.count (Arr.or (Arr.gt temperature_hot 35) (Arr.lt temperature_cold 5)))
      total_days in
  let extreme_temp_penalty := Float.mul extreme_temp_days_ratio (Some 4000%Q) in
  let* temperature := try (getitem "Temperature_C" yearly_data) in
  let* humidity := try (getitem "Humidity_percent" yearly_data) in
  let* precipitation := try (getitem "Precipitation_mm" yearly_data) in
  let disease_risk_days_ratio :=
    Float.ratio
      (Arr.count (Arr.and (Arr.and (Arr.gt temperature 25) (Arr.gt humidity 80))
                    (Arr.gt precipitation 0)))
      total_days in
  let disease_risk_penalty := Float.mul disease_risk_days_ratio (Some 3500%Q) in
  let* precipitation := try (getitem "Precipitation_mm" yearly_data) in
  let extreme_precip_days_ratio := Float.ratio (Arr.count (Arr.gt precipitation 20)) total_days in
  let extreme_precip_penalty := Float.mul extreme_precip_days_ratio (Some 3000%Q) in
  let final_yield :=
    Float.sub
      (Float.sub (Float.sub (Float.add base_yield solar_effect_annual) extreme_temp_penalty)
         disease_risk_penalty)
      extreme_precip_penalty in
  let final_yield := py_max (py_min final_yield (Some 15000%Q)) (Some 8000%Q) in
  let* temperature := try (getitem "Temperature_C" yearly_data) in
  let mean_temperature_c := series_mean temperature in
  let* irradiance := try (getitem "Solar_Irradiance_W_m2" yearly_data) in
  let mean_solar_irradiance_w := series_mean irradiance in
  let* base_sugar := np_random_normal1 17 0.5 in
  let final_sugar_level :=
    Float.add
      (Float.add base_sugar (Float.div mean_solar_irradiance_w (Some 200%Q)))
      (Float.div mean_temperature_c (Some 20%Q)) in
  let final_sugar_level := py_max (py_min final_sugar_level (Some 19.5%Q)) (Some 15%Q) in
  let* base_cost_per_ha := np_random_normal1 10000 1000 in
  let final_production_cost_per_ha := py_max base_cost_per_ha (Some 8000%Q) in
  let* base_price := np_random_normal1 4.0 0.8 in
  let quality_effect := Float.mul (Float.sub final_sugar_level (Some 17.5%Q)) (Some 0.5%Q) in
  let final_selling_price_per_kg :=
    py_max (py_min (Float.add base_price quality_effect) (Some 6.0%Q)) (Some 3.5%Q) in
  let revenue_per_ha :=
    Float.sub (Float.mul final_yield final_selling_price_per_kg) final_production_cost_per_ha in
  let df := data self in
  let df := loc_setitem (in_year year (index df)) "Yield_kg_ha" final_yield df in
  let df := loc_setitem (in_year year (index df)) "Grape_Sugar_Level" final_sugar_level df in
  let df := loc_setitem (in_year year (index df)) "Production_Cost_EUR_ha" final_production_cost_per_ha df in
  let df := loc_setitem (in_year year (index df)) "Selling_Price_EUR_kg" final_selling_price_per_kg df in
  let df := loc_setitem (in_year year (index df)) "Revenue_EUR_ha" revenue_per_ha df in
  ret (with_data self df).

(** [ViticultureSimulator.calculate_annual_metrics]. *)
Definition calculate_annual_metrics (self : ViticultureSimulator) : M S ViticultureSimulator :=
  let df := data self in
  let df := setitem_scalar "Yield_kg_ha" nan df in
  let df := setitem_scalar "Grape_Sugar_Level" nan df in
  let df := setitem_scalar "Production_Cost_EUR_ha" nan df in
  let df := setitem_scalar "Selling_Price_EUR_kg" nan df in
  let df := setitem_scalar "Revenue_EUR_ha" nan df in
  for_each (years self) annual_metrics_of_year (with_data self df).

(** [ViticultureSimulator.run_simulation]. *)
Definition run_simulation (self : ViticultureSimulator) : M S DataFrame :=
  let* self := generate_ambient_data self in
  let* self := calculate_annual_metrics self in
  ret (data self).
End Simulator.

(** ** A concrete generator and sine, to run the simulator *)

Module TestSource.
(** A linear congruential generator; the three samplers read the new
    state in three different ways. *)
Definition modulus : Z := 2147483648.
Definition next (s : Z) : Z := ((1103515245 * s + 12345) mod modulus)%Z.
Definition uniform (s : Z) : Q * Z := (next s # 2147483648, next s).
Definition normal (s : Z) : Q * Z := (((next s) mod 2001 - 1000) # 400, next s).
Definition exponential (s : Z) : Q * Z := ((next s) mod 4096 # 1024, next s).

Lemma uniform_range s : (0 <= (uniform s).1 < 1)%Q.
Proof.
  pose proof (Z.mod_pos_bound (1103515245 * s + 12345) modulus eq_refl) as Hb.
  unfold uniform, next, Qle, Qlt; simpl. unfold modulus in *. lia.
Qed.

Lemma exponential_nonneg s : (0 <= (exponential s).1)%Q.
Proof.
  pose proof (Z.mod_pos_bound (next s) 4096 eq_refl) as Hb.
  unfold exponential, Qle; simpl. lia.
Qed.

#[export] Instance source : RandomSource Z := {|
  seed n := (n mod modulus)%Z;
  standard_normal := normal;
  random_sample := uniform;
  standard_exponential := exponential;
  random_sample_range := uniform_range;
  standard_exponential_nonneg := exponential_nonneg
|}.

(** Bhaskara's rational approximation of the sine, after reduction of the
    angle to one period. *)
Definition sin (x : Q) : Q :=
  let period := (2 * np_pi)%Q in
  let t := (x - inject_Z (Qfloor (x / period)) * period)%Q in
  let half (u : Q) : Q := (16 * u * (np_pi - u) / (5 * np_pi * np_pi - 4 * u * (np_pi - u)))%Q in
  if QMicromega.Qlt_bool np_pi t then (- half (t - np_pi))%Q else half t.
End TestSource.

(** A generator whose every normal draw is [z]: the annual draws can then be
    chosen freely. *)
Module ConstSource.
Lemma zero_range : (0 <= 0 < 1)%Q.
Proof. split; [apply Qle_refl | reflexivity]. Qed.

Definition source (z : Q) : RandomSource unit := {|
  seed _ := tt;
  standard_normal _ := (z, tt);
  random_sample _ := (0%Q, tt);
  standard_exponential _ := (0%Q, tt);
  random_sample_range _ := zero_range;
  standard_exponential_nonneg _ := Qle_refl 0
|}.
End ConstSource.

(** ** The draws of a run *)

(** The three kinds of draw that the simulator makes. *)
Inductive Draw : Type := Normal | Uniform | Exponential.

Definition sampler {S : Type} `{RandomSource S} (kind : Draw) : S -> Q * S :=
  match kind with
  | Normal => standard_normal
  | Uniform => random_sample
  | Exponential => standard_exponential
  end.

(** The draws of a run over [num_days] days in [num_years] calendar years,
    in the order in which the code makes them: five arrays for the climate,
    then four numbers for each year. *)
Definition draws_of_run (num_days num_years : nat) : list Draw :=
  (replicate num_days Normal ++ replicate num_days Uniform
   ++ replicate num_days Exponential ++ replicate num_days Normal
   ++ replicate num_days Normal ++ replicate (num_years * 4) Normal)%list.

(** Two generators, each in a state of its own, deliver the same numbers
    for the draws listed. *)
Fixpoint same_draws {S1 S2 : Type} `{RandomSource S1} `{RandomSource S2}
    (kinds : list Draw) (s1 : S1) (s2 : S2) : Prop :=
  match kinds with
  | [] => True
  | kind :: kinds =>
      (sampler kind s1).1 = (sampler kind s2).1
      /\ same_draws kinds (sampler kind s1).2 (sampler kind s2).2
  end.

(** Two computations, one on each generator, that make the draws [kinds]
    and come to the same end, the same value or the same exception, when
    the numbers drawn are the same. *)
Definition agree {S1 S2 A : Type} `{RandomSource S1} `{RandomSource S2}
    (kinds : list Draw) (c1 : M S1 A) (c2 : M S2 A) : Prop :=
  forall (rest : list Draw) (s1 : S1) (s2 : S2),
    same_draws (kinds ++ rest)%list s1 s2 ->
    match c1 s1, c2 s2 with
    | inr (a1, s1'), inr (a2, s2') => a1 = a2 /\ same_draws rest s1' s2'
    | inl e1, inl e2 => e1 = e2
    | _, _ => False
    end.

(** ** The outcome of a run *)

(** What a computation returned, and the state it left, when it did not
    raise. *)
Definition returned {S A} (r : exn + A * S) : option A :=
  match r with
  | inr (a, _) => Some a
  | inl _ => None
  end.
Definition state_returned {S A} (r : exn + A * S) : option S :=
  match r with
  | inr (_, s) => Some s
  | inl _ => None
  end.

(** The simulator after [generate_ambient_data] on 2020-12-31 and
    2021-01-01 with 100 hectares, from state 42 of the test generator, and
    after [calculate_annual_metrics] on that, both computed. *)
Definition new_year_generated : ViticultureSimulator * Z :=
  Eval vm_compute in
    match @generate_ambient_data Z TestSource.source TestSource.sin
            (__init__ 18627 18628 100) 42%Z with
    | inr p => p
    | inl _ => (__init__ 18627 18628 100, 42%Z)
    end.
Definition new_year_calculated : ViticultureSimulator * Z :=
  Eval vm_compute in
    match @calculate_annual_metrics Z TestSource.source
            new_year_generated.1 new_year_generated.2 with
    | inr p => p
    | inl _ => new_year_generated
    end.

(** ** The cells of a table *)

(** [df[key].iloc[i]], when the column and the row exist. *)
Definition cell (df : DataFrame) (key : string) (i : nat) : option float :=
  col ← columns df !! key; col !! i.

Definition climate_columns : list string :=
  ["Temperature_C"; "Precipitation_mm"; "Humidity_percent"; "Solar_Irradiance_W_m2"].
Definition annual_columns : list string :=
  ["Yield_kg_ha"; "Grape_Sugar_Level"; "Production_Cost_EUR_ha"; "Selling_Price_EUR_kg";
   "Revenue_EUR_ha"].

(** A column without NaN. *)
Definition finite (a : list float) : Prop := Forall is_Some a.

(** ** What one run draws, and the columns in closed form *)

(** The five arrays that [generate_ambient_data] draws, in the order of the
    calls, and the state of the generator after them. *)
Record AmbientDraws (S : Type) : Type := mkAmbientDraws {
  noise_drawn : list Q;
  uniform_drawn : list Q;
  rain_drawn : list Q;
  humidity_drawn : list Q;
  irradiance_drawn : list Q;
  state_after : S
}.
Arguments mkAmbientDraws {S}.
Arguments noise_drawn {S}.
Arguments uniform_drawn {S}.
Arguments rain_drawn {S}.
Arguments humidity_drawn {S}.
Arguments irradiance_drawn {S}.
Arguments state_after {S}.

Definition ambient_draws {S} `{RandomSource S} (num_days : nat) (s : S) : AmbientDraws S :=
  let d1 := draws standard_normal num_days s in
  let d2 := draws random_sample num_days d1.2 in
  let d3 := draws standard_exponential num_days d2.2 in
  let d4 := draws standard_normal num_days d3.2 in
  let d5 := draws standard_normal num_days d4.2 in
  mkAmbientDraws d1.1 d2.1 d3.1 d4.1 d5.1 d5.2.

Section Columns.
Variable np_sin : Q -> Q.

(** Temperature before the coupling pass: mean, seasonal curve and
    smoothed noise. *)
Definition temperature_base (idx : list Timestamp) (noise : list Q) : list float :=
  Arr.add
    (Arr.shift 12.0 ((fun d => Some (seasonal np_sin 10 110 d + 3)%Q) <$> (Calendar.dayofyear <$> idx)))
    (rolling_mean 7 1 ((fun z => Some (0 + 3 * z)%Q) <$> noise)).

(** Rain: the amount drawn on the days where the uniform draw is below
    the seasonal probability, zero on the others. *)
Definition precipitation (idx : list Timestamp) (uniform rain : list Q) : list float :=
  Arr.where_
    (zip_with Float.lt ((fun u => Some u) <$> uniform)
       ((fun d => Some (0.25 + seasonal np_sin 0.2 60 d)%Q) <$> (Calendar.dayofyear <$> idx)))
    ((fun e => Some (7.0 * e)%Q) <$> rain) (Some 0%Q).

Definition humidity_base (humidity : list Q) : list float :=
  Arr.clip 0 (Some 100%Q) ((fun z => Some (75 + 12 * z)%Q) <$> humidity).

Definition irradiance (idx : list Timestamp) (noise : list Q) : list float :=
  Arr.clip 20 None
    (Arr.add
       (Arr.shift 180 ((fun d => Some (seasonal np_sin 150 80 d)) <$> (Calendar.dayofyear <$> idx)))
       ((fun z => Some (0 + 40 * z)%Q) <$> noise)).

(** The coupling pass. *)
Definition temperature_coupled (temperature irradiance : list float) : list float :=
  Arr.add temperature (Arr.scale irradiance 0.005).
Definition humidity_coupled (humidity temperature : list float) : list float :=
  Arr.sub humidity (Arr.scale temperature 0.5).

(** The columns after [generate_ambient_data], every assignment kept. *)
Definition ambient_columns {S} (idx : list Timestamp) (hectares : Q) (w : AmbientDraws S)
    (before : gmap string (list float)) : gmap string (list float) :=
  let T0 := temperature_base idx (noise_drawn w) in
  let P := precipitation idx (uniform_drawn w) (rain_drawn w) in
  let H0 := humidity_base (humidity_drawn w) in
  let I := irradiance idx (irradiance_drawn w) in
  let T := temperature_coupled T0 I in
  let H1 := humidity_coupled H0 T in
  <["Hectares_Simulated" := replicate (length idx) (Some hectares)]>
    (<["Humidity_percent" := Arr.clip 0 (Some 100%Q) H1]>
       (<["Humidity_percent" := H1]>
          (<["Temperature_C" := T]>
             (<["Solar_Irradiance_W_m2" := I]>
                (<["Humidity_percent" := H0]>
                   (<["Precipitation_mm" := P]>
                      (<["Temperature_C" := T0]> before))))))).
End Columns.

(** ** The annual values in closed form *)

(** The five numbers written for one year. *)
Record AnnualMetrics : Type := mkAnnualMetrics {
  final_yield : Q;
  final_sugar_level : Q;
  final_production_cost_per_ha : Q;
  final_selling_price_per_kg : Q;
  revenue_per_ha : Q
}.

(** The five assignments that close one turn of the loop. *)
Definition broadcast (year : Z) (m : AnnualMetrics) (df : DataFrame) : DataFrame :=
  let mask := in_year year (index df) in
  loc_setitem mask "Revenue_EUR_ha" (Some (revenue_per_ha m))
    (loc_setitem mask "Selling_Price_EUR_kg" (Some (final_selling_price_per_kg m))
       (loc_setitem mask "Production_Cost_EUR_ha" (Some (final_production_cost_per_ha m))
          (loc_setitem mask "Grape_Sugar_Level" (Some (final_sugar_level m))
             (loc_setitem mask "Yield_kg_ha" (Some (final_yield m)) df)))).

(** The clamped ranges, and revenue as yield times price minus cost. *)
Definition in_range (m : AnnualMetrics) : Prop :=
  (8000 <= final_yield m <= 15000)%Q
  /\ (15 <= final_sugar_level m <= 19.5)%Q
  /\ (8000 <= final_production_cost_per_ha m)%Q
  /\ (3.5 <= final_selling_price_per_kg m <= 6.0)%Q
  /\ revenue_per_ha m
     = (final_yield m * final_selling_price_per_kg m - final_production_cost_per_ha m)%Q.

(** The cost is at least the cost that was drawn, [N(10000, 1000)]. *)
Definition cost_drawn {S} `{RandomSource S} (m : AnnualMetrics) : Prop :=
  exists s : S, (10000 + 1000 * (standard_normal s).1 <= final_production_cost_per_ha m)%Q.

(** Every row of the year carries the five numbers. *)
Definition year_has (df : DataFrame) (year : Z) (m : AnnualMetrics) : Prop :=
  forall (i : nat) (d : Timestamp),
    index df !! i = Some d -> Calendar.year_of d = year ->
    cell df "Yield_kg_ha" i = Some (Some (final_yield m))
    /\ cell df "Grape_Sugar_Level" i = Some (Some (final_sugar_level m))
    /\ cell df "Production_Cost_EUR_ha" i = Some (Some (final_production_cost_per_ha m))
    /\ cell df "Selling_Price_EUR_kg" i = Some (Some (final_selling_price_per_kg m))
    /\ cell df "Revenue_EUR_ha" i = Some (Some (revenue_per_ha m)).

(** A column that exists and is as long as the index. *)
Definition has_column (df : DataFrame) (key : string) : Prop :=
  exists col, columns df !! key = Some col /\ length col = length (index df).

(** What [calculate_annual_metrics] reads: the four climate columns, full
    length and without NaN. *)
Definition climate_ready (df : DataFrame) : Prop :=
  forall key, key ∈ climate_columns ->
    exists col, columns df !! key = Some col /\ length col = length (index df) /\ finite col.

(** What holds of the simulator after the loop has handled the years
    [done], for a loop started on [before]: index and climate columns are
    as before, the annual columns exist, and the rows of every year handled
    carry values in range. *)
Definition annual_invariant {S} `{RandomSource S} (before : DataFrame) (done : list Z)
    (self : ViticultureSimulator) : Prop :=
  index (data self) = index before
  /\ climate_ready (data self)
  /\ (forall key, key ∉ annual_columns -> columns (data self) !! key = columns before !! key)
  /\ (forall key, key ∈ annual_columns -> has_column (data self) key)
  /\ (forall year, year ∈ done ->
        exists m, in_range m /\ cost_drawn m /\ year_has (data self) year m).

(** Two tables with the same index and the same columns outside the five
    annual ones. *)
Definition same_outside_annual (before after : DataFrame) : Prop :=
  index after = index before
  /\ forall key, key ∉ annual_columns -> columns after !! key = columns before !! key.

(** ** The dashboard: the checks at start-up and the detail view

    [dashboard.py] reads the table back from the CSV file and works on it.
    Here it works on a [DataFrame]; reading the file, the figures of plotly
    and the formatting of numbers as text are not part of the model: the
    detail view is modelled up to the numbers and series that it hands to
    them. *)

(** [required_columns]. *)
Definition required_columns : list string :=
  ["Temperature_C"; "Precipitation_mm"; "Humidity_percent";
   "Solar_Irradiance_W_m2"; "Hectares_Simulated"; "Yield_kg_ha";
   "Grape_Sugar_Level"; "Production_Cost_EUR_ha"; "Selling_Price_EUR_kg";
   "Revenue_EUR_ha"].

(** [df.empty]: one of the two axes has length 0. *)
Definition empty (df : DataFrame) : bool :=
  (length (index df) =? 0)%nat || (size (columns df) =? 0)%nat.

(** [[col for col in required_columns if col not in df.columns]]. *)
Definition missing_columns (df : DataFrame) : list string :=
  filter (fun col => col ∉ dom (columns df)) required_columns.

(** The two checks after loading; each failure prints its message and ends
    the process with [sys.exit(1)]. *)
Inductive startup_failure : Type :=
| EmptyFile
| MissingColumns (cols : list string).

Definition formal_checks (df : DataFrame) : startup_failure + unit :=
  if empty df then inl EmptyFile
  else match missing_columns df with
       | [] => inr tt
       | cols => inl (MissingColumns cols)
       end.

(** What the callback can raise: [KeyError] from [df_yearly[key]],
    [IndexError] from [.iloc[0]]. *)
Inductive callback_error : Type :=
| CallbackKeyError (key : string)
| CallbackIndexError.

Definition column (key : string) (df : DataFrame) : callback_error + list float :=
  match columns df !! key with
  | Some col => inr col
  | None => inl (CallbackKeyError key)
  end.

Definition iloc0 (col : list float) : callback_error + float :=
  match col with
  | x :: _ => inr x
  | [] => inl CallbackIndexError
  end.

Definition and_then {A B} (r : callback_error + A) (k : A -> callback_error + B)
  : callback_error + B :=
  match r with
  | inl e => inl e
  | inr a => k a
  end.

Notation "'let+' x ':=' c 'in' k" := (and_then c (fun x => k))
  (at level 10, x name, c at level 100, k at level 200).

(** [Series.sum()]: NaN cells are skipped; 0 when nothing is left. *)
Definition series_sum (xs : list float) : float := Some (Qsum (observations xs)).

(** [series == c] for a number [c]; false on NaN. *)
Definition series_eq (a : list float) (c : Q) : list bool :=
  (fun x => match x with Some q => Qeq_bool q c | None => false end) <$> a.

(** [(idx >= first_day) & (idx <= last_day)] for two dates. *)
Definition between (first_day last_day : Timestamp) (idx : list Timestamp) : list bool :=
  Arr.and ((fun d => (first_day <=? d)%Z) <$> idx) ((fun d => (d <=? last_day)%Z) <$> idx).

(** [(df.index >= start_date) & (df.index <= end_date)] for two strings,
    which pandas reads as dates; [None] where [pd_to_datetime] does not say
    what it reads. *)
Definition vintage_mask (start_date end_date : string) (idx : list Timestamp)
  : option (list bool) :=
  first_day ← pd_to_datetime start_date;
  last_day ← pd_to_datetime end_date;
  Some (between first_day last_day idx).

(** The numbers and series that [update_detailed_view] computes, in the
    order of the source; the last four are what the three figures plot. *)
Record DetailValues : Type := mkDetailValues {
  yearly_yield : float;
  total_revenue : float;
  total_cost : float;
  yearly_quality : float;
  extreme_heat_days : nat;
  frost_days : nat;
  extreme_rain_days : nat;
  disease_risk_days : nat;
  total_precip : float;
  avg_humidity : float;
  climate_figure : list Timestamp * list float * list float * list float;
  precip_histogram : list float;
  rainy_days_count : nat;
  dry_days_count : nat
}.

(** The three shapes of the tuple returned: ["N.D."] everywhere,
    ["Nessun dato"] everywhere, or the values of the vintage. *)
Inductive DetailView : Type :=
| NotAvailable
| NoData
| Detail (values : DetailValues).

(** [update_detailed_view], on the table [df] of the module.  The bounds
    of the vintage are the strings [f'{selected_year}-08-01'] and
    [f'{selected_year + 1}-09-30'], which are dates in the form
    'YYYY-MM-DD' when both years have four digits; for the other years the
    result is [None]: what the code does then depends on how pandas reads
    such a string, which is not modelled. *)
Definition update_detailed_view (df : DataFrame) (selected_year : option Z)
  : option (callback_error + DetailView) :=
  match selected_year with
  | None => Some (inr NotAvailable)
  | Some selected_year =>
      let start_date := pretty selected_year ++ "-08-01" in
      let end_date := pretty (selected_year + 1)%Z ++ "-09-30" in
      mask ← vintage_mask start_date end_date (index df);
      let df_yearly := boolean_index mask df in
      Some (
      if empty df_yearly then inr NoData
      else
        let+ yield_kg_ha := column "Yield_kg_ha" df_yearly in
        let+ yearly_yield := iloc0 yield_kg_ha in
        let+ revenue := column "Revenue_EUR_ha" df_yearly in
        let+ yearly_revenue_per_ha := iloc0 revenue in
        let+ cost := column "Production_Cost_EUR_ha" df_yearly in
        let+ yearly_cost_per_ha := iloc0 cost in
        let+ sugar := column "Grape_Sugar_Level" df_yearly in
        let+ yearly_quality := iloc0 sugar in
        let+ hectares_simulated := column "Hectares_Simulated" df_yearly in
        let+ hectares := iloc0 hectares_simulated in
        let total_revenue := Float.mul yearly_revenue_per_ha hectares in
        let total_cost := Float.mul yearly_cost_per_ha hectares in
        let+ temperature := column "Temperature_C" df_yearly in
        let extreme_heat_days := Arr.count (Arr.gt temperature 35) in
        let+ temperature := column "Temperature_C" df_yearly in
        let frost_days := Arr.count (Arr.lt temperature 5) in
        let+ precipitation := column "Precipitation_mm" df_yearly in
        let extreme_rain_days := Arr.count (Arr.gt precipitation 20) in
        let+ temperature := column "Temperature_C" df_yearly in
        let+ humidity := column "Humidity_percent" df_yearly in
        let disease_risk_days := Arr.count (Arr.and (Arr.gt temperature 25) (Arr.gt humidity 80)) in
        let+ precipitation := column "Precipitation_mm" df_yearly in
        let total_precip := series_sum precipitation in
        let+ humidity := column "Humidity_percent" df_yearly in
        let avg_humidity := series_mean humidity in
        let+ temperature := column "Temperature_C" df_yearly in
        let+ irradiance := column "Solar_Irradiance_W_m2" df_yearly in
        let+ precipitation := column "Precipitation_mm" df_yearly in
        let climate_figure := (index df_yearly, temperature, irradiance, precipitation) in
        let+ precip_histogram := column "Precipitation_mm" df_yearly in
        let+ precipitation := column "Precipitation_mm" df_yearly in
        let rainy_days_count := Arr.count (Arr.gt precipitation 0) in
        let+ precipitation := column "Precipitation_mm" df_yearly in
        let dry_days_count := Arr.count (series_eq precipitation 0) in
        inr (Detail
               (mkDetailValues yearly_yield total_revenue total_cost yearly_quality
                  extreme_heat_days frost_days extreme_rain_days disease_risk_days
                  total_precip avg_humidity climate_figure precip_histogram
                  rainy_days_count dry_days_count)))
  end.

(** ** The dashboard: the overview by year

    The module aggregates the table by calendar year at start-up, after the
    formal checks.  In what follows [None] stands for an exception raised
    by pandas: the [IndexError] of [.iloc[0]] on a column without rows, or
    the [KeyError] of [agg] for a column that the table does not have; the
    formal checks exclude both on a table whose columns have the length of
    the index.  The labels of the index are taken to be distinct, as they
    are in a table that the simulator wrote: on such an index
    [df.loc[x.index, 'Temperature_C']] is the temperature on the rows of
    the group [x]. *)

(** [sorted(df.index.year.unique())], the years offered by the dropdown;
    they are also the keys of [df.groupby(df.index.year)], which sorts
    them. *)
Definition available_years (df : DataFrame) : list Z :=
  merge_sort Z.le (unique (Calendar.year_of <$> index df)).

(** [df['Hectares_Simulated'].iloc[0] if 'Hectares_Simulated' in df.columns else 600]. *)
Definition hectares_simulated (df : DataFrame) : option float :=
  match columns df !! "Hectares_Simulated" with
  | Some col => head col
  | None => Some (Some 600%Q)
  end.

(** The aggregation ['first'] on a group: its first cell that is not NaN,
    NaN when there is none. *)
Definition agg_first (xs : list float) : float := head (observations xs).

(** A row of [df_annual], with the columns in the order of the source. *)
Record AnnualRow : Type := mkAnnualRow {
  Year : Z;
  Yield_kg_ha : float;
  Grape_Sugar_Level : float;
  Revenue_EUR_ha : float;
  Production_Cost_EUR_ha : float;
  Selling_Price_EUR_kg : float;
  Temperature_C_avg : float;
  Precipitation_mm_sum : float;
  Solar_Irradiance_W_m2_avg : float;
  Humidity_percent_avg : float;
  Extreme_Heat_Days : nat;
  Frost_Days : nat;
  Extreme_Rain_Days : nat;
  Disease_Risk_Days : nat;
  Annata : string;
  Total_Revenue_EUR : float;
  Total_Cost_EUR : float
}.

(** [df_annual]: [df.groupby(df.index.year).agg(...)], one row per year in
    ascending order, then the columns [Annata], [Total_Revenue_EUR] and
    [Total_Cost_EUR], then [.iloc[:-1]], which drops the last row. *)
Definition df_annual (df : DataFrame) : option (list AnnualRow) :=
  hectares ← hectares_simulated df;
  yield_kg_ha ← columns df !! "Yield_kg_ha";
  sugar ← columns df !! "Grape_Sugar_Level";
  revenue ← columns df !! "Revenue_EUR_ha";
  cost ← columns df !! "Production_Cost_EUR_ha";
  price ← columns df !! "Selling_Price_EUR_kg";
  temperature ← columns df !! "Temperature_C";
  precipitation ← columns df !! "Precipitation_mm";
  irradiance ← columns df !! "Solar_Irradiance_W_m2";
  humidity ← columns df !! "Humidity_percent";
  let aggregate (year : Z) : AnnualRow :=
    let group {A} (col : list A) := Arr.select (in_year year (index df)) col in
    let revenue_eur_ha := agg_first (group revenue) in
    let production_cost_eur_ha := agg_first (group cost) in
    mkAnnualRow year
      (agg_first (group yield_kg_ha))
      (agg_first (group sugar))
      revenue_eur_ha
      production_cost_eur_ha
      (agg_first (group price))
      (series_mean (group temperature))
      (series_sum (group precipitation))
      (series_mean (group irradiance))
      (series_mean (group humidity))
      (Arr.count (Arr.gt (group temperature) 35))
      (Arr.count (Arr.lt (group temperature) 5))
      (Arr.count (Arr.gt (group precipitation) 20))
      (Arr.count (Arr.and (Arr.gt (group humidity) 80) (Arr.gt (group temperature) 25)))
      (pretty year ++ "/" ++ pretty (year + 1)%Z)
      (Float.mul revenue_eur_ha hectares)
      (Float.mul production_cost_eur_ha hectares) in
  Some (removelast (aggregate <$> available_years df)).

(** The options of the dropdown of vintages, label and value:
    [[{'label': str(year) + "/" + str(year + 1), 'value': year}
      for year in available_years[:-1]]]. *)
Definition dropdown_options (df : DataFrame) : list (string * Z) :=
  (fun year : Z => (pretty year ++ "/" ++ pretty (year + 1)%Z, year))
    <$> removelast (available_years df).

(** A table of two days, the last of 2019 and the first of 2020. *)
Definition two_days : DataFrame :=
  mkDataFrame [18261; 18262]%Z
    (list_to_map
       [("Temperature_C", [Some 36%Q; Some 3%Q]);
        ("Precipitation_mm", [Some 0%Q; Some 25%Q]);
        ("Humidity_percent", [Some 85%Q; Some 60%Q]);
        ("Solar_Irradiance_W_m2", [Some 150%Q; Some 90%Q]);
        ("Hectares_Simulated", [Some 600%Q; Some 600%Q]);
        ("Yield_kg_ha", [Some 12000%Q; Some 11000%Q]);
        ("Grape_Sugar_Level", [Some 18%Q; Some 17%Q]);
        ("Production_Cost_EUR_ha", [Some 10000%Q; Some 9000%Q]);
        ("Selling_Price_EUR_kg", [Some 4%Q; Some 5%Q]);
        ("Revenue_EUR_ha", [Some 38000%Q; Some 46000%Q])]).

(** Its overview: the row of 2019. *)
Definition two_days_overview : list AnnualRow :=
  Eval vm_compute in default [] (df_annual two_days).

(** * Properties *)

(** ** The calendar and the library functions on small inputs *)

Example to_datetime_epoch :
  pd_to_datetime "1970-01-01" = Some 0%Z
  /\ pd_to_datetime "2020-01-01" = Some 18262%Z
  /\ pd_to_datetime "2020-01-07" = Some 18268%Z
  /\ pd_to_datetime "2020-02-29" = Some 18321%Z.
Proof. repeat split; reflexivity. Qed.
(** Strings that the model of [pd.to_datetime] leaves aside: a day that the
    month does not have, and the bounds of the vintages of the years 1, 0,
    9999 and -1 as [update_detailed_view] writes them. *)
Example to_datetime_not_modelled :
  pd_to_datetime "2021-02-29" = None
  /\ pd_to_datetime (pretty 1%Z ++ "-08-01") = None
  /\ pd_to_datetime (pretty 0%Z ++ "-08-01") = None
  /\ pd_to_datetime (pretty 10000%Z ++ "-09-30") = None
  /\ pd_to_datetime (pretty (-1)%Z ++ "-08-01") = None.
Proof. repeat split; reflexivity. Qed.
Example year_of_leap_day :
  Calendar.year_of (Calendar.days_from_civil 2020 2 29) = 2020%Z
  /\ Calendar.dayofyear (Calendar.days_from_civil 2020 2 29) = 60%Z
  /\ Calendar.dayofyear (Calendar.days_from_civil 2020 12 31) = 366%Z
  /\ Calendar.year_of (Calendar.days_from_civil 2021 1 1) = 2021%Z
  /\ Calendar.dayofyear (Calendar.days_from_civil 2021 1 1) = 1%Z
  /\ Calendar.days_from_civil 2000 3 1 = 11017%Z.
Proof. repeat split; reflexivity. Qed.
Example date_range_week :
  pd_date_range 18262 18264 = [18262; 18263; 18264]%Z
  /\ pd_date_range 5 3 = [].
Proof. split; reflexivity. Qed.
Example unique_keeps_first : unique [3; 1; 3; 2; 1]%Z = [3; 1; 2]%Z.
Proof. reflexivity. Qed.
Example rolling_mean_edges :
  rolling_mean 7 1 [Some 1; Some 2; Some 3; Some 4; Some 5]%Q
  = [Some (10 / 4); Some (15 / 5); Some (15 / 5); Some (15 / 5); Some (14 / 4)]%Q.
Proof. vm_compute. reflexivity. Qed.

(** ** The date index *)

Lemma length_pd_date_range start_date end_date :
  length (pd_date_range start_date end_date) = Z.to_nat (end_date - start_date + 1).
Proof. unfold pd_date_range. by rewrite length_fmap, length_seq. Qed.

Lemma lookup_pd_date_range start_date end_date (i : nat) :
  (i < Z.to_nat (end_date - start_date + 1))%nat ->
  pd_date_range start_date end_date !! i = Some (start_date + Z.of_nat i)%Z.
Proof.
  intros Hi. unfold pd_date_range.
  rewrite list_lookup_fmap, lookup_seq_lt by done. reflexivity.
Qed.

Lemma elem_of_pd_date_range start_date end_date (d : Z) :
  d ∈ pd_date_range start_date end_date <-> (start_date <= d <= end_date)%Z.
Proof.
  unfold pd_date_range. rewrite list_elem_of_fmap. split.
  - intros (i & -> & Hi). apply elem_of_seq in Hi. lia.
  - intros Hd. exists (Z.to_nat (d - start_date)). split; [lia |].
    apply elem_of_seq. lia.
Qed.

Lemma pd_date_range_sorted start_date end_date :
  StronglySorted Z.lt (pd_date_range start_date end_date).
Proof.
  unfold pd_date_range.
  generalize (Z.to_nat (end_date - start_date + 1)) as n.
  generalize 0%nat as k. intros k n. revert k.
  induction n as [| n IH]; intros k; simpl; constructor.
  - apply IH.
  - apply Forall_forall. intros d Hd.
    apply list_elem_of_fmap in Hd as (i & -> & Hi). apply elem_of_seq in Hi. lia.
Qed.

Lemma StronglySorted_lt_NoDup (l : list Z) : StronglySorted Z.lt l -> NoDup l.
Proof.
  induction 1 as [| x l Hs IH Hall]; constructor; [| done].
  intros Hin. rewrite Forall_forall in Hall. specialize (Hall _ Hin). lia.
Qed.

(** [unique] forgets no value. *)
Lemma unique_fold_spec (l seen : list Z) (x : Z) :
  x ∈ fold_left (fun seen x => if decide (x ∈ seen) then seen else (seen ++ [x])%list) l seen
  <-> x ∈ seen \/ x ∈ l.
Proof.
  revert seen. induction l as [| y l IH]; intros seen; simpl.
  - rewrite elem_of_nil. tauto.
  - rewrite IH, elem_of_cons. destruct (decide (y ∈ seen)) as [Hy | Hy].
    + split; [tauto |]. intros [? | [-> | ?]]; tauto.
    + rewrite elem_of_app, list_elem_of_singleton. tauto.
Qed.

Lemma elem_of_unique (l : list Z) (x : Z) : x ∈ unique l <-> x ∈ l.
Proof. unfold unique. rewrite unique_fold_spec, elem_of_nil. tauto. Qed.

(** ** Floats and arrays *)

Lemma Qlt_bool_false (x y : Q) : QMicromega.Qlt_bool x y = false <-> (y <= x)%Q.
Proof.
  rewrite <- not_true_iff_false, QMicromega.Qlt_bool_iff. split.
  - apply Qnot_lt_le.
  - intros Hle Hlt. exact (Qlt_not_le _ _ Hlt Hle).
Qed.

(** [max(min(x, hi), lo)] of a number is a number between [lo] and [hi]. *)
Lemma py_clamp (q lo hi : Q) :
  (lo <= hi)%Q ->
  exists r, py_max (py_min (Some q) (Some hi)) (Some lo) = Some r /\ (lo <= r <= hi)%Q.
Proof.
  intros Hlohi. unfold py_max, py_min, Float.gt, Float.lt.
  destruct (QMicromega.Qlt_bool hi q) eqn:E1;
    [ destruct (QMicromega.Qlt_bool hi lo) eqn:E2
    | destruct (QMicromega.Qlt_bool q lo) eqn:E2 ];
    eexists; (split; [reflexivity |]);
    repeat match goal with
      | E : QMicromega.Qlt_bool _ _ = true |- _ => apply QMicromega.Qlt_bool_iff in E
      | E : QMicromega.Qlt_bool _ _ = false |- _ => apply Qlt_bool_false in E
      end; lra.
Qed.

(** [max(x, lo)] of a number is a number that is at least [lo] and [x]. *)
Lemma py_max_floor (q lo : Q) :
  exists r, py_max (Some q) (Some lo) = Some r /\ (lo <= r)%Q /\ (q <= r)%Q.
Proof.
  unfold py_max, Float.gt, Float.lt.
  destruct (QMicromega.Qlt_bool q lo) eqn:E; eexists; (split; [reflexivity |]).
  - apply QMicromega.Qlt_bool_iff in E. lra.
  - apply Qlt_bool_false in E. lra.
Qed.

Lemma clip_range (lo hi q : Q) :
  (lo <= hi)%Q ->
  exists r, Float.clip lo (Some hi) (Some q) = Some r /\ (lo <= r <= hi)%Q.
Proof.
  intros Hlohi. unfold Float.clip.
  destruct (QMicromega.Qlt_bool q lo) eqn:E1;
    [ destruct (QMicromega.Qlt_bool hi lo) eqn:E2
    | destruct (QMicromega.Qlt_bool hi q) eqn:E2 ];
    eexists; (split; [reflexivity |]);
    repeat match goal with
      | E : QMicromega.Qlt_bool _ _ = true |- _ => apply QMicromega.Qlt_bool_iff in E
      | E : QMicromega.Qlt_bool _ _ = false |- _ => apply Qlt_bool_false in E
      end; lra.
Qed.

Lemma clip_is_Some lo hi (x : float) : is_Some x -> is_Some (Float.clip lo hi x).
Proof. intros [q ->]. unfold Float.clip. destruct hi; eauto. Qed.

Lemma lift2_is_Some f (a b : float) : is_Some a -> is_Some b -> is_Some (Float.lift2 f a b).
Proof. intros [x ->] [y ->]. simpl. eauto. Qed.

Lemma finite_fmap_Some {A} (f : A -> Q) (l : list A) : finite ((fun x => Some (f x)) <$> l).
Proof. apply Forall_fmap, Forall_forall. intros x _. simpl. eauto. Qed.

Lemma finite_zip_with_lift2 f (a b : list float) :
  finite a -> finite b -> finite (zip_with (Float.lift2 f) a b).
Proof.
  intros Ha. revert b. induction Ha as [| x a Hx Ha IH]; intros b Hb; simpl.
  - constructor.
  - destruct Hb as [| y b Hy Hb]; constructor; [by apply lift2_is_Some | by apply IH].
Qed.

Lemma finite_add a b : finite a -> finite b -> finite (Arr.add a b).
Proof. apply finite_zip_with_lift2. Qed.
Lemma finite_sub a b : finite a -> finite b -> finite (Arr.sub a b).
Proof. apply finite_zip_with_lift2. Qed.
Lemma finite_scale a c : finite a -> finite (Arr.scale a c).
Proof.
  intros Ha. apply Forall_fmap. eapply Forall_impl; [exact Ha |].
  intros x [q ->]. simpl. eauto.
Qed.
Lemma finite_shift c a : finite a -> finite (Arr.shift c a).
Proof.
  intros Ha. apply Forall_fmap. eapply Forall_impl; [exact Ha |].
  intros x [q ->]. simpl. eauto.
Qed.
Lemma finite_clip lo hi a : finite a -> finite (Arr.clip lo hi a).
Proof.
  intros Ha. apply Forall_fmap. eapply Forall_impl; [exact Ha |].
  intros x Hx. simpl. by apply clip_is_Some.
Qed.
Lemma finite_where cond a (b : float) : finite a -> is_Some b -> finite (Arr.where_ cond a b).
Proof.
  intros Ha Hb. revert cond. induction Ha as [| x a Hx Ha IH]; intros [| c cond]; simpl;
    try constructor; [by destruct c | apply IH].
Qed.
Lemma finite_replicate n (x : float) : is_Some x -> finite (replicate n x).
Proof. intros Hx. by apply Forall_replicate. Qed.

Lemma length_add a b : length a = length b -> length (Arr.add a b) = length a.
Proof. intros Hl. unfold Arr.add. by rewrite length_zip_with_l_eq. Qed.
Lemma length_sub a b : length a = length b -> length (Arr.sub a b) = length a.
Proof. intros Hl. unfold Arr.sub. by rewrite length_zip_with_l_eq. Qed.
Lemma length_scale a c : length (Arr.scale a c) = length a.
Proof. apply length_fmap. Qed.
Lemma length_shift c a : length (Arr.shift c a) = length a.
Proof. apply length_fmap. Qed.
Lemma length_clip lo hi a : length (Arr.clip lo hi a) = length a.
Proof. apply length_fmap. Qed.
Lemma length_where cond a b : length cond = length a -> length (Arr.where_ cond a b) = length a.
Proof. intros Hl. unfold Arr.where_. by rewrite length_zip_with_r_eq. Qed.

(** The cells of a column without NaN are its observations. *)
Lemma observations_Some (qs : list Q) : observations (Some <$> qs) = qs.
Proof. unfold observations. induction qs as [| q qs IH]; simpl; [done | by f_equal]. Qed.

Lemma observations_finite (a : list float) : finite a -> Some <$> observations a = a.
Proof.
  unfold observations. induction 1 as [| x a [q ->] Ha IH]; simpl; [done |].
  by f_equal.
Qed.

Lemma series_mean_finite (a : list float) :
  finite a -> a <> [] ->
  series_mean a = Some (Qsum (observations a) / inject_Z (Z.of_nat (length a)))%Q.
Proof.
  intros Ha Hne. unfold series_mean.
  assert (length (observations a) = length a) as Hlen.
  { rewrite <- (observations_finite a Ha) at 2. by rewrite length_fmap. }
  destruct (observations a) as [| q qs] eqn:E.
  - destruct a; [done | discriminate].
  - by rewrite Hlen.
Qed.

(** ** The centered moving average *)

Lemma length_rolling_mean window min_periods xs :
  length (rolling_mean window min_periods xs) = length xs.
Proof. unfold rolling_mean. by rewrite length_fmap, length_seq. Qed.

Lemma lookup_rolling_mean window min_periods xs (i : nat) :
  (i < length xs)%nat ->
  rolling_mean window min_periods xs !! i
  = Some (let obs := observations (rolling_window window xs i) in
          if (length obs <? min_periods)%nat then nan else series_mean (Some <$> obs)).
Proof.
  intros Hi. unfold rolling_mean. by rewrite list_lookup_fmap, lookup_seq_lt.
Qed.

(** The window of a position holds the position itself. *)
Lemma rolling_window_self window xs (i : nat) (x : float) :
  (1 <= window)%nat -> xs !! i = Some x -> x ∈ rolling_window window xs i.
Proof.
  intros Hw Hx. unfold rolling_window.
  set (offset := ((window - 1) / 2)%nat).
  assert (offset <= window - 1)%nat as Hoff by (apply Nat.Div0.div_le_upper_bound; lia).
  apply list_elem_of_lookup.
  exists (i - (i + offset - (window - 1)))%nat.
  rewrite lookup_take_lt by lia. rewrite lookup_drop. rewrite <- Hx. f_equal. lia.
Qed.

(** At most [window] positions are averaged. *)
Lemma length_rolling_window window xs (i : nat) :
  (1 <= window)%nat -> (length (rolling_window window xs i) <= window)%nat.
Proof.
  intros Hw. unfold rolling_window.
  set (offset := ((window - 1) / 2)%nat).
  assert (offset <= window - 1)%nat as Hoff by (apply Nat.Div0.div_le_upper_bound; lia).
  rewrite length_take. lia.
Qed.

Lemma length_observations (xs : list float) : (length (observations xs) <= length xs)%nat.
Proof.
  unfold observations. induction xs as [| [q |] xs IH]; cbn in *; lia.
Qed.

Lemma rolling_mean_defined window xs (i : nat) :
  (1 <= window)%nat -> finite xs -> (i < length xs)%nat ->
  exists obs : list Q,
    obs = observations (rolling_window window xs i)
    /\ (1 <= length obs <= window)%nat
    /\ rolling_mean window 1 xs !! i
       = Some (Some (Qsum obs / inject_Z (Z.of_nat (length obs)))%Q).
Proof.
  intros Hw Hfin Hi.
  destruct (lookup_lt_is_Some_2 xs i Hi) as [x Hx].
  assert (is_Some x) as [q ->].
  { unfold finite in Hfin. rewrite Forall_lookup in Hfin. by eapply Hfin. }
  pose proof (rolling_window_self window xs i _ Hw Hx) as Hin.
  assert (q ∈ observations (rolling_window window xs i)) as Hq.
  { unfold observations. apply list_elem_of_omap. by exists (Some q). }
  exists (observations (rolling_window window xs i)). split; [done |].
  assert (1 <= length (observations (rolling_window window xs i)))%nat as Hpos.
  { destruct (observations (rolling_window window xs i)); [by apply elem_of_nil in Hq |].
    simpl. lia. }
  split.
  - split; [done |]. etrans; [apply length_observations | by apply length_rolling_window].
  - rewrite lookup_rolling_mean by done. cbv zeta.
    destruct (Nat.ltb_spec (length (observations (rolling_window window xs i))) 1) as [Hlt | _];
      [lia |].
    f_equal. unfold series_mean. rewrite observations_Some.
    destruct (observations (rolling_window window xs i)); [simpl in Hpos; lia | done].
Qed.

Lemma rolling_mean_finite window xs :
  (1 <= window)%nat -> finite xs -> finite (rolling_mean window 1 xs).
Proof.
  intros Hw Hfin. apply Forall_lookup. intros i x Hx.
  assert (i < length xs)%nat as Hi.
  { rewrite <- (length_rolling_mean window 1). by eapply lookup_lt_Some. }
  destruct (rolling_mean_defined window xs i Hw Hfin Hi) as (obs & _ & _ & Hobs).
  rewrite Hobs in Hx. injection Hx as <-. eauto.
Qed.

(** ** Running the monad *)

Lemma draws_length {S} (sampler : S -> Q * S) (n : nat) (s : S) :
  length (draws sampler n s).1 = n.
Proof.
  revert s. induction n as [| n IH]; intros s; simpl; [done |].
  destruct (sampler s) as [x s1]. specialize (IH s1).
  destruct (draws sampler n s1) as [xs s2]. simpl in *. by rewrite IH.
Qed.

Lemma bind_sample {S B} (n : nat) (sampler : S -> Q * S) (f : Q -> Q)
    (k : list float -> M S B) (s : S) :
  bind (sample n sampler f) k s
  = k ((fun x => Some (f x)) <$> (draws sampler n s).1) (draws sampler n s).2.
Proof. unfold bind, sample. by destruct (draws sampler n s). Qed.

Lemma bind_try {S A B} (r : exn + A) (a : A) (k : A -> M S B) (s : S) :
  r = inr a -> bind (try r) k s = k a s.
Proof. by intros ->. Qed.

Lemma bind_ret {S A B} (a : A) (k : A -> M S B) (s : S) : bind (ret a) k s = k a s.
Proof. reflexivity. Qed.

Lemma setitem_ok key values df :
  length values = length (index df) ->
  setitem key values df = inr (mkDataFrame (index df) (<[key := values]> (columns df))).
Proof. intros Hl. unfold setitem. by rewrite decide_True. Qed.

Lemma getitem_ok key df col : columns df !! key = Some col -> getitem key df = inr col.
Proof. intros Hc. unfold getitem. by rewrite Hc. Qed.

(** ** [generate_ambient_data] in closed form *)

Ltac len :=
  unfold Arr.add, Arr.sub, Arr.scale, Arr.shift, Arr.clip, Arr.where_ in *;
  simpl index in *;
  repeat first
    [ rewrite length_zip_with | rewrite length_fmap | rewrite length_rolling_mean
    | rewrite length_replicate | rewrite draws_length | rewrite length_seq ];
  try lia.

Ltac run_try :=
  erewrite bind_try by
    first [ apply setitem_ok; len
          | apply getitem_ok; simpl columns; simplify_map_eq; reflexivity ];
  cbv beta; cbn [index columns].

Section Ambient.
Context {S : Type} `{RandomSource S}.
Variable np_sin : Q -> Q.

Lemma generate_ambient_data_run (self : ViticultureSimulator) (s : S) :
  length (index (data self)) = length (date_range self) ->
  let w := ambient_draws (length (date_range self)) s in
  generate_ambient_data np_sin self s
  = inr (with_data self
           (mkDataFrame (index (data self))
              (ambient_columns np_sin (index (data self)) (total_hectares self) w
                 (columns (data self)))),
         state_after w).
Proof.
  intros Hlen w.
  unfold generate_ambient_data, np_random_normal, np_random_rand, np_random_exponential.
  cbv zeta.
  rewrite bind_sample. run_try.
  rewrite bind_sample. rewrite bind_sample. run_try.
  rewrite bind_sample. run_try.
  rewrite bind_sample. run_try.
  do 8 run_try.
  reflexivity.
Qed.
End Ambient.

(** ** Row selection and masked assignment *)

Lemma length_in_year year idx : length (in_year year idx) = length idx.
Proof. apply length_fmap. Qed.

Lemma lookup_in_year year idx (i : nat) (d : Timestamp) :
  idx !! i = Some d -> in_year year idx !! i = Some (Calendar.year_of d =? year)%Z.
Proof. intros Hd. unfold in_year. by rewrite list_lookup_fmap, Hd. Qed.

Lemma select_finite mask (a : list float) : finite a -> finite (Arr.select mask a).
Proof.
  intros Ha. revert mask. induction Ha as [| x a Hx Ha IH]; intros [| [|] mask]; simpl;
    try (by constructor).
  - constructor; [done | apply IH].
  - apply IH.
Qed.

Lemma select_length_eq {A B} mask (a : list A) (b : list B) :
  length a = length b -> length (Arr.select mask a) = length (Arr.select mask b).
Proof.
  revert a b. induction mask as [| m mask IH]; intros [| x a] [| y b] Hl; simpl in *;
    try done.
  injection Hl as Hl. destruct m; simpl; auto.
Qed.

(** A year of the index has at least one day. *)
Lemma select_in_year_nonempty year idx :
  year ∈ Calendar.year_of <$> idx -> (0 < length (Arr.select (in_year year idx) idx))%nat.
Proof.
  induction idx as [| d idx IH]; simpl.
  - intros Hin. by apply elem_of_nil in Hin.
  - intros Hin. destruct (Z.eqb_spec (Calendar.year_of d) year) as [Heq | Hne]; simpl; [lia |].
    apply elem_of_cons in Hin as [-> | Hin]; [done | by apply IH].
Qed.

Lemma index_loc_setitem mask key value df : index (loc_setitem mask key value df) = index df.
Proof. reflexivity. Qed.

Lemma columns_loc_setitem_ne mask key value df key' :
  key <> key' -> columns (loc_setitem mask key value df) !! key' = columns df !! key'.
Proof. intros Hne. unfold loc_setitem. simpl. by rewrite lookup_insert_ne. Qed.

Lemma cell_loc_setitem_ne mask key value df key' (i : nat) :
  key <> key' -> cell (loc_setitem mask key value df) key' i = cell df key' i.
Proof. intros Hne. unfold cell. by rewrite columns_loc_setitem_ne. Qed.

Lemma has_column_loc_setitem mask key value df key' :
  length mask = length (index df) -> has_column df key' ->
  has_column (loc_setitem mask key value df) key'.
Proof.
  intros Hm (col & Hcol & Hlen). destruct (decide (key = key')) as [<- | Hne].
  - unfold has_column, loc_setitem. simpl. rewrite lookup_insert_eq, Hcol. simpl.
    eexists. split; [done |]. rewrite length_zip_with. lia.
  - exists col. by rewrite columns_loc_setitem_ne.
Qed.

Lemma cell_loc_setitem_eq mask key value df (i : nat) (b : bool) :
  has_column df key -> mask !! i = Some b ->
  length mask = length (index df) ->
  cell (loc_setitem mask key value df) key i = if b then Some value else cell df key i.
Proof.
  intros (col & Hcol & Hlen) Hb Hm. unfold cell, loc_setitem. simpl.
  rewrite lookup_insert_eq, Hcol. simpl. rewrite lookup_zip_with, Hb. simpl.
  assert (i < length col)%nat as Hi.
  { rewrite Hlen, <- Hm. by eapply lookup_lt_Some. }
  destruct (lookup_lt_is_Some_2 col i Hi) as [c Hc]. rewrite Hc. simpl. by destruct b.
Qed.

(** ** One turn of the annual loop *)

Ltac in_list := unfold climate_columns, annual_columns; rewrite !elem_of_cons; tauto.

Section Annual.
Context {S : Type} `{RandomSource S}.

Lemma bind_normal1 {B} (loc scale : Q) (k : float -> M S B) (s : S) :
  bind (np_random_normal1 loc scale) k s
  = k (Some (loc + scale * (standard_normal s).1)%Q) (standard_normal s).2.
Proof. unfold bind, np_random_normal1. by destruct (standard_normal s). Qed.

Lemma annual_metrics_of_year_run (self : ViticultureSimulator) (year : Z) (s : S) :
  climate_ready (data self) ->
  year ∈ Calendar.year_of <$> index (data self) ->
  exists (m : AnnualMetrics) (s' : S),
    in_range m /\ cost_drawn m
    /\ annual_metrics_of_year self year s
       = inr (with_data self (broadcast year m (data self)), s').
Proof.
  intros Hready Hyear.
  destruct (Hready "Temperature_C") as (colT & HT & HlT & HfT); [in_list |].
  destruct (Hready "Precipitation_mm") as (colP & HP & HlP & HfP); [in_list |].
  destruct (Hready "Humidity_percent") as (colH & HH & HlH & HfH); [in_list |].
  destruct (Hready "Solar_Irradiance_W_m2") as (colI & HI & HlI & HfI); [in_list |].
  unfold annual_metrics_of_year. cbv zeta.
  fold (in_year year (index (data self))).
  set (mask := in_year year (index (data self))).
  rewrite bind_normal1.
  repeat (erewrite bind_try by
            (apply getitem_ok; simpl; rewrite lookup_fmap;
             first [rewrite HT | rewrite HP | rewrite HH | rewrite HI]; reflexivity);
          cbv beta).
  rewrite bind_normal1. rewrite bind_normal1. rewrite bind_normal1.
  cbn [index loc_setitem boolean_index].
  fold (in_year year (index (data self))). fold mask.
  pose proof (select_in_year_nonempty year _ Hyear) as Hdays. fold mask in Hdays.
  assert (forall col : list float,
             length col = length (index (data self)) -> finite col ->
             is_Some (series_mean (Arr.select mask col))) as Hmean.
  { intros col Hl Hf. rewrite series_mean_finite.
    - eauto.
    - by apply select_finite.
    - intros Hnil. apply (f_equal length) in Hnil.
      rewrite (select_length_eq mask col (index (data self)) Hl) in Hnil.
      simpl in Hnil. lia. }
  destruct (Hmean colI HlI HfI) as [mI HmI]. destruct (Hmean colT HlT HfT) as [mT HmT].
  rewrite HmI, HmT.
  destruct (length (Arr.select mask (index (data self)))) as [| days] eqn:Edays; [lia |].
  cbn [Float.add Float.sub Float.mul Float.div Float.lift2 Float.ratio].
  match goal with
  | |- context [py_max (py_min (Some ?x) (Some 15000%Q)) (Some 8000%Q)] =>
      destruct (py_clamp x 8000 15000) as (y & Hy & Hyr); [lra |]; rewrite Hy
  end.
  match goal with
  | |- context [py_max (py_min (Some ?x) (Some 19.5%Q)) (Some 15%Q)] =>
      destruct (py_clamp x 15 19.5) as (sg & Hsg & Hsgr); [lra |]; rewrite Hsg
  end.
  cbn [Float.add Float.sub Float.mul Float.div Float.lift2].
  match goal with
  | |- context [py_max (py_min (Some ?x) (Some 6.0%Q)) (Some 3.5%Q)] =>
      destruct (py_clamp x 3.5 6.0) as (p & Hp & Hpr); [lra |]; rewrite Hp
  end.
  match goal with
  | |- context [py_max (Some ?x) (Some 8000%Q)] =>
      destruct (py_max_floor x 8000) as (c & Hc & Hcr & Hcd); rewrite Hc
  end.
  cbn [Float.add Float.sub Float.mul Float.div Float.lift2].
  exists (mkAnnualMetrics y sg c p (y * p - c)%Q). eexists.
  split; [| split]; [| | reflexivity].
  - unfold in_range. simpl. tauto.
  - eexists. simpl. exact Hcd.
Qed.
End Annual.

(** ** The columns after [generate_ambient_data] *)

Section AmbientColumns.
Context {S : Type} `{RandomSource S}.
Variable np_sin : Q -> Q.
Variables (idx : list Timestamp) (hectares : Q) (s : S).
Variable before : gmap string (list float).
Let w : AmbientDraws S := ambient_draws (length idx) s.
Let after : gmap string (list float) := ambient_columns np_sin idx hectares w before.

Lemma lookup_ambient_temperature :
  after !! "Temperature_C"
  = Some (temperature_coupled (temperature_base np_sin idx (noise_drawn w))
            (irradiance np_sin idx (irradiance_drawn w))).
Proof. unfold after, ambient_columns. by simplify_map_eq. Qed.

Lemma lookup_ambient_precipitation :
  after !! "Precipitation_mm"
  = Some (precipitation np_sin idx (uniform_drawn w) (rain_drawn w)).
Proof. unfold after, ambient_columns. by simplify_map_eq. Qed.

Lemma lookup_ambient_irradiance :
  after !! "Solar_Irradiance_W_m2" = Some (irradiance np_sin idx (irradiance_drawn w)).
Proof. unfold after, ambient_columns. by simplify_map_eq. Qed.

Lemma lookup_ambient_humidity :
  after !! "Humidity_percent"
  = Some (Arr.clip 0 (Some 100%Q)
            (humidity_coupled (humidity_base (humidity_drawn w))
               (temperature_coupled (temperature_base np_sin idx (noise_drawn w))
                  (irradiance np_sin idx (irradiance_drawn w))))).
Proof. unfold after, ambient_columns. by simplify_map_eq. Qed.

Lemma lookup_ambient_hectares :
  after !! "Hectares_Simulated" = Some (replicate (length idx) (Some hectares)).
Proof. unfold after, ambient_columns. by simplify_map_eq. Qed.

(** No other column is touched. *)
Lemma lookup_ambient_other (key : string) :
  key ∉ "Hectares_Simulated" :: climate_columns -> after !! key = before !! key.
Proof.
  unfold climate_columns. rewrite !not_elem_of_cons. intros (? & ? & ? & ? & ? & _).
  unfold after, ambient_columns. cbv zeta. by rewrite !lookup_insert_ne.
Qed.

Lemma length_drawn :
  length (noise_drawn w) = length idx
  /\ length (uniform_drawn w) = length idx
  /\ length (rain_drawn w) = length idx
  /\ length (humidity_drawn w) = length idx
  /\ length (irradiance_drawn w) = length idx.
Proof. unfold w, ambient_draws. simpl. by rewrite !draws_length. Qed.

Lemma temperature_base_spec :
  length (temperature_base np_sin idx (noise_drawn w)) = length idx
  /\ finite (temperature_base np_sin idx (noise_drawn w)).
Proof.
  destruct length_drawn as (Hn & _). unfold temperature_base. split.
  - len.
  - apply finite_add; [apply finite_shift, finite_fmap_Some |].
    apply rolling_mean_finite; [lia | apply finite_fmap_Some].
Qed.

Lemma irradiance_spec :
  length (irradiance np_sin idx (irradiance_drawn w)) = length idx
  /\ finite (irradiance np_sin idx (irradiance_drawn w)).
Proof.
  destruct length_drawn as (_ & _ & _ & _ & Hn). unfold irradiance. split.
  - len.
  - apply finite_clip, finite_add; [apply finite_shift |]; apply finite_fmap_Some.
Qed.

Lemma temperature_spec :
  let T := temperature_coupled (temperature_base np_sin idx (noise_drawn w))
             (irradiance np_sin idx (irradiance_drawn w)) in
  length T = length idx /\ finite T.
Proof.
  destruct temperature_base_spec as [Hl0 Hf0]. destruct irradiance_spec as [Hl1 Hf1].
  unfold temperature_coupled. split.
  - rewrite length_add; [done |]. by rewrite length_scale, Hl0, Hl1.
  - by apply finite_add; [| apply finite_scale].
Qed.

Lemma precipitation_spec :
  length (precipitation np_sin idx (uniform_drawn w) (rain_drawn w)) = length idx
  /\ finite (precipitation np_sin idx (uniform_drawn w) (rain_drawn w)).
Proof.
  destruct length_drawn as (_ & Hu & He & _). unfold precipitation. split.
  - len.
  - apply finite_where; [apply finite_fmap_Some | eauto].
Qed.

Lemma humidity_spec :
  let H := Arr.clip 0 (Some 100%Q)
             (humidity_coupled (humidity_base (humidity_drawn w))
                (temperature_coupled (temperature_base np_sin idx (noise_drawn w))
                   (irradiance np_sin idx (irradiance_drawn w)))) in
  length H = length idx /\ finite H.
Proof.
  destruct length_drawn as (_ & _ & _ & Hh & _). destruct temperature_spec as [HlT HfT].
  unfold humidity_coupled, humidity_base. split.
  - rewrite length_clip, length_sub; rewrite ?length_clip, ?length_scale, ?length_fmap; congruence.
  - apply finite_clip, finite_sub; [apply finite_clip, finite_fmap_Some |].
    by apply finite_scale.
Qed.

Lemma ambient_columns_ready : climate_ready (mkDataFrame idx after).
Proof.
  intros key. unfold climate_columns. rewrite !elem_of_cons, elem_of_nil.
  intros [-> | [-> | [-> | [-> | []]]]]; simpl.
  - rewrite lookup_ambient_temperature. eexists. split; [done |]. apply temperature_spec.
  - rewrite lookup_ambient_precipitation. eexists. split; [done |]. apply precipitation_spec.
  - rewrite lookup_ambient_humidity. eexists. split; [done |]. apply humidity_spec.
  - rewrite lookup_ambient_irradiance. eexists. split; [done |]. apply irradiance_spec.
Qed.
End AmbientColumns.

(** ** Broadcasting the values of a year *)

Lemma index_broadcast year m df : index (broadcast year m df) = index df.
Proof. reflexivity. Qed.

Lemma columns_broadcast_other year m df (key : string) :
  key ∉ annual_columns -> columns (broadcast year m df) !! key = columns df !! key.
Proof.
  unfold annual_columns. rewrite !not_elem_of_cons. intros (? & ? & ? & ? & ? & _).
  unfold broadcast. cbv zeta. by rewrite !columns_loc_setitem_ne.
Qed.

Lemma has_column_broadcast year m df (key : string) :
  has_column df key -> has_column (broadcast year m df) key.
Proof.
  intros Hc. unfold broadcast. cbv zeta.
  repeat (apply has_column_loc_setitem; [by rewrite length_in_year |]). done.
Qed.

(** On a row of the year the five cells are the values of the year; the
    other rows keep their cells. *)
Lemma cell_broadcast year m df (i : nat) (d : Timestamp) :
  (forall key, key ∈ annual_columns -> has_column df key) ->
  index df !! i = Some d ->
  let pick (key : string) (value : Q) :=
    cell (broadcast year m df) key i
    = if (Calendar.year_of d =? year)%Z then Some (Some value) else cell df key i in
  pick "Yield_kg_ha" (final_yield m)
  /\ pick "Grape_Sugar_Level" (final_sugar_level m)
  /\ pick "Production_Cost_EUR_ha" (final_production_cost_per_ha m)
  /\ pick "Selling_Price_EUR_kg" (final_selling_price_per_kg m)
  /\ pick "Revenue_EUR_ha" (revenue_per_ha m).
Proof.
  intros Hcols Hd. cbv zeta. unfold broadcast. cbv zeta.
  pose proof (lookup_in_year year _ _ _ Hd) as Hmask.
  pose proof (length_in_year year (index df)) as Hlen.
  repeat split.
  all: rewrite ?cell_loc_setitem_ne by done.
  all: erewrite cell_loc_setitem_eq; [ | | exact Hmask | exact Hlen ].
  all: rewrite ?cell_loc_setitem_ne by done; try reflexivity.
  all: repeat (apply has_column_loc_setitem; [exact Hlen |]).
  all: apply Hcols; in_list.
Qed.

Lemma year_has_broadcast year m df :
  (forall key, key ∈ annual_columns -> has_column df key) ->
  year_has (broadcast year m df) year m.
Proof.
  intros Hcols i d Hd Hy. rewrite index_broadcast in Hd.
  destruct (cell_broadcast year m df i d Hcols Hd) as (H1 & H2 & H3 & H4 & H5).
  apply Z.eqb_eq in Hy. rewrite Hy in *. done.
Qed.

Lemma year_has_broadcast_other year m df year' m' :
  (forall key, key ∈ annual_columns -> has_column df key) ->
  year' <> year -> year_has df year' m' -> year_has (broadcast year m df) year' m'.
Proof.
  intros Hcols Hne Hhas i d Hd Hy. rewrite index_broadcast in Hd.
  destruct (cell_broadcast year m df i d Hcols Hd) as (H1 & H2 & H3 & H4 & H5).
  assert ((Calendar.year_of d =? year)%Z = false) as Hf by (apply Z.eqb_neq; congruence).
  rewrite Hf in *. rewrite H1, H2, H3, H4, H5. exact (Hhas i d Hd Hy).
Qed.

Lemma climate_ready_broadcast year m df :
  climate_ready df -> climate_ready (broadcast year m df).
Proof.
  intros Hready key Hkey. rewrite index_broadcast, columns_broadcast_other.
  - by apply Hready.
  - revert Hkey. unfold climate_columns, annual_columns.
    rewrite !not_elem_of_cons, !elem_of_cons, !elem_of_nil.
    intros [-> | [-> | [-> | [-> | []]]]]; repeat split; try done; tauto.
Qed.

(** ** The loop over the years *)

Lemma for_each_invariant {S A B} (Inv : list A -> B -> Prop)
    (body : B -> A -> M S B) (xs : list A) (b : B) (s : S) :
  Inv [] b ->
  (forall done x b s, x ∈ xs -> Inv done b ->
     exists b' s', body b x s = inr (b', s') /\ Inv (done ++ [x])%list b') ->
  exists b' s', for_each xs body b s = inr (b', s') /\ Inv xs b'.
Proof.
  intros Hinit Hstep.
  assert (forall done, Inv done b ->
            (forall done x b s, x ∈ xs -> Inv done b ->
               exists b' s', body b x s = inr (b', s') /\ Inv (done ++ [x])%list b') ->
            exists b' s', for_each xs body b s = inr (b', s') /\ Inv (done ++ xs)%list b')
    as Hgen.
  { clear Hinit Hstep. revert b s. induction xs as [| x xs IH]; intros b s done Hinv Hstep.
    - exists b, s. rewrite app_nil_r. done.
    - destruct (Hstep done x b s) as (b1 & s1 & Hrun & Hinv1); [apply list_elem_of_here | done |].
      destruct (IH b1 s1 (done ++ [x])%list Hinv1) as (b2 & s2 & Hrun2 & Hinv2).
      { intros done' y b' s' Hy. apply Hstep. by apply list_elem_of_further. }
      exists b2, s2. split.
      + simpl. unfold bind. by rewrite Hrun.
      + by rewrite <- app_assoc in Hinv2. }
  apply (Hgen [] Hinit Hstep).
Qed.

(** A loop keeps what each of its turns keeps, whenever it returns. *)
Lemma for_each_preserves {S A B} (P : B -> Prop) (body : B -> A -> M S B)
    (xs : list A) (b b' : B) (s s' : S) :
  (forall b x s b' s', body b x s = inr (b', s') -> P b -> P b') ->
  for_each xs body b s = inr (b', s') -> P b -> P b'.
Proof.
  intros Hstep. revert b s. induction xs as [| x xs IH]; intros b s; simpl.
  - unfold ret. intros [= <- <-]. done.
  - unfold bind. destruct (body b x s) as [e | [b1 s1]] eqn:Hrun; [done |].
    intros Hrest Hb. eapply IH; [exact Hrest |]. by eapply Hstep.
Qed.

(** ** [calculate_annual_metrics] *)

Lemma columns_setitem_scalar_ne key value df key' :
  key <> key' -> columns (setitem_scalar key value df) !! key' = columns df !! key'.
Proof. intros Hne. unfold setitem_scalar. simpl. by rewrite lookup_insert_ne. Qed.

Lemma has_column_setitem_scalar key value df : has_column (setitem_scalar key value df) key.
Proof.
  unfold has_column, setitem_scalar. simpl. rewrite lookup_insert_eq.
  eexists. split; [done |]. by rewrite length_replicate.
Qed.

Lemma has_column_setitem_scalar_other key value df key' :
  has_column df key' -> has_column (setitem_scalar key value df) key'.
Proof.
  intros Hc. destruct (decide (key = key')) as [<- | Hne];
    [apply has_column_setitem_scalar |].
  destruct Hc as (col & Hcol & Hlen). exists col. by rewrite columns_setitem_scalar_ne.
Qed.

Section Calculate.
Context {S : Type} `{RandomSource S}.

(** The table on which the loop starts: five columns of NaN added. *)
Let nan_columns (df : DataFrame) : DataFrame :=
  setitem_scalar "Revenue_EUR_ha" nan
    (setitem_scalar "Selling_Price_EUR_kg" nan
       (setitem_scalar "Production_Cost_EUR_ha" nan
          (setitem_scalar "Grape_Sugar_Level" nan
             (setitem_scalar "Yield_kg_ha" nan df)))).

Lemma annual_invariant_init (self : ViticultureSimulator) :
  climate_ready (data self) ->
  annual_invariant (data self) [] (with_data self (nan_columns (data self))).
Proof.
  intros Hready. unfold annual_invariant, nan_columns. simpl data.
  split; [reflexivity |]. split; [| split; [| split]].
  - intros key Hkey. destruct (Hready key Hkey) as (col & Hcol & Hlen & Hfin).
    exists col. split; [| done]. rewrite !columns_setitem_scalar_ne; [done | ..];
      revert Hkey; unfold climate_columns; rewrite !elem_of_cons, elem_of_nil;
      intros [-> | [-> | [-> | [-> | []]]]]; done.
  - unfold annual_columns. intros key. rewrite !not_elem_of_cons.
    intros (? & ? & ? & ? & ? & _). by rewrite !columns_setitem_scalar_ne.
  - unfold annual_columns. intros key. rewrite !elem_of_cons, elem_of_nil.
    intros [-> | [-> | [-> | [-> | [-> | []]]]]];
      repeat first [ apply has_column_setitem_scalar
                   | apply has_column_setitem_scalar_other ].
  - intros year Hin. by apply elem_of_nil in Hin.
Qed.

Lemma annual_invariant_step (before : DataFrame) (done : list Z)
    (self : ViticultureSimulator) (year : Z) (s : S) :
  year ∈ Calendar.year_of <$> index before ->
  annual_invariant before done self ->
  exists self' s',
    annual_metrics_of_year self year s = inr (self', s')
    /\ annual_invariant before (done ++ [year])%list self'.
Proof.
  intros Hyear (Hidx & Hready & Hframe & Hcols & Hdone).
  rewrite <- Hidx in Hyear.
  destruct (annual_metrics_of_year_run self year s Hready Hyear)
    as (m & s' & Hrange & Hcost & Hrun).
  exists (with_data self (broadcast year m (data self))), s'. split; [done |].
  unfold annual_invariant. simpl data. split; [| split; [| split; [| split]]].
  - by rewrite index_broadcast.
  - by apply climate_ready_broadcast.
  - intros key Hkey. rewrite columns_broadcast_other by done. by apply Hframe.
  - intros key Hkey. by apply has_column_broadcast, Hcols.
  - intros y Hy. destruct (decide (y = year)) as [-> | Hne].
    + exists m. split; [done |]. split; [done |]. by apply year_has_broadcast.
    + apply elem_of_app in Hy as [Hy | Hy]; [| by apply list_elem_of_singleton in Hy].
      destruct (Hdone y Hy) as (m' & ? & ? & ?). exists m'.
      split; [done |]. split; [done |]. by apply year_has_broadcast_other.
Qed.

(** On a table with its climate columns, the method returns, and every
    year of [self.years] has its values on its rows. *)
Lemma calculate_annual_metrics_run (self : ViticultureSimulator) (s : S) :
  climate_ready (data self) ->
  (forall year, year ∈ years self -> year ∈ Calendar.year_of <$> index (data self)) ->
  exists self' s',
    calculate_annual_metrics self s = inr (self', s')
    /\ annual_invariant (data self) (years self) self'.
Proof.
  intros Hready Hyears. unfold calculate_annual_metrics. cbv zeta.
  apply (for_each_invariant (annual_invariant (data self))).
  - by apply annual_invariant_init.
  - intros done year b s0 Hin Hinv. apply annual_invariant_step; [| done].
    apply Hyears. exact Hin.
Qed.
End Calculate.

(** ** What [calculate_annual_metrics] leaves alone *)

Section Frame.
Context {S : Type} `{RandomSource S}.

Lemma annual_metrics_of_year_frame (self self' : ViticultureSimulator) (year : Z) (s s' : S) :
  annual_metrics_of_year self year s = inr (self', s') ->
  same_outside_annual (data self) (data self').
Proof.
  unfold annual_metrics_of_year, bind, try, np_random_normal1, ret. cbv zeta.
  repeat match goal with
    | |- context [standard_normal ?s0] => destruct (standard_normal s0) as [? ?]
    | |- context [getitem ?key ?df] => destruct (getitem key df) as [? | ?]; [discriminate |]
    end.
  intros [= <- <-]. split; [reflexivity |].
  unfold annual_columns. intros key. rewrite !not_elem_of_cons.
  intros (? & ? & ? & ? & ? & _). simpl data. by rewrite !columns_loc_setitem_ne.
Qed.

Lemma calculate_annual_metrics_frame (self self' : ViticultureSimulator) (s s' : S) :
  calculate_annual_metrics self s = inr (self', s') ->
  same_outside_annual (data self) (data self').
Proof.
  unfold calculate_annual_metrics. cbv zeta. intros Hrun.
  eapply (for_each_preserves (fun b => same_outside_annual (data self) (data b)));
    [| exact Hrun |].
  - intros b year s0 b' s0' Hstep [Hidx Hcols].
    destruct (annual_metrics_of_year_frame _ _ _ _ _ Hstep) as [Hidx' Hcols'].
    split; [congruence |]. intros key Hkey. rewrite Hcols' by done. by apply Hcols.
  - split; [reflexivity |]. unfold annual_columns. intros key. rewrite !not_elem_of_cons.
    intros (? & ? & ? & ? & ? & _). simpl data. by rewrite !columns_setitem_scalar_ne.
Qed.
End Frame.

(** ** The whole pipeline from a configuration *)

Lemma draws_Forall {S} (sampler : S -> Q * S) (P : Q -> Prop) (n : nat) (s : S) :
  (forall s, P (sampler s).1) -> Forall P (draws sampler n s).1.
Proof.
  intros HP. revert s. induction n as [| n IH]; intros s; simpl; [constructor |].
  pose proof (HP s) as Hx. destruct (sampler s) as [x s1]. specialize (IH s1).
  destruct (draws sampler n s1) as [xs s2]. simpl in *. by constructor.
Qed.

Section Pipeline.
Context {S : Type} `{RandomSource S}.
Variable np_sin : Q -> Q.
Variables (start_date end_date : Timestamp) (hectares : Q) (s : S).

Lemma generate_from_init :
  generate_ambient_data np_sin (__init__ start_date end_date hectares) s
  = inr (with_data (__init__ start_date end_date hectares)
           (mkDataFrame (pd_date_range start_date end_date)
              (ambient_columns np_sin (pd_date_range start_date end_date) hectares
                 (ambient_draws (length (pd_date_range start_date end_date)) s) ∅)),
         state_after (ambient_draws (length (pd_date_range start_date end_date)) s)).
Proof. by rewrite generate_ambient_data_run. Qed.

(** Both methods return; the table has the index of the configuration,
    the climate columns of [generate_ambient_data] and, on every row, the
    annual values of the row's year. *)
Lemma pipeline_run :
  exists (self1 self2 : ViticultureSimulator) (s1 s2 : S),
    generate_ambient_data np_sin (__init__ start_date end_date hectares) s = inr (self1, s1)
    /\ calculate_annual_metrics self1 s1 = inr (self2, s2)
    /\ run_simulation np_sin (__init__ start_date end_date hectares) s = inr (data self2, s2)
    /\ data self1
       = mkDataFrame (pd_date_range start_date end_date)
           (ambient_columns np_sin (pd_date_range start_date end_date) hectares
              (ambient_draws (length (pd_date_range start_date end_date)) s) ∅)
    /\ index (data self2) = pd_date_range start_date end_date
    /\ same_outside_annual (data self1) (data self2)
    /\ (forall key, key ∈ annual_columns -> has_column (data self2) key)
    /\ (forall (i : nat) (d : Timestamp),
          pd_date_range start_date end_date !! i = Some d ->
          exists m, in_range m /\ cost_drawn m
                    /\ year_has (data self2) (Calendar.year_of d) m).
Proof.
  pose proof generate_from_init as Hgen.
  set (self1 := with_data _ _) in Hgen. set (s1 := state_after _) in Hgen.
  destruct (calculate_annual_metrics_run self1 s1) as (self2 & s2 & Hcalc & Hinv).
  { apply ambient_columns_ready. }
  { intros year. simpl. by rewrite elem_of_unique. }
  destruct Hinv as (Hidx & _ & Hframe & Hcols & Hyears).
  exists self1, self2, s1, s2. repeat split; try done.
  - unfold run_simulation, bind. by rewrite Hgen, Hcalc.
  - intros i d Hd. apply Hyears. simpl. rewrite elem_of_unique.
    apply list_elem_of_fmap. exists d. split; [done |]. by eapply list_elem_of_lookup_2.
Qed.
End Pipeline.

(** Every column of the table that the pipeline returns is as long as its
    index. *)
Lemma ambient_columns_full {S : Type} `{RandomSource S} (np_sin : Q -> Q)
    (idx : list Timestamp) (hectares : Q) (s : S) (key : string) (col : list float) :
  ambient_columns np_sin idx hectares (ambient_draws (length idx) s) ∅ !! key = Some col ->
  length col = length idx.
Proof.
  destruct (decide (key ∈ "Hectares_Simulated" :: climate_columns)) as [Hin | Hout].
  - revert Hin. unfold climate_columns. rewrite !elem_of_cons, elem_of_nil.
    intros [-> | [-> | [-> | [-> | [-> | []]]]]].
    + rewrite lookup_ambient_hectares. intros [= <-]. by rewrite length_replicate.
    + rewrite lookup_ambient_temperature. intros [= <-]. apply temperature_spec.
    + rewrite lookup_ambient_precipitation. intros [= <-]. apply precipitation_spec.
    + rewrite lookup_ambient_humidity. intros [= <-]. apply humidity_spec.
    + rewrite lookup_ambient_irradiance. intros [= <-]. apply irradiance_spec.
  - rewrite lookup_ambient_other by done. by rewrite lookup_empty.
Qed.

(** * The claims *)

(** C1. For a configuration whose end date is not before its start date,
    [run_simulation] returns a table with exactly one row per calendar day
    of the range: the number of rows, and the length of every column, is
    the number of days from start to end inclusive; the dates of the index
    ascend strictly, none is repeated, and a date is in the index exactly
    when it lies in the range. *)
Theorem run_simulation_one_row_per_day {S : Type} `{RandomSource S} (np_sin : Q -> Q)
    (start_date end_date : Timestamp) (hectares : Q) (s : S) :
  (start_date <= end_date)%Z ->
  exists (df : DataFrame) (s' : S),
    run_simulation np_sin (__init__ start_date end_date hectares) s = inr (df, s')
    /\ Z.of_nat (length (index df)) = (end_date - start_date + 1)%Z
    /\ (forall key col, columns df !! key = Some col -> length col = length (index df))
    /\ StronglySorted Z.lt (index df)
    /\ NoDup (index df)
    /\ (forall d : Timestamp, d ∈ index df <-> (start_date <= d <= end_date)%Z).
Proof.
  intros Hle.
  destruct (pipeline_run np_sin start_date end_date hectares s)
    as (self1 & self2 & s1 & s2 & _ & _ & Hrun & Hdata & Hidx & [_ Hframe] & Hcols & _).
  exists (data self2), s2. split; [done |]. rewrite Hidx.
  split; [rewrite length_pd_date_range; lia |].
  split; [| split; [apply pd_date_range_sorted |
                    split; [apply StronglySorted_lt_NoDup, pd_date_range_sorted |
                            apply elem_of_pd_date_range]]].
  intros key col Hcol. destruct (decide (key ∈ annual_columns)) as [Hin | Hout].
  - destruct (Hcols key Hin) as (col' & Hcol' & Hlen). congruence.
  - rewrite Hframe, Hdata in Hcol by done. simpl in Hcol.
    by eapply ambient_columns_full.
Qed.

(** The week from 2020-01-01 to 2020-01-07 on 100 hectares. *)
Lemma run_simulation_one_row_per_day_witness :
  (18262 <= 18268)%Z
  /\ exists (df : DataFrame) (s' : Z),
      @run_simulation Z TestSource.source TestSource.sin (__init__ 18262 18268 100) 42%Z
      = inr (df, s')
      /\ Z.of_nat (length (index df)) = (18268 - 18262 + 1)%Z
      /\ (forall key col, columns df !! key = Some col -> length col = length (index df))
      /\ StronglySorted Z.lt (index df)
      /\ NoDup (index df)
      /\ (forall d : Timestamp, d ∈ index df <-> (18262 <= d <= 18268)%Z).
Proof.
  split; [lia |].
  apply (run_simulation_one_row_per_day TestSource.sin 18262 18268 100 42%Z). lia.
Defined.

(** C2. In every run, after [generate_ambient_data] and then
    [calculate_annual_metrics] have returned, two rows whose dates lie in
    the same calendar year carry the same number (not NaN) in each of the
    five annual columns [Yield_kg_ha], [Grape_Sugar_Level],
    [Production_Cost_EUR_ha], [Selling_Price_EUR_kg] and [Revenue_EUR_ha]. *)
Theorem annual_fields_constant_within_year {S : Type} `{RandomSource S} (np_sin : Q -> Q)
    (start_date end_date : Timestamp) (hectares : Q) (s : S) :
  exists (self1 self2 : ViticultureSimulator) (s1 s2 : S),
    generate_ambient_data np_sin (__init__ start_date end_date hectares) s = inr (self1, s1)
    /\ calculate_annual_metrics self1 s1 = inr (self2, s2)
    /\ forall (i j : nat) (d1 d2 : Timestamp),
        index (data self2) !! i = Some d1 ->
        index (data self2) !! j = Some d2 ->
        Calendar.year_of d1 = Calendar.year_of d2 ->
        forall key : string, key ∈ annual_columns ->
          exists q : Q,
            cell (data self2) key i = Some (Some q)
            /\ cell (data self2) key j = Some (Some q).
Proof.
  destruct (pipeline_run np_sin start_date end_date hectares s)
    as (self1 & self2 & s1 & s2 & Hgen & Hcalc & _ & _ & Hidx & _ & _ & Hyears).
  exists self1, self2, s1, s2. split; [done |]. split; [done |].
  intros i j d1 d2 Hi Hj Hsame key Hkey.
  destruct (Hyears i d1) as (m & _ & _ & Hhas); [by rewrite <- Hidx |].
  destruct (Hhas i d1 Hi eq_refl) as (Hi1 & Hi2 & Hi3 & Hi4 & Hi5).
  destruct (Hhas j d2 Hj (eq_sym Hsame)) as (Hj1 & Hj2 & Hj3 & Hj4 & Hj5).
  revert Hkey. unfold annual_columns. rewrite !elem_of_cons, elem_of_nil.
  intros [-> | [-> | [-> | [-> | [-> | []]]]]]; eauto.
Qed.

(** C3. In every run, after [calculate_annual_metrics] every row has a
    yield in [8000, 15000], a sugar level in [15, 19.5], a selling price in
    [3.5, 6.0] and a production cost of at least 8000. *)
Theorem annual_fields_in_range {S : Type} `{RandomSource S} (np_sin : Q -> Q)
    (start_date end_date : Timestamp) (hectares : Q) (s : S) :
  exists (self1 self2 : ViticultureSimulator) (s1 s2 : S),
    generate_ambient_data np_sin (__init__ start_date end_date hectares) s = inr (self1, s1)
    /\ calculate_annual_metrics self1 s1 = inr (self2, s2)
    /\ forall i : nat, (i < length (index (data self2)))%nat ->
        exists yield_kg_ha sugar cost price : Q,
          cell (data self2) "Yield_kg_ha" i = Some (Some yield_kg_ha)
          /\ (8000 <= yield_kg_ha <= 15000)%Q
          /\ cell (data self2) "Grape_Sugar_Level" i = Some (Some sugar)
          /\ (15 <= sugar <= 19.5)%Q
          /\ cell (data self2) "Selling_Price_EUR_kg" i = Some (Some price)
          /\ (3.5 <= price <= 6.0)%Q
          /\ cell (data self2) "Production_Cost_EUR_ha" i = Some (Some cost)
          /\ (8000 <= cost)%Q.
Proof.
  destruct (pipeline_run np_sin start_date end_date hectares s)
    as (self1 & self2 & s1 & s2 & Hgen & Hcalc & _ & _ & Hidx & _ & _ & Hyears).
  exists self1, self2, s1, s2. split; [done |]. split; [done |].
  intros i Hi. destruct (lookup_lt_is_Some_2 _ i Hi) as [d Hd].
  destruct (Hyears i d) as (m & Hrange & _ & Hhas); [by rewrite <- Hidx |].
  destruct (Hhas i d Hd eq_refl) as (H1 & H2 & H3 & H4 & _).
  destruct Hrange as (Hy & Hs & Hc & Hp & _).
  exists (final_yield m), (final_sugar_level m), (final_production_cost_per_ha m),
    (final_selling_price_per_kg m).
  repeat split; try done; tauto.
Qed.

(** When the end date is before the start date the index is empty, every
    column is empty and nothing is drawn. *)
Lemma pd_date_range_empty (start_date end_date : Timestamp) :
  (end_date < start_date)%Z -> pd_date_range start_date end_date = [].
Proof.
  intros Hlt. unfold pd_date_range.
  replace (Z.to_nat (end_date - start_date + 1)) with 0%nat by lia. reflexivity.
Qed.

Lemma run_simulation_empty {S : Type} `{RandomSource S} (np_sin : Q -> Q)
    (start_date end_date : Timestamp) (hectares : Q) (s : S) :
  (end_date < start_date)%Z ->
  exists df : DataFrame,
    run_simulation np_sin (__init__ start_date end_date hectares) s = inr (df, s)
    /\ index df = [].
Proof.
  intros Hlt. unfold __init__. rewrite (pd_date_range_empty _ _ Hlt).
  eexists. split; [reflexivity | reflexivity].
Qed.

Lemma cell_column (df : DataFrame) (key : string) (col : list float) (i : nat) :
  columns df !! key = Some col -> cell df key i = col !! i.
Proof. intros Hcol. unfold cell. by rewrite Hcol. Qed.

Lemma finite_lookup (col : list float) (i : nat) :
  finite col -> (i < length col)%nat -> exists q : Q, col !! i = Some (Some q).
Proof.
  intros Hfin Hi. destruct (lookup_lt_is_Some_2 col i Hi) as [x Hx].
  unfold finite in Hfin. rewrite Forall_lookup in Hfin.
  destruct (Hfin i x Hx) as [q ->]. eauto.
Qed.

(** C5. In [generate_ambient_data] the coupling pass works on the variables
    as drawn, row by row and in this order: the temperature becomes the
    drawn temperature plus 0.005 times the irradiance, the humidity becomes
    the drawn (clamped) humidity minus 0.5 times that new temperature, and
    the result is clamped to [0, 100]. The humidity column of the table
    that [run_simulation] returns is this column, so every row of it lies
    in [0, 100]. *)
Theorem coupling_pass_order {S : Type} `{RandomSource S} (np_sin : Q -> Q)
    (start_date end_date : Timestamp) (hectares : Q) (s : S) :
  let idx := pd_date_range start_date end_date in
  let w := ambient_draws (length idx) s in
  exists (self1 : ViticultureSimulator) (s1 : S) (df : DataFrame) (s' : S),
    generate_ambient_data np_sin (__init__ start_date end_date hectares) s = inr (self1, s1)
    /\ run_simulation np_sin (__init__ start_date end_date hectares) s = inr (df, s')
    /\ index df = idx
    /\ forall i : nat, (i < length idx)%nat ->
        exists temperature0 humidity0 irradiance0 humidity_final : Q,
          temperature_base np_sin idx (noise_drawn w) !! i = Some (Some temperature0)
          /\ humidity_base (humidity_drawn w) !! i = Some (Some humidity0)
          /\ irradiance np_sin idx (irradiance_drawn w) !! i = Some (Some irradiance0)
          /\ cell (data self1) "Temperature_C" i
             = Some (Some (temperature0 + irradiance0 * 0.005)%Q)
          /\ cell (data self1) "Humidity_percent" i
             = Some (Float.clip 0 (Some 100%Q)
                       (Some (humidity0 - (temperature0 + irradiance0 * 0.005) * 0.5)%Q))
          /\ cell df "Humidity_percent" i = cell (data self1) "Humidity_percent" i
          /\ cell df "Humidity_percent" i = Some (Some humidity_final)
          /\ (0 <= humidity_final <= 100)%Q.
Proof.
  intros idx w. subst idx w.
  set (idx := pd_date_range start_date end_date).
  destruct (pipeline_run np_sin start_date end_date hectares s)
    as (self1 & self2 & s1 & s2 & Hgen & _ & Hrun & Hdata & Hidx & [_ Hframe] & _ & _).
  exists self1, s1, (data self2), s2. split; [done |]. split; [done |]. split; [done |].
  intros i Hi.
  destruct (temperature_base_spec np_sin idx s) as [HlT HfT].
  destruct (irradiance_spec np_sin idx s) as [HlI HfI].
  destruct (length_drawn idx s) as (_ & _ & _ & HlH & _).
  destruct (finite_lookup _ i HfT) as [t0 Ht0]; [by rewrite HlT |].
  destruct (finite_lookup _ i HfI) as [irr Hirr]; [by rewrite HlI |].
  assert (i < length (humidity_drawn (ambient_draws (length idx) s)))%nat as Hi'
    by (by rewrite HlH).
  destruct (lookup_lt_is_Some_2 _ i Hi') as [z Hz].
  destruct (clip_range 0 100 (75 + 12 * z)) as (h0 & Hh0 & _); [lra |].
  assert (humidity_base (humidity_drawn (ambient_draws (length idx) s)) !! i
          = Some (Some h0)) as Hhum0.
  { unfold humidity_base, Arr.clip. rewrite !list_lookup_fmap, Hz. simpl.
    f_equal. exact Hh0. }
  destruct (clip_range 0 100 (h0 - (t0 + irr * 0.005) * 0.5)) as (hum & Hhum & Hrange);
    [lra |].
  assert (cell (data self1) "Temperature_C" i = Some (Some (t0 + irr * 0.005)%Q)) as HT.
  { rewrite Hdata. erewrite cell_column by apply lookup_ambient_temperature.
    unfold temperature_coupled, Arr.add, Arr.scale. fold idx.
    rewrite lookup_zip_with, list_lookup_fmap, Ht0, Hirr. reflexivity. }
  assert (cell (data self1) "Humidity_percent" i
          = Some (Float.clip 0 (Some 100%Q) (Some (h0 - (t0 + irr * 0.005) * 0.5)%Q))) as HH.
  { rewrite Hdata. erewrite cell_column by apply lookup_ambient_humidity. fold idx.
    unfold humidity_coupled, temperature_coupled, Arr.clip, Arr.sub, Arr.add, Arr.scale.
    rewrite list_lookup_fmap, lookup_zip_with, list_lookup_fmap, lookup_zip_with,
      list_lookup_fmap, Hhum0, Ht0, Hirr. reflexivity. }
  assert (cell (data self2) "Humidity_percent" i = cell (data self1) "Humidity_percent" i)
    as Hsame.
  { unfold cell. rewrite Hframe; [done |]. unfold annual_columns.
    rewrite !not_elem_of_cons. repeat split; try done. apply not_elem_of_nil. }
  exists t0, h0, irr, hum. repeat split; try done.
  - by rewrite Hsame, HH, Hhum.
  - tauto.
  - tauto.
Qed.

(** C6. On every row of the table that [run_simulation] returns the
    precipitation is a number that is not negative. It is the amount drawn,
    7.0 times a standard exponential draw, on the days whose uniform draw
    is below [0.25 + 0.2 * sin(2 pi (day - 60) / 365)], and exactly 0 on
    the other days. *)
Theorem precipitation_zero_inflated {S : Type} `{RandomSource S} (np_sin : Q -> Q)
    (start_date end_date : Timestamp) (hectares : Q) (s : S) :
  let idx := pd_date_range start_date end_date in
  let w := ambient_draws (length idx) s in
  exists (df : DataFrame) (s' : S),
    run_simulation np_sin (__init__ start_date end_date hectares) s = inr (df, s')
    /\ index df = idx
    /\ forall (i : nat) (d : Timestamp), idx !! i = Some d ->
        exists u e mm : Q,
          uniform_drawn w !! i = Some u
          /\ rain_drawn w !! i = Some e
          /\ (0 <= e)%Q
          /\ cell df "Precipitation_mm" i = Some (Some mm)
          /\ (0 <= mm)%Q
          /\ mm = (if QMicromega.Qlt_bool u
                        (0.25 + 0.2 * np_sin (2 * np_pi * inject_Z (Calendar.dayofyear d - 60) / 365))
                   then 7.0 * e else 0)%Q.
Proof.
  intros idx w. subst idx w. set (idx := pd_date_range start_date end_date).
  destruct (pipeline_run np_sin start_date end_date hectares s)
    as (self1 & self2 & s1 & s2 & _ & _ & Hrun & Hdata & Hidx & [_ Hframe] & _ & _).
  exists (data self2), s2. split; [done |]. split; [done |].
  intros i d Hd. fold idx in Hdata.
  destruct (length_drawn idx s) as (_ & Hlu & Hle & _).
  assert (i < length idx)%nat as Hi by (by eapply lookup_lt_Some).
  assert (i < length (uniform_drawn (ambient_draws (length idx) s)))%nat as Hiu
    by (by rewrite Hlu).
  assert (i < length (rain_drawn (ambient_draws (length idx) s)))%nat as Hie
    by (by rewrite Hle).
  destruct (lookup_lt_is_Some_2 _ i Hiu) as [u Hu].
  destruct (lookup_lt_is_Some_2 _ i Hie) as [e He].
  assert (0 <= e)%Q as Hpos.
  { assert (Forall (fun e => 0 <= e)%Q (rain_drawn (ambient_draws (length idx) s))) as Hall.
    { unfold ambient_draws. simpl. apply draws_Forall, standard_exponential_nonneg. }
    rewrite Forall_lookup in Hall. by eapply Hall. }
  set (p := (0.25 + 0.2 * np_sin (2 * np_pi * inject_Z (Calendar.dayofyear d - 60) / 365))%Q).
  exists u, e, (if QMicromega.Qlt_bool u p then 7.0 * e else 0)%Q.
  split; [done |]. split; [done |]. split; [done |]. split; [| split; [| done]].
  - erewrite cell_column.
    2:{ rewrite Hframe, Hdata; [apply lookup_ambient_precipitation |].
        unfold annual_columns. rewrite !not_elem_of_cons. repeat split; try done.
        apply not_elem_of_nil. }
    unfold precipitation, Arr.where_.
    rewrite lookup_zip_with, lookup_zip_with, !list_lookup_fmap, Hu, He, Hd. simpl.
    unfold seasonal. fold p. by destruct (QMicromega.Qlt_bool u p).
  - destruct (QMicromega.Qlt_bool u p); lra.
Qed.

(** ** Runs on two generators that deliver the same numbers *)

Section Agree.
Context {S1 S2 : Type} `{RandomSource S1} `{RandomSource S2}.

Lemma same_draws_replicate (kind : Draw) (n : nat) (rest : list Draw) (s1 : S1) (s2 : S2) :
  same_draws (replicate n kind ++ rest)%list s1 s2 ->
  (draws (sampler kind) n s1).1 = (draws (sampler kind) n s2).1
  /\ same_draws rest (draws (sampler kind) n s1).2 (draws (sampler kind) n s2).2.
Proof.
  revert s1 s2. induction n as [| n IH]; intros s1 s2; [done |].
  cbn [replicate app same_draws draws]. intros [Hx Hrest].
  destruct (sampler kind s1) as [x1 t1], (sampler kind s2) as [x2 t2]. simpl in *.
  destruct (IH t1 t2 Hrest) as [Hxs Hend].
  destruct (draws (sampler kind) n t1) as [xs1 u1], (draws (sampler kind) n t2) as [xs2 u2].
  simpl in *. by subst.
Qed.

Lemma agree_ret {A} (a : A) : agree [] (ret a : M S1 A) (ret a : M S2 A).
Proof. intros rest s1 s2 Hsame. done. Qed.

Lemma agree_bind {A B} (kinds1 kinds2 : list Draw) (c1 : M S1 A) (c2 : M S2 A)
    (k1 : A -> M S1 B) (k2 : A -> M S2 B) :
  agree kinds1 c1 c2 ->
  (forall a s1 t1, c1 s1 = inr (a, t1) -> agree kinds2 (k1 a) (k2 a)) ->
  agree (kinds1 ++ kinds2)%list (bind c1 k1) (bind c2 k2).
Proof.
  intros Hc Hk rest s1 s2 Hsame. rewrite <- app_assoc in Hsame.
  specialize (Hc _ s1 s2 Hsame). unfold bind.
  destruct (c1 s1) as [e1 | [a1 t1]] eqn:E1, (c2 s2) as [e2 | [a2 t2]]; try done.
  destruct Hc as [<- Hrest]. by apply (Hk a1 s1 t1).
Qed.

Lemma bind_returns {S A B} (P : B -> Prop) (c : M S A) (k : A -> M S B) :
  (forall (a : A) (s : S) (b : B) (t : S), k a s = inr (b, t) -> P b) ->
  forall (s : S) (b : B) (t : S), bind c k s = inr (b, t) -> P b.
Proof.
  intros Hk s b t. unfold bind. destruct (c s) as [e | [a s']]; [done |]. apply Hk.
Qed.

(** [generate_ambient_data] changes the table only. *)
Lemma generate_ambient_data_years {S} `{RandomSource S} (np_sin : Q -> Q)
    (self self1 : ViticultureSimulator) (s t : S) :
  generate_ambient_data np_sin self s = inr (self1, t) -> years self1 = years self.
Proof.
  revert s self1 t. unfold generate_ambient_data. cbv zeta.
  repeat (apply bind_returns; intros ?).
  intros s self1 t [= <- _]. reflexivity.
Qed.

Lemma agree_bind_try {A B} (kinds : list Draw) (r : exn + A)
    (k1 : A -> M S1 B) (k2 : A -> M S2 B) :
  (forall a, agree kinds (k1 a) (k2 a)) ->
  agree kinds (bind (try r) k1) (bind (try r) k2).
Proof.
  intros Hk rest s1 s2 Hsame. unfold bind, try. destruct r as [e | a]; [done |].
  by apply Hk.
Qed.

Lemma agree_bind_sample {B} (kind : Draw) (n : nat) (f : Q -> Q) (kinds : list Draw)
    (k1 : list float -> M S1 B) (k2 : list float -> M S2 B) :
  (forall xs, agree kinds (k1 xs) (k2 xs)) ->
  agree (replicate n kind ++ kinds)%list
    (bind (sample n (sampler kind) f) k1) (bind (sample n (sampler kind) f) k2).
Proof.
  intros Hk rest s1 s2 Hsame. rewrite <- app_assoc in Hsame.
  apply same_draws_replicate in Hsame as [Hxs Hrest].
  rewrite !bind_sample, Hxs. by apply Hk.
Qed.

Lemma agree_bind_normal1 {B} (loc scale : Q) (kinds : list Draw)
    (k1 : float -> M S1 B) (k2 : float -> M S2 B) :
  (forall x, agree kinds (k1 x) (k2 x)) ->
  agree (Normal :: kinds) (bind (np_random_normal1 loc scale) k1)
    (bind (np_random_normal1 loc scale) k2).
Proof.
  intros Hk rest s1 s2 [Hx Hrest]. unfold bind, np_random_normal1.
  cbn [sampler] in Hx, Hrest.
  destruct (standard_normal s1) as [x1 t1], (standard_normal s2) as [x2 t2].
  simpl in *. subst. by apply Hk.
Qed.

Lemma agree_for_each {A B} (kinds : list Draw) (xs : list A)
    (body1 : B -> A -> M S1 B) (body2 : B -> A -> M S2 B) :
  (forall b x, agree kinds (body1 b x) (body2 b x)) ->
  forall b, agree (concat (replicate (length xs) kinds)) (for_each xs body1 b)
              (for_each xs body2 b).
Proof.
  intros Hbody. induction xs as [| x xs IH]; intros b; [apply agree_ret |].
  cbn [length replicate concat for_each]. apply agree_bind; [apply Hbody |].
  intros b' _ _ _. apply IH.
Qed.

Lemma agree_generate_ambient_data (np_sin : Q -> Q) (self : ViticultureSimulator) :
  agree (replicate (length (date_range self)) Normal
         ++ replicate (length (date_range self)) Uniform
         ++ replicate (length (date_range self)) Exponential
         ++ replicate (length (date_range self)) Normal
         ++ replicate (length (date_range self)) Normal ++ [])%list
    (generate_ambient_data (S := S1) np_sin self)
    (generate_ambient_data (S := S2) np_sin self).
Proof.
  unfold generate_ambient_data, np_random_normal, np_random_rand, np_random_exponential.
  cbv zeta.
  apply (agree_bind_sample Normal). intros random_noise.
  apply agree_bind_try. intros df1.
  apply (agree_bind_sample Uniform). intros uniform.
  apply (agree_bind_sample Exponential). intros rain.
  apply agree_bind_try. intros df2.
  apply (agree_bind_sample Normal). intros humidity.
  apply agree_bind_try. intros df3.
  apply (agree_bind_sample Normal). intros irradiance_noise.
  repeat (apply agree_bind_try; intros ?).
  apply agree_ret.
Qed.

Lemma agree_annual_metrics_of_year (self : ViticultureSimulator) (year : Z) :
  agree (replicate 4 Normal) (annual_metrics_of_year (S := S1) self year)
    (annual_metrics_of_year (S := S2) self year).
Proof.
  unfold annual_metrics_of_year. cbv zeta. cbn [replicate].
  apply agree_bind_normal1. intros base_yield.
  repeat (apply agree_bind_try; intros ?).
  apply agree_bind_normal1. intros base_sugar.
  apply agree_bind_normal1. intros base_cost.
  apply agree_bind_normal1. intros base_price.
  apply agree_ret.
Qed.

Lemma concat_replicate_replicate {A} (n m : nat) (x : A) :
  concat (replicate n (replicate m x)) = replicate (n * m) x.
Proof.
  induction n as [| n IH]; [done |].
  cbn [replicate concat]. rewrite IH. simpl. by rewrite replicate_add.
Qed.

Lemma agree_run_simulation (np_sin : Q -> Q) (self : ViticultureSimulator) :
  agree (draws_of_run (length (date_range self)) (length (years self)))
    (run_simulation (S := S1) np_sin self) (run_simulation (S := S2) np_sin self).
Proof.
  unfold run_simulation, draws_of_run.
  pose proof (agree_generate_ambient_data np_sin self) as Hgen.
  rewrite app_nil_r in Hgen.
  replace (replicate (length (date_range self)) Normal
           ++ replicate (length (date_range self)) Uniform
           ++ replicate (length (date_range self)) Exponential
           ++ replicate (length (date_range self)) Normal
           ++ replicate (length (date_range self)) Normal
           ++ replicate (length (years self) * 4) Normal)%list
    with ((replicate (length (date_range self)) Normal
           ++ replicate (length (date_range self)) Uniform
           ++ replicate (length (date_range self)) Exponential
           ++ replicate (length (date_range self)) Normal
           ++ replicate (length (date_range self)) Normal)
          ++ replicate (length (years self) * 4) Normal ++ [])%list
    by (rewrite app_nil_r, <- !app_assoc; reflexivity).
  apply agree_bind; [exact Hgen |]. intros self1 s1 t1 Hself1.
  apply generate_ambient_data_years in Hself1.
  apply agree_bind; [| intros self2 _ _ _; apply agree_ret].
  unfold calculate_annual_metrics. cbv zeta.
  rewrite <- concat_replicate_replicate, <- Hself1.
  apply agree_for_each. intros b year. apply agree_annual_metrics_of_year.
Qed.
End Agree.

Lemma same_draws_refl {S : Type} `{RandomSource S} (kinds : list Draw) (s : S) :
  same_draws kinds s s.
Proof. revert s. induction kinds as [| kind kinds IH]; intros s; simpl; auto. Qed.

(** C7. The table that a run returns depends on the generator only through
    the numbers it delivers for the draws of the run. Two runs of the
    pipeline with the same configuration, on two generators (or two states
    of one generator) that deliver the same numbers for these draws, both
    return, and return the same table, equal in every cell. This is so in
    particular for two runs on the state that [np.random.seed] sets for one
    seed ([same_draws_refl]). *)
Theorem run_simulation_deterministic {S1 S2 : Type} `{RandomSource S1} `{RandomSource S2}
    (np_sin : Q -> Q) (start_date end_date : Timestamp) (hectares : Q) (s1 : S1) (s2 : S2) :
  let self := __init__ start_date end_date hectares in
  same_draws (draws_of_run (length (date_range self)) (length (years self))) s1 s2 ->
  exists (df : DataFrame) (s1' : S1) (s2' : S2),
    run_simulation np_sin self s1 = inr (df, s1')
    /\ run_simulation np_sin self s2 = inr (df, s2').
Proof.
  intros self Hsame.
  pose proof (agree_run_simulation np_sin self [] s1 s2) as Hagree.
  rewrite app_nil_r in Hagree. specialize (Hagree Hsame).
  destruct (pipeline_run np_sin start_date end_date hectares s1)
    as (_ & self2 & _ & s1' & _ & _ & Hrun & _).
  fold self in Hrun. rewrite Hrun in Hagree.
  destruct (run_simulation np_sin self s2) as [e | [df s2']]; [done |].
  destruct Hagree as [<- _]. eauto.
Qed.

(** Two runs on 2020-01-01 and 2020-01-02, on two states of the test
    generator that deliver the same numbers. *)
Lemma run_simulation_deterministic_witness :
  let self := __init__ 18262 18263 100 in
  @same_draws Z Z TestSource.source TestSource.source
    (draws_of_run (length (date_range self)) (length (years self))) 42%Z 2147483690%Z
  /\ exists (df : DataFrame) (s1' s2' : Z),
      @run_simulation Z TestSource.source TestSource.sin self 42%Z = inr (df, s1')
      /\ @run_simulation Z TestSource.source TestSource.sin self 2147483690%Z = inr (df, s2').
Proof.
  intros self.
  assert (@same_draws Z Z TestSource.source TestSource.source
            (draws_of_run (length (date_range self)) (length (years self)))
            42%Z 2147483690%Z) as Hsame
    by (vm_compute; repeat split).
  split; [exact Hsame |].
  exact (run_simulation_deterministic TestSource.sin 18262 18263 100 42%Z 2147483690%Z Hsame).
Defined.

(** The table does depend on the state of the generator: a second run in
    the same process, not seeded again, starts where the first one stopped
    and returns another table (the humidity of the first row is another
    number). *)
Example second_run_without_seed_differs :
  let run := @run_simulation Z TestSource.source TestSource.sin (__init__ 18262 18262 100) in
  let humidity (r : exn + DataFrame * Z) := returned r ≫= fun df => cell df "Humidity_percent" 0 in
  state_returned (run (@seed Z TestSource.source 42)) = Some 1314989459%Z
  /\ match humidity (run (@seed Z TestSource.source 42)), humidity (run 1314989459%Z) with
     | Some (Some humidity1), Some (Some humidity2) => Qeq_bool humidity1 humidity2
     | _, _ => true
     end = false.
Proof. intros run humidity. split; vm_compute; reflexivity. Qed.

(** C8. For every date range the smoothing of the temperature noise gives
    a number on every day: the centered 7-day moving average of the noise
    drawn has one value per day, and on day [i] it is the mean of the noise
    on those of the positions [i - 3 .. i + 3] that exist, between one and
    seven of them, never NaN. In particular a range of one day gives one
    value, the noise of that day, and the temperature column that
    [generate_ambient_data] stores has a number on every row. *)
Theorem smoothed_noise_defined {S : Type} `{RandomSource S} (np_sin : Q -> Q)
    (start_date end_date : Timestamp) (hectares : Q) (s : S) :
  let idx := pd_date_range start_date end_date in
  let num_days := length idx in
  exists (random_noise : list float) (s0 : S) (self1 : ViticultureSimulator) (s1 : S),
    np_random_normal 0 3 num_days s = inr (random_noise, s0)
    /\ generate_ambient_data np_sin (__init__ start_date end_date hectares) s = inr (self1, s1)
    /\ length (rolling_mean 7 1 random_noise) = num_days
    /\ (forall i : nat, (i < num_days)%nat ->
          exists window : list Q,
            window = observations (rolling_window 7 random_noise i)
            /\ (1 <= length window <= 7)%nat
            /\ rolling_mean 7 1 random_noise !! i
               = Some (Some (Qsum window / inject_Z (Z.of_nat (length window)))%Q))
    /\ (forall i : nat, (i < num_days)%nat ->
          exists t : Q, cell (data self1) "Temperature_C" i = Some (Some t))
    /\ (num_days = 1%nat ->
          exists z : Q, random_noise = [Some z]
                        /\ rolling_mean 7 1 random_noise = [Some ((z + 0) / 1)%Q]).
Proof.
  intros idx num_days. subst idx num_days. set (idx := pd_date_range start_date end_date).
  destruct (pipeline_run np_sin start_date end_date hectares s)
    as (self1 & _ & s1 & _ & Hgen & _ & _ & Hdata & _).
  fold idx in Hdata.
  set (noise := (fun z => Some (0 + 3 * z)%Q) <$> (draws standard_normal (length idx) s).1).
  assert (length noise = length idx) as Hlen
    by (unfold noise; by rewrite length_fmap, draws_length).
  assert (finite noise) as Hfin by apply finite_fmap_Some.
  exists noise, (draws standard_normal (length idx) s).2, self1, s1.
  split; [| split; [done | split; [| split; [| split]]]].
  - unfold np_random_normal, sample. by destruct (draws standard_normal (length idx) s).
  - by rewrite length_rolling_mean.
  - intros i Hi. apply rolling_mean_defined; [lia | done | by rewrite Hlen].
  - intros i Hi. rewrite Hdata.
    erewrite cell_column by apply lookup_ambient_temperature.
    destruct (temperature_spec np_sin idx s) as [HlT HfT].
    apply finite_lookup; [exact HfT | by rewrite HlT].
  - intros Hone. rewrite Hone in *.
    destruct noise as [| [z |] [| ? ?]] eqn:Enoise; simpl in Hlen; try lia.
    + exists z. split; reflexivity.
    + by inversion Hfin as [| ? ? [? ?] ?].
Qed.

(** C9. [calculate_annual_metrics] writes the five annual columns only:
    whenever it returns, the index is the one it found, the columns
    [Temperature_C], [Precipitation_mm], [Humidity_percent],
    [Solar_Irradiance_W_m2] and [Hectares_Simulated] are the ones it found,
    and so is every cell of every column other than the five annual ones. *)
Theorem calculate_annual_metrics_keeps_climate {S : Type} `{RandomSource S}
    (self self' : ViticultureSimulator) (s s' : S) :
  calculate_annual_metrics self s = inr (self', s') ->
  index (data self') = index (data self)
  /\ (forall key : string,
        key ∈ "Hectares_Simulated" :: climate_columns ->
        columns (data self') !! key = columns (data self) !! key)
  /\ (forall (key : string) (i : nat),
        key ∉ annual_columns -> cell (data self') key i = cell (data self) key i).
Proof.
  intros Hrun. destruct (calculate_annual_metrics_frame _ _ _ _ Hrun) as [Hidx Hcols].
  split; [done |]. split.
  - intros key Hkey. apply Hcols. revert Hkey. unfold climate_columns, annual_columns.
    rewrite !not_elem_of_cons, !elem_of_cons, !elem_of_nil.
    intros [-> | [-> | [-> | [-> | [-> | []]]]]]; repeat split; try done; tauto.
  - intros key i Hkey. unfold cell. by rewrite Hcols.
Qed.

(** [calculate_annual_metrics] on the table generated for 2020-12-31 and
    2021-01-01. *)
Lemma calculate_annual_metrics_keeps_climate_witness :
  @calculate_annual_metrics Z TestSource.source new_year_generated.1 new_year_generated.2
  = inr (new_year_calculated.1, new_year_calculated.2)
  /\ index (data new_year_calculated.1) = index (data new_year_generated.1)
  /\ (forall key : string,
        key ∈ "Hectares_Simulated" :: climate_columns ->
        columns (data new_year_calculated.1) !! key = columns (data new_year_generated.1) !! key)
  /\ (forall (key : string) (i : nat),
        key ∉ annual_columns ->
        cell (data new_year_calculated.1) key i = cell (data new_year_generated.1) key i).
Proof.
  assert (@calculate_annual_metrics Z TestSource.source
            new_year_generated.1 new_year_generated.2
          = inr (new_year_calculated.1, new_year_calculated.2)) as Hrun
    by (vm_compute; reflexivity).
  split; [exact Hrun |].
  exact (calculate_annual_metrics_keeps_climate _ _ _ _ Hrun).
Defined.

(** C10. In every run the revenue on every row is a number that is at most
    82000 = 15000 * 6.0 - 8000. There is no such bound from below: the cost
    is at least the cost drawn, and for every bound there is a generator
    (one whose normal draws are large enough) under which the revenue of a
    one-day run lies below the bound. *)
Theorem revenue_bounded_above_only :
  (forall (S : Type) (H : RandomSource S) (np_sin : Q -> Q)
          (start_date end_date : Timestamp) (hectares : Q) (s : S),
      exists (df : DataFrame) (s' : S),
        run_simulation np_sin (__init__ start_date end_date hectares) s = inr (df, s')
        /\ forall i : nat, (i < length (index df))%nat ->
            exists revenue : Q,
              cell df "Revenue_EUR_ha" i = Some (Some revenue) /\ (revenue <= 82000)%Q)
  /\ (forall bound : Q,
        exists (z : Q) (df : DataFrame) (revenue : Q),
          @run_simulation unit (ConstSource.source z) (fun _ => 0%Q) (__init__ 0 0 1) tt
          = inr (df, tt)
          /\ cell df "Revenue_EUR_ha" 0 = Some (Some revenue)
          /\ (revenue < bound)%Q).
Proof.
  split.
  - intros S H np_sin start_date end_date hectares s.
    destruct (pipeline_run np_sin start_date end_date hectares s)
      as (_ & self2 & _ & s2 & _ & _ & Hrun & _ & Hidx & _ & _ & Hyears).
    exists (data self2), s2. split; [done |]. intros i Hi.
    destruct (lookup_lt_is_Some_2 _ i Hi) as [d Hd].
    destruct (Hyears i d) as (m & Hrange & _ & Hhas); [by rewrite <- Hidx |].
    destruct (Hhas i d Hd eq_refl) as (_ & _ & _ & _ & Hrev).
    destruct Hrange as (Hy & _ & Hc & Hp & Heq).
    exists (revenue_per_ha m). split; [done |]. rewrite Heq.
    assert (final_yield m * final_selling_price_per_kg m <= 90000)%Q by nra. lra.
  - intros bound. set (z := ((80000 - bound) * (1 # 1000) + 1)%Q).
    destruct (@pipeline_run unit (ConstSource.source z) (fun _ => 0%Q) 0 0 1 tt)
      as (_ & self2 & _ & [] & _ & _ & Hrun & _ & Hidx & _ & _ & Hyears).
    destruct (Hyears 0%nat 0%Z eq_refl) as (m & Hrange & [[] Hcost] & Hhas).
    assert (index (data self2) !! 0%nat = Some 0%Z) as Hd by (by rewrite Hidx).
    destruct (Hhas 0%nat 0%Z Hd eq_refl) as (_ & _ & _ & _ & Hrev).
    destruct Hrange as (Hy & _ & Hc & Hp & Heq).
    exists z, (data self2), (revenue_per_ha m).
    split; [done |]. split; [done |]. rewrite Heq. simpl in Hcost. fold z in Hcost.
    assert (final_yield m * final_selling_price_per_kg m <= 90000)%Q by nra.
    unfold z in Hcost. lra.
Qed.

(** The scenario of the specification: 2020-01-01 to 2020-01-07 on 100
    hectares gives seven rows, each with 100 hectares and one yield for the
    year 2020. *)
Example week_of_january_2020 :
  let table :=
    returned (@run_simulation Z TestSource.source TestSource.sin
                (__init__ 18262 18268 100) 42%Z) in
  (length <$> (index <$> table)) = Some 7%nat
  /\ (table ≫= fun df => columns df !! "Hectares_Simulated") = Some (replicate 7 (Some 100%Q))
  /\ (table ≫= fun df => columns df !! "Yield_kg_ha") = Some (replicate 7 (Some 8000%Q)).
Proof.
  intros table. repeat split; vm_compute; reflexivity.
Qed.

(** * Further properties of the simulator *)

Lemma not_annual_climate (key : string) :
  key ∈ "Hectares_Simulated" :: climate_columns -> key ∉ annual_columns.
Proof.
  unfold climate_columns, annual_columns.
  rewrite !not_elem_of_cons, !elem_of_cons, !elem_of_nil.
  intros [-> | [-> | [-> | [-> | [-> | []]]]]]; repeat split; try done; tauto.
Qed.

(** X1. On every row of the table that [run_simulation] returns the solar
    irradiance is a number of at least 20, the floor of the [clip(20)] that
    closes its computation; the coupling pass and the annual metrics leave
    the column alone. *)
Theorem solar_irradiance_floor {S : Type} `{RandomSource S} (np_sin : Q -> Q)
    (start_date end_date : Timestamp) (hectares : Q) (s : S) :
  exists (df : DataFrame) (s' : S),
    run_simulation np_sin (__init__ start_date end_date hectares) s = inr (df, s')
    /\ forall i : nat, (i < length (index df))%nat ->
        exists irradiance0 : Q,
          cell df "Solar_Irradiance_W_m2" i = Some (Some irradiance0)
          /\ (20 <= irradiance0)%Q.
Proof.
  destruct (pipeline_run np_sin start_date end_date hectares s)
    as (self1 & self2 & s1 & s2 & _ & _ & Hrun & Hdata & Hidx & [_ Hframe] & _ & _).
  exists (data self2), s2. split; [done |]. rewrite Hidx. intros i Hi.
  set (idx := pd_date_range start_date end_date) in *.
  erewrite cell_column.
  2:{ rewrite Hframe, Hdata; [apply lookup_ambient_irradiance |].
      apply not_annual_climate. unfold climate_columns. rewrite !elem_of_cons. tauto. }
  destruct (length_drawn idx s) as (_ & _ & _ & _ & Hlen).
  assert (i < length (irradiance_drawn (ambient_draws (length idx) s)))%nat as Hi'
    by (by rewrite Hlen).
  destruct (lookup_lt_is_Some_2 _ i Hi') as [z Hz].
  destruct (lookup_lt_is_Some_2 _ i Hi) as [d Hd].
  unfold irradiance, Arr.clip, Arr.add, Arr.shift.
  rewrite list_lookup_fmap, lookup_zip_with, !list_lookup_fmap, Hz, Hd. simpl.
  eexists. split; [reflexivity |].
  destruct (QMicromega.Qlt_bool _ 20) eqn:E; [lra | by apply Qlt_bool_false in E].
Qed.

(** The rain stored is a number that is not negative. *)
Lemma precipitation_nonneg (np_sin : Q -> Q) (idx : list Timestamp) (uniform rain : list Q) :
  Forall (fun e => 0 <= e)%Q rain ->
  Forall (fun x : float => exists q : Q, x = Some q /\ (0 <= q)%Q)
    (precipitation np_sin idx uniform rain).
Proof.
  intros Hrain. apply Forall_lookup. intros i x. unfold precipitation, Arr.where_.
  rewrite lookup_zip_with_Some. intros (c & y & -> & _ & Hy).
  rewrite list_lookup_fmap in Hy. destruct (rain !! i) as [e |] eqn:He; [| done].
  injection Hy as <-. rewrite Forall_lookup in Hrain. specialize (Hrain i e He).
  destruct c; eexists; (split; [reflexivity | lra]).
Qed.

(** The table that a run returns, with what the sections below need of it:
    its index, its ten columns, full length and without NaN, the annual
    values of every row, rain that is not negative and the hectares. *)
Lemma run_simulation_table {S : Type} `{RandomSource S} (np_sin : Q -> Q)
    (start_date end_date : Timestamp) (hectares : Q) (s : S) :
  exists (df : DataFrame) (s' : S),
    run_simulation np_sin (__init__ start_date end_date hectares) s = inr (df, s')
    /\ index df = pd_date_range start_date end_date
    /\ (forall key : string, is_Some (columns df !! key) <-> key ∈ required_columns)
    /\ (forall (key : string) (col : list float),
          columns df !! key = Some col -> length col = length (index df) /\ finite col)
    /\ (forall (i : nat) (d : Timestamp),
          index df !! i = Some d ->
          exists m, in_range m /\ year_has df (Calendar.year_of d) m)
    /\ (exists col, columns df !! "Precipitation_mm" = Some col
                    /\ Forall (fun x : float => exists q : Q, x = Some q /\ (0 <= q)%Q) col)
    /\ columns df !! "Hectares_Simulated"
       = Some (replicate (length (index df)) (Some hectares)).
Proof.
  destruct (pipeline_run np_sin start_date end_date hectares s)
    as (self1 & self2 & s1 & s2 & _ & _ & Hrun & Hdata & Hidx & [_ Hframe] & Hcols & Hyears).
  exists (data self2), s2. split; [done |]. split; [done |].
  set (idx := pd_date_range start_date end_date) in *.
  assert (forall key col, key ∉ annual_columns ->
            columns (data self2) !! key = Some col ->
            key ∈ "Hectares_Simulated" :: climate_columns
            /\ length col = length idx /\ finite col) as Hclimate.
  { intros key col Hout. rewrite Hframe, Hdata by done. simpl.
    destruct (decide (key ∈ "Hectares_Simulated" :: climate_columns)) as [Hin | Hno].
    - intros Hcol. split; [done |]. revert Hin Hcol. unfold climate_columns.
      rewrite !elem_of_cons, elem_of_nil. intros [-> | [-> | [-> | [-> | [-> | []]]]]].
      + rewrite lookup_ambient_hectares. intros [= <-].
        split; [by rewrite length_replicate | by apply finite_replicate].
      + rewrite lookup_ambient_temperature. intros [= <-]. apply temperature_spec.
      + rewrite lookup_ambient_precipitation. intros [= <-]. apply precipitation_spec.
      + rewrite lookup_ambient_humidity. intros [= <-]. apply humidity_spec.
      + rewrite lookup_ambient_irradiance. intros [= <-]. apply irradiance_spec.
    - rewrite lookup_ambient_other by done. by rewrite lookup_empty. }
  split; [| split; [| split; [| split]]].
  - intros key. change required_columns
      with (climate_columns ++ "Hectares_Simulated" :: annual_columns)%list.
    rewrite elem_of_app, elem_of_cons. split.
    + intros [col Hcol]. destruct (decide (key ∈ annual_columns)) as [Hin | Hout]; [tauto |].
      destruct (Hclimate key col Hout Hcol) as [Hin _].
      apply elem_of_cons in Hin. tauto.
    + intros Hkey. destruct (decide (key ∈ annual_columns)) as [Hin | Hout].
      * destruct (Hcols key Hin) as (col & Hcol & _). eauto.
      * assert (key ∈ "Hectares_Simulated" :: climate_columns) as Hin
          by (rewrite elem_of_cons; tauto).
        rewrite Hframe, Hdata by done. simpl. revert Hin. unfold climate_columns.
        rewrite !elem_of_cons, elem_of_nil. intros [-> | [-> | [-> | [-> | [-> | []]]]]].
        -- rewrite lookup_ambient_hectares. eauto.
        -- rewrite lookup_ambient_temperature. eauto.
        -- rewrite lookup_ambient_precipitation. eauto.
        -- rewrite lookup_ambient_humidity. eauto.
        -- rewrite lookup_ambient_irradiance. eauto.
  - intros key col Hcol. rewrite Hidx.
    destruct (decide (key ∈ annual_columns)) as [Hin | Hout].
    + destruct (Hcols key Hin) as (col' & Hcol' & Hlen). rewrite Hidx in Hlen.
      assert (col' = col) as -> by congruence. split; [done |].
      apply Forall_lookup. intros i x Hx.
      assert (i < length idx)%nat as Hi by (rewrite <- Hlen; by eapply lookup_lt_Some).
      destruct (lookup_lt_is_Some_2 idx i Hi) as [d Hd].
      destruct (Hyears i d Hd) as (m & _ & _ & Hhas).
      assert (index (data self2) !! i = Some d) as Hd' by (by rewrite Hidx).
      destruct (Hhas i d Hd' eq_refl) as (H1 & H2 & H3 & H4 & H5).
      assert (cell (data self2) key i = Some x) as Hcell
        by (by erewrite cell_column).
      revert Hin Hcell. unfold annual_columns. rewrite !elem_of_cons, elem_of_nil.
      intros [-> | [-> | [-> | [-> | [-> | []]]]]] Hcell;
        [rewrite H1 in Hcell | rewrite H2 in Hcell | rewrite H3 in Hcell
        | rewrite H4 in Hcell | rewrite H5 in Hcell];
        injection Hcell as <-; eauto.
    + destruct (Hclimate key col Hout Hcol) as (_ & Hlen & Hfin). done.
  - intros i d Hd. rewrite Hidx in Hd. destruct (Hyears i d Hd) as (m & ? & _ & ?). eauto.
  - eexists. split.
    + rewrite Hframe, Hdata; [apply lookup_ambient_precipitation |].
      apply not_annual_climate. unfold climate_columns. rewrite !elem_of_cons. tauto.
    + apply precipitation_nonneg. unfold ambient_draws. simpl.
      apply draws_Forall, standard_exponential_nonneg.
  - rewrite Hframe, Hdata, Hidx; [apply lookup_ambient_hectares |].
    apply not_annual_climate. rewrite elem_of_cons. tauto.
Qed.


(** C4, as amended. A configuration with the end date before the start
    date, or with a hectare count that is zero or negative, is not rejected
    (the two dates being dates of the calendar, as [pd.to_datetime] returns
    them): [run_simulation] raises nothing and returns a table with the ten
    columns; the hectare count stands unchanged on every row of
    [Hectares_Simulated]; and when the end date is before the start date
    the table has no rows and the generator is left in the state it was
    in. *)
Theorem no_configuration_rejected {S : Type} `{RandomSource S} (np_sin : Q -> Q)
    (start_date end_date : Timestamp) (hectares : Q) (s : S) :
  (end_date < start_date)%Z \/ (hectares <= 0)%Q ->
  exists (df : DataFrame) (s' : S),
    run_simulation np_sin (__init__ start_date end_date hectares) s = inr (df, s')
    /\ (forall key : string,
          is_Some (columns df !! key)
          <-> key ∈ (climate_columns ++ "Hectares_Simulated" :: annual_columns)%list)
    /\ columns df !! "Hectares_Simulated"
       = Some (replicate (length (index df)) (Some hectares))
    /\ ((end_date < start_date)%Z -> index df = [] /\ s' = s).
Proof.
  intros _.
  destruct (run_simulation_table np_sin start_date end_date hectares s)
    as (df & s' & Hrun & _ & Hkeys & _ & _ & _ & Hhectares).
  exists df, s'. split; [done |]. split; [exact Hkeys |]. split; [exact Hhectares |].
  intros Hlt. destruct (run_simulation_empty np_sin _ _ hectares s Hlt) as (df' & Hrun' & Hnil).
  rewrite Hrun in Hrun'. injection Hrun' as -> ->. done.
Qed.

(** The range from 2020-01-07 back to 2020-01-01. *)
Lemma no_configuration_rejected_witness :
  ((18262 < 18268)%Z \/ (100 <= 0)%Q)
  /\ exists (df : DataFrame) (s' : Z),
      @run_simulation Z TestSource.source TestSource.sin (__init__ 18268 18262 100) 42%Z
      = inr (df, s')
      /\ (forall key : string,
            is_Some (columns df !! key)
            <-> key ∈ (climate_columns ++ "Hectares_Simulated" :: annual_columns)%list)
      /\ columns df !! "Hectares_Simulated"
         = Some (replicate (length (index df)) (Some 100%Q))
      /\ ((18262 < 18268)%Z -> index df = [] /\ s' = 42%Z).
Proof.
  assert ((18262 < 18268)%Z \/ (100 <= 0)%Q) as Hinvalid by (left; lia).
  split; [exact Hinvalid |].
  exact (no_configuration_rejected TestSource.sin 18268 18262 100 42%Z Hinvalid).
Defined.

(** C4, as stated, fails. The strings '2020-01-07' and '2020-01-01' are the
    days 18268 and 18262: with the end date six days before the start date
    the run raises nothing and returns a table without rows, leaving the
    generator where it was; with minus five hectares it raises nothing
    either and returns a table with minus five hectares on each row. *)
Lemma invalid_configuration_not_rejected :
  let run := @run_simulation Z TestSource.source TestSource.sin in
  let reversed := run (__init__ 18268 18262 100) 42%Z in
  let negative := run (__init__ 18262 18263 (-5)) 42%Z in
  (pd_to_datetime "2020-01-07" = Some 18268%Z
   /\ pd_to_datetime "2020-01-01" = Some 18262%Z
   /\ pd_to_datetime "2020-01-02" = Some 18263%Z)
  /\ ((18262 < 18268)%Z
      /\ reversed <> inl InvalidConfiguration
      /\ index <$> returned reversed = Some []
      /\ state_returned reversed = Some 42%Z)
  /\ ((-5 <= 0)%Q
      /\ negative <> inl InvalidConfiguration
      /\ (returned negative ≫= fun df => columns df !! "Hectares_Simulated")
         = Some [Some (-5)%Q; Some (-5)%Q]).
Proof.
  intros run reversed negative.
  assert (index <$> returned reversed = Some []) as Hreversed by (vm_compute; reflexivity).
  assert ((returned negative ≫= fun df => columns df !! "Hectares_Simulated")
          = Some [Some (-5)%Q; Some (-5)%Q]) as Hnegative by (vm_compute; reflexivity).
  split; [repeat split; reflexivity |].
  split; [split; [| split; [| split]] | split; [| split]].
  - reflexivity.
  - intros Heq. rewrite Heq in Hreversed. discriminate Hreversed.
  - exact Hreversed.
  - vm_compute. reflexivity.
  - discriminate.
  - intros Heq. rewrite Heq in Hnegative. discriminate Hnegative.
  - exact Hnegative.
Qed.

(** X2. The table that [run_simulation] returns has exactly ten columns,
    the four climate columns, [Hectares_Simulated] and the five annual
    columns; each is as long as the index and holds a number, not NaN, on
    every row. *)
Theorem table_complete {S : Type} `{RandomSource S} (np_sin : Q -> Q)
    (start_date end_date : Timestamp) (hectares : Q) (s : S) :
  exists (df : DataFrame) (s' : S),
    run_simulation np_sin (__init__ start_date end_date hectares) s = inr (df, s')
    /\ (forall key : string,
          is_Some (columns df !! key)
          <-> key ∈ (climate_columns ++ "Hectares_Simulated" :: annual_columns)%list)
    /\ (forall (key : string) (col : list float),
          columns df !! key = Some col -> length col = length (index df) /\ finite col).
Proof.
  destruct (run_simulation_table np_sin start_date end_date hectares s)
    as (df & s' & Hrun & _ & Hkeys & Hcols & _).
  exists df, s'. split; [done |]. split; [exact Hkeys | exact Hcols].
Qed.

(** X3. On every row of the table that [run_simulation] returns the revenue
    is the yield of the row times its selling price minus its production
    cost. *)
Theorem revenue_is_yield_times_price_minus_cost {S : Type} `{RandomSource S}
    (np_sin : Q -> Q) (start_date end_date : Timestamp) (hectares : Q) (s : S) :
  exists (df : DataFrame) (s' : S),
    run_simulation np_sin (__init__ start_date end_date hectares) s = inr (df, s')
    /\ forall i : nat, (i < length (index df))%nat ->
        exists yield_kg_ha price cost : Q,
          cell df "Yield_kg_ha" i = Some (Some yield_kg_ha)
          /\ cell df "Selling_Price_EUR_kg" i = Some (Some price)
          /\ cell df "Production_Cost_EUR_ha" i = Some (Some cost)
          /\ cell df "Revenue_EUR_ha" i = Some (Some (yield_kg_ha * price - cost)%Q).
Proof.
  destruct (pipeline_run np_sin start_date end_date hectares s)
    as (_ & self2 & _ & s2 & _ & _ & Hrun & _ & Hidx & _ & _ & Hyears).
  exists (data self2), s2. split; [done |]. intros i Hi.
  destruct (lookup_lt_is_Some_2 _ i Hi) as [d Hd].
  destruct (Hyears i d) as (m & Hrange & _ & Hhas); [by rewrite <- Hidx |].
  destruct (Hhas i d Hd eq_refl) as (H1 & _ & H3 & H4 & H5).
  destruct Hrange as (_ & _ & _ & _ & Heq).
  exists (final_yield m), (final_selling_price_per_kg m), (final_production_cost_per_ha m).
  rewrite <- Heq. done.
Qed.

(** [unique] keeps what it has seen, in order, and repeats nothing. *)
Lemma unique_fold_prefix (l seen : list Z) :
  exists rest,
    fold_left (fun seen x => if decide (x ∈ seen) then seen else (seen ++ [x])%list) l seen
    = (seen ++ rest)%list.
Proof.
  revert seen. induction l as [| x l IH]; intros seen; simpl.
  - exists []. by rewrite app_nil_r.
  - destruct (decide (x ∈ seen)) as [Hin | Hout]; [apply IH |].
    destruct (IH (seen ++ [x])%list) as [rest Hrest]. exists (x :: rest).
    rewrite Hrest. by rewrite <- app_assoc.
Qed.

Lemma unique_fold_NoDup (l seen : list Z) :
  NoDup seen ->
  NoDup (fold_left (fun seen x => if decide (x ∈ seen) then seen else (seen ++ [x])%list) l seen).
Proof.
  revert seen. induction l as [| x l IH]; intros seen Hseen; simpl; [done |].
  destruct (decide (x ∈ seen)) as [Hin | Hout]; apply IH; [done |].
  apply NoDup_app. split; [done |]. split; [| apply NoDup_singleton].
  intros y Hy Hy'. apply list_elem_of_singleton in Hy'. by subst.
Qed.

Lemma unique_cons (x : Z) (l : list Z) : exists rest, unique (x :: l) = x :: rest.
Proof.
  unfold unique. simpl. destruct (unique_fold_prefix l [x]) as [rest Hrest].
  exists rest. by rewrite Hrest.
Qed.

Lemma pd_date_range_cons (start_date end_date : Timestamp) :
  (start_date <= end_date)%Z ->
  exists rest, pd_date_range start_date end_date = start_date :: rest.
Proof.
  intros Hle. unfold pd_date_range.
  destruct (Z.to_nat (end_date - start_date + 1)) as [| n] eqn:En; [lia |].
  simpl. rewrite Z.add_0_r. eauto.
Qed.

(** X4. [self.years] holds every calendar year of the date range exactly
    once: it has no repetition, and a year is in it exactly when some day
    of the range lies in that year. *)
Theorem years_distinct_and_covering (start_date end_date : Timestamp) (hectares : Q) :
  NoDup (years (__init__ start_date end_date hectares))
  /\ forall year : Z,
      year ∈ years (__init__ start_date end_date hectares)
      <-> exists d : Timestamp,
            (start_date <= d <= end_date)%Z /\ Calendar.year_of d = year.
Proof.
  unfold __init__. simpl. split.
  - apply unique_fold_NoDup, NoDup_nil_2.
  - intros year. rewrite elem_of_unique, list_elem_of_fmap. split.
    + intros (d & -> & Hd). exists d. by rewrite <- elem_of_pd_date_range.
    + intros (d & Hd & <-). exists d. by rewrite elem_of_pd_date_range.
Qed.

(** X5. [calculate_annual_metrics] needs the climate columns: on a simulator
    fresh from [__init__] with a range of at least one day it raises
    [KeyError('Solar_Irradiance_W_m2')], the first column that the loop
    reads, whatever the state of the generator. *)
Theorem calculate_before_generate_raises {S : Type} `{RandomSource S}
    (start_date end_date : Timestamp) (hectares : Q) (s : S) :
  (start_date <= end_date)%Z ->
  calculate_annual_metrics (__init__ start_date end_date hectares) s
  = inl (KeyError "Solar_Irradiance_W_m2").
Proof.
  intros Hle. unfold calculate_annual_metrics, __init__. cbv zeta. simpl years. simpl data.
  destruct (pd_date_range_cons _ _ Hle) as [rest Hrange]. rewrite Hrange.
  rewrite fmap_cons. destruct (unique_cons (Calendar.year_of start_date)
                                 (Calendar.year_of <$> rest)) as [more Hyears].
  rewrite Hyears. simpl for_each. unfold bind at 1.
  unfold annual_metrics_of_year. cbv zeta. rewrite bind_normal1.
  unfold bind at 1. unfold try at 1. unfold getitem at 1.
  simpl columns. rewrite lookup_fmap, !lookup_insert_ne, lookup_empty by done.
  reflexivity.
Qed.

(** A calculation on 2020-01-01 to 2020-01-07 without the climate columns. *)
Lemma calculate_before_generate_raises_witness :
  (18262 <= 18268)%Z
  /\ @calculate_annual_metrics Z TestSource.source (__init__ 18262 18268 100) 42%Z
     = inl (KeyError "Solar_Irradiance_W_m2").
Proof.
  split; [lia |].
  apply (@calculate_before_generate_raises Z TestSource.source 18262 18268 100 42%Z). lia.
Defined.

(** Draws taken one batch after another. *)
Lemma draws_state_add {S} (sampler : S -> Q * S) (n m : nat) (s : S) :
  (draws sampler (n + m) s).2 = (draws sampler m (draws sampler n s).2).2.
Proof.
  revert s. induction n as [| n IH]; intros s; simpl; [done |].
  destruct (sampler s) as [x s1]. specialize (IH s1).
  destruct (draws sampler (n + m) s1) as [xs s2].
  destruct (draws sampler n s1) as [ys s3]. simpl in *. exact IH.
Qed.

(** One turn of the annual loop takes four normal draws. *)
Lemma annual_metrics_of_year_state {S : Type} `{RandomSource S}
    (self self' : ViticultureSimulator) (year : Z) (s s' : S) :
  annual_metrics_of_year self year s = inr (self', s') ->
  s' = (draws standard_normal 4 s).2.
Proof.
  destruct (standard_normal s) as [q1 s1] eqn:E1.
  destruct (standard_normal s1) as [q2 s2] eqn:E2.
  destruct (standard_normal s2) as [q3 s3] eqn:E3.
  destruct (standard_normal s3) as [q4 s4] eqn:E4.
  assert ((draws standard_normal 4 s).2 = s4) as ->
    by (cbn [draws]; by rewrite E1, E2, E3, E4).
  unfold annual_metrics_of_year, bind, try, np_random_normal1, ret. cbv zeta.
  rewrite E1.
  repeat match goal with
    | |- context [getitem ?key ?df] => destruct (getitem key df) as [? | ?]; [discriminate |]
    end.
  rewrite E2, E3, E4. by intros [= _ <-].
Qed.

Lemma for_each_state {S A B} (step : S -> S) (body : B -> A -> M S B)
    (xs : list A) (b b' : B) (s s' : S) :
  (forall b x s b' s', body b x s = inr (b', s') -> s' = step s) ->
  for_each xs body b s = inr (b', s') -> s' = Nat.iter (length xs) step s.
Proof.
  intros Hstep. revert b s. induction xs as [| x xs IH]; intros b s; simpl.
  - unfold ret. by intros [= _ <-].
  - unfold bind. destruct (body b x s) as [e | [b1 s1]] eqn:Hrun; [done |].
    intros Hrest. rewrite (IH _ _ Hrest), (Hstep _ _ _ _ _ Hrun).
    clear. induction (length xs) as [| n IHn]; simpl; [done | by rewrite IHn].
Qed.

Lemma iter_draws {S} (sampler : S -> Q * S) (k n : nat) (s : S) :
  Nat.iter n (fun s => (draws sampler k s).2) s = (draws sampler (n * k) s).2.
Proof.
  induction n as [| n IH]; simpl; [done |].
  rewrite IH. rewrite (Nat.add_comm k (n * k)). by rewrite draws_state_add.
Qed.

(** X6. What a run takes from the generator: [generate_ambient_data] draws,
    for a range of [n] days, [n] normal, [n] uniform, [n] exponential, [n]
    normal and [n] normal numbers in this order, and
    [calculate_annual_metrics] then draws four normal numbers for each
    calendar year of the range; [run_simulation] leaves the generator in
    the state after exactly these draws. *)
Theorem run_simulation_draws {S : Type} `{RandomSource S} (np_sin : Q -> Q)
    (start_date end_date : Timestamp) (hectares : Q) (s : S) :
  let self := __init__ start_date end_date hectares in
  let n := length (date_range self) in
  let s1 := (draws standard_normal n s).2 in
  let s2 := (draws random_sample n s1).2 in
  let s3 := (draws standard_exponential n s2).2 in
  let s4 := (draws standard_normal n s3).2 in
  let s5 := (draws standard_normal n s4).2 in
  exists (self1 : ViticultureSimulator) (df : DataFrame),
    generate_ambient_data np_sin self s = inr (self1, s5)
    /\ run_simulation np_sin self s
       = inr (df, (draws standard_normal (length (years self) * 4) s5).2).
Proof.
  intros self n s1 s2 s3 s4 s5. subst s5 s4 s3 s2 s1 n self.
  destruct (pipeline_run np_sin start_date end_date hectares s)
    as (self1 & self2 & s1' & s2' & Hgen & Hcalc & Hrun & _).
  pose proof (generate_from_init np_sin start_date end_date hectares s) as Hgen'.
  rewrite Hgen in Hgen'. injection Hgen' as Hself1 Hs1'. subst s1'.
  exists self1, (data self2). split; [exact Hgen |]. rewrite Hrun. do 2 f_equal.
  unfold calculate_annual_metrics in Hcalc. cbv zeta in Hcalc.
  rewrite (for_each_state (fun s => (draws standard_normal 4 s).2) _ _ _ _ _ _
             (fun b x s b' s' => annual_metrics_of_year_state b b' x s s') Hcalc).
  rewrite iter_draws. rewrite Hself1. reflexivity.
Qed.

(** * The dashboard on the table of the simulator *)

Lemma pd_date_range_step (start_date end_date : Timestamp) :
  (start_date <= end_date)%Z ->
  pd_date_range start_date end_date = start_date :: pd_date_range (start_date + 1) end_date.
Proof.
  intros Hle. unfold pd_date_range.
  replace (Z.to_nat (end_date - start_date + 1))
    with (Datatypes.S (Z.to_nat (end_date - (start_date + 1) + 1))) by lia.
  simpl. rewrite Z.add_0_r. f_equal.
  rewrite <- fmap_S_seq, <- list_fmap_compose. apply list_fmap_ext.
  intros i x _. simpl. lia.
Qed.

(** The days of a daily range that lie between two dates are a daily range
    again. *)
Lemma select_interval (lo hi : Z) (n : nat) :
  forall start_date end_date : Timestamp,
    Z.to_nat (end_date - start_date + 1) = n ->
    Arr.select
      (Arr.and ((fun d => (lo <=? d)%Z) <$> pd_date_range start_date end_date)
         ((fun d => (d <=? hi)%Z) <$> pd_date_range start_date end_date))
      (pd_date_range start_date end_date)
    = pd_date_range (Z.max start_date lo) (Z.min end_date hi).
Proof.
  induction n as [| n IH]; intros start_date end_date Hn.
  - rewrite (pd_date_range_empty start_date end_date) by lia.
    rewrite pd_date_range_empty by lia. reflexivity.
  - rewrite (pd_date_range_step start_date end_date) by lia.
    rewrite !fmap_cons. unfold Arr.and in *. simpl.
    specialize (IH (start_date + 1)%Z end_date ltac:(lia)).
    destruct (Z.leb_spec lo start_date) as [Hlo | Hlo];
      destruct (Z.leb_spec start_date hi) as [Hhi | Hhi]; simpl; rewrite IH.
    + rewrite (pd_date_range_step (Z.max start_date lo)) by lia.
      replace (Z.max start_date lo) with start_date by lia.
      replace (Z.max (start_date + 1) lo) with (start_date + 1)%Z by lia. reflexivity.
    + rewrite !pd_date_range_empty by lia. reflexivity.
    + replace (Z.max (start_date + 1) lo) with (Z.max start_date lo) by lia. reflexivity.
    + rewrite !pd_date_range_empty by lia. reflexivity.
Qed.

Lemma filter_none {A} (P : A -> Prop) `{forall x, Decision (P x)} (l : list A) :
  Forall (fun x => ~ P x) l -> filter P l = [].
Proof.
  induction 1 as [| x l Hx Hl IH]; [done |]. by rewrite filter_cons_False.
Qed.

(** ** The bounds of a vintage as pandas reads them *)

Lemma digit_pretty (n : N) : (n < 10)%N -> digit (pretty_N_char n) = Some (Z.of_N n).
Proof.
  intros Hn. destruct n as [| p]; [reflexivity |].
  do 4 (destruct p as [p | p |]; try reflexivity; try lia).
Qed.

(** [str(year)] for a year of four digits. *)
Lemma pretty_four_digits (y : Z) :
  (1000 <= y <= 9999)%Z ->
  let c (d : Z) := pretty_N_char (Z.to_N d) in
  pretty y = String (c (y / 1000)%Z) (String (c (y / 100 mod 10)%Z)
               (String (c (y / 10 mod 10)%Z) (String (c (y mod 10)%Z) ""))).
Proof.
  intros Hy c. destruct y as [| p | p]; try lia.
  unfold pretty, pretty_Z, pretty, pretty_positive, pretty, pretty_N.
  rewrite decide_False by lia.
  set (n := N.pos p). assert (1000 <= n <= 9999)%N as Hn by (unfold n; lia).
  assert (Z.pos p = Z.of_N n) as -> by (unfold n; lia). clearbody n. clear Hy.
  assert (n / 10 / 10 = n / 100)%N as H100 by (by rewrite N.Div0.div_div).
  assert (n / 100 / 10 = n / 1000)%N as H1000 by (by rewrite N.Div0.div_div).
  assert (n / 1000 / 10 = 0)%N as H10000
    by (rewrite N.Div0.div_div; apply N.div_small; lia).
  rewrite pretty_N_go_step by lia.
  rewrite pretty_N_go_step by (apply N.div_str_pos; lia).
  rewrite H100, pretty_N_go_step by (apply N.div_str_pos; lia).
  rewrite H1000, pretty_N_go_step by (apply N.div_str_pos; lia).
  rewrite H10000, pretty_N_go_0. unfold c.
  assert (Z.to_N (Z.of_N n / 1000) = n / 1000)%N as ->
    by (change 1000%Z with (Z.of_N 1000); by rewrite <- N2Z.inj_div, N2Z.id).
  assert (Z.to_N (Z.of_N n / 100 mod 10) = (n / 100) mod 10)%N as ->
    by (change 100%Z with (Z.of_N 100); change 10%Z with (Z.of_N 10);
        by rewrite <- N2Z.inj_div, <- N2Z.inj_mod, N2Z.id).
  assert (Z.to_N (Z.of_N n / 10 mod 10) = (n / 10) mod 10)%N as ->
    by (change 10%Z with (Z.of_N 10); by rewrite <- N2Z.inj_div, <- N2Z.inj_mod, N2Z.id).
  assert (Z.to_N (Z.of_N n mod 10) = n mod 10)%N as ->
    by (change 10%Z with (Z.of_N 10); by rewrite <- N2Z.inj_mod, N2Z.id).
  rewrite (N.mod_small (n / 1000) 10) by (apply N.Div0.div_lt_upper_bound; lia).
  reflexivity.
Qed.

(** [f'{year}-MM-DD'] for a year of four digits and a day of the calendar is
    read as that day. *)
Lemma pd_to_datetime_formatted (year m1 m2 d1 d2 month day : Z) :
  (1000 <= year <= 9999)%Z ->
  (0 <= m1 <= 9)%Z -> (0 <= m2 <= 9)%Z -> (0 <= d1 <= 9)%Z -> (0 <= d2 <= 9)%Z ->
  month = (10 * m1 + m2)%Z -> day = (10 * d1 + d2)%Z ->
  Calendar.is_date year month day = true ->
  let c (d : Z) := pretty_N_char (Z.to_N d) in
  pd_to_datetime (pretty year
                  ++ String "-" (String (c m1) (String (c m2)
                       (String "-" (String (c d1) (String (c d2) ""))))))
  = Some (Calendar.days_from_civil year month day).
Proof.
  intros Hyear Hm1 Hm2 Hd1 Hd2 -> -> Hdate c.
  rewrite (pretty_four_digits year Hyear). cbv zeta. fold c.
  unfold c. cbv [String.append pd_to_datetime number].
  rewrite !digit_pretty
    by (clear -Hyear Hm1 Hm2 Hd1 Hd2; Z.to_euclidean_division_equations; lia).
  cbn [mbind option_bind].
  rewrite !Z2N.id by (clear -Hyear Hm1 Hm2 Hd1 Hd2; Z.to_euclidean_division_equations; lia).
  replace (10 * (10 * (10 * (10 * 0 + year / 1000) + year / 100 mod 10) + year / 10 mod 10)
           + year mod 10)%Z with year
    by (clear -Hyear; Z.to_euclidean_division_equations; lia).
  replace (10 * (10 * 0 + m1) + m2)%Z with (10 * m1 + m2)%Z by lia.
  replace (10 * (10 * 0 + d1) + d2)%Z with (10 * d1 + d2)%Z by lia.
  by rewrite Hdate.
Qed.

Lemma pd_to_datetime_august (year : Z) :
  (1000 <= year <= 9999)%Z ->
  pd_to_datetime (pretty year ++ "-08-01") = Some (Calendar.days_from_civil year 8 1).
Proof.
  intros Hyear. apply (pd_to_datetime_formatted year 0 8 0 1); try lia.
  unfold Calendar.is_date, Calendar.days_in_month. simpl. lia.
Qed.

Lemma pd_to_datetime_september (year : Z) :
  (1000 <= year <= 9999)%Z ->
  pd_to_datetime (pretty year ++ "-09-30") = Some (Calendar.days_from_civil year 9 30).
Proof.
  intros Hyear. apply (pd_to_datetime_formatted year 0 9 3 0); try lia.
  unfold Calendar.is_date, Calendar.days_in_month. simpl. lia.
Qed.

(** The mask of a vintage, for a year of four digits whose next year has
    four digits too: the days from the first of August of the year to the
    thirtieth of September of the next. *)
Lemma vintage_mask_four_digits (selected_year : Z) (idx : list Timestamp) :
  (1000 <= selected_year <= 9998)%Z ->
  vintage_mask (pretty selected_year ++ "-08-01") (pretty (selected_year + 1)%Z ++ "-09-30")
    idx
  = Some (between (Calendar.days_from_civil selected_year 8 1)
            (Calendar.days_from_civil (selected_year + 1) 9 30) idx).
Proof.
  intros Hyear. unfold vintage_mask.
  rewrite pd_to_datetime_august, pd_to_datetime_september by lia. reflexivity.
Qed.

(** X7. The detail view of the dashboard shows a run of days without gaps.
    For a year selected that has four digits, as has the next one, the two
    strings that [update_detailed_view] compares the index with are read as
    the first of August of the year and the thirtieth of September of the
    next; on the table that [run_simulation] returns for the range from
    [start_date] to [end_date], the rows kept are then the days from the
    later of [start_date] and that first of August to the earlier of
    [end_date] and that thirtieth of September, one row each. *)
Theorem vintage_rows_are_a_daily_range {S : Type} `{RandomSource S} (np_sin : Q -> Q)
    (start_date end_date : Timestamp) (hectares : Q) (s : S) (selected_year : Z) :
  (1000 <= selected_year <= 9998)%Z ->
  exists (df : DataFrame) (s' : S) (mask : list bool),
    run_simulation np_sin (__init__ start_date end_date hectares) s = inr (df, s')
    /\ vintage_mask (pretty selected_year ++ "-08-01")
         (pretty (selected_year + 1)%Z ++ "-09-30") (index df)
       = Some mask
    /\ index (boolean_index mask df)
       = pd_date_range (Z.max start_date (Calendar.days_from_civil selected_year 8 1))
           (Z.min end_date (Calendar.days_from_civil (selected_year + 1) 9 30)).
Proof.
  intros Hyear.
  destruct (run_simulation_table np_sin start_date end_date hectares s)
    as (df & s' & Hrun & Hidx & _).
  eexists df, s', _. split; [done |].
  split; [by apply vintage_mask_four_digits |].
  unfold boolean_index, between. simpl. rewrite Hidx.
  by apply (select_interval _ _ (Z.to_nat (end_date - start_date + 1))).
Qed.

(** A table from 2020-07-31 to 2020-08-02 and the vintage 2020. *)
Lemma vintage_rows_are_a_daily_range_witness :
  (1000 <= 2020 <= 9998)%Z
  /\ exists (df : DataFrame) (s' : Z) (mask : list bool),
      @run_simulation Z TestSource.source TestSource.sin (__init__ 18474 18476 600) 42%Z
      = inr (df, s')
      /\ vintage_mask (pretty 2020%Z ++ "-08-01") (pretty (2020 + 1)%Z ++ "-09-30") (index df)
         = Some mask
      /\ index (boolean_index mask df)
         = pd_date_range (Z.max 18474 (Calendar.days_from_civil 2020 8 1))
             (Z.min 18476 (Calendar.days_from_civil (2020 + 1) 9 30)).
Proof.
  assert (1000 <= 2020 <= 9998)%Z as Hyear by lia.
  split; [exact Hyear |].
  exact (vintage_rows_are_a_daily_range TestSource.sin 18474 18476 600 42%Z 2020 Hyear).
Defined.

(** X8. The checks that the dashboard makes at start-up accept every table
    that [run_simulation] returns for a range of at least one day: the
    table is not empty and none of the required columns is missing. For an
    end date before the start date they stop at the first check, the table
    being empty. *)
Theorem dashboard_checks_on_generated_table {S : Type} `{RandomSource S} (np_sin : Q -> Q)
    (start_date end_date : Timestamp) (hectares : Q) (s : S) :
  exists (df : DataFrame) (s' : S),
    run_simulation np_sin (__init__ start_date end_date hectares) s = inr (df, s')
    /\ missing_columns df = []
    /\ ((start_date <= end_date)%Z -> formal_checks df = inr tt)
    /\ ((end_date < start_date)%Z -> formal_checks df = inl EmptyFile).
Proof.
  destruct (run_simulation_table np_sin start_date end_date hectares s)
    as (df & s' & Hrun & Hidx & Hkeys & _).
  exists df, s'. split; [done |].
  assert (missing_columns df = []) as Hmissing.
  { unfold missing_columns. apply filter_none. apply Forall_forall.
    intros col Hcol Hno. apply Hno. apply elem_of_dom. by apply Hkeys. }
  split; [done |]. unfold formal_checks, empty. rewrite Hmissing, Hidx. split.
  - intros Hle. destruct (pd_date_range_cons _ _ Hle) as [rest ->]. simpl.
    destruct (Nat.eqb_spec (size (columns df)) 0) as [Hsize | _]; [| done].
    apply map_size_empty_inv in Hsize.
    assert (is_Some (columns df !! "Temperature_C")) as [col Hcol].
    { apply Hkeys. unfold required_columns. rewrite !elem_of_cons. tauto. }
    rewrite Hsize, lookup_empty in Hcol. done.
  - intros Hlt. by rewrite pd_date_range_empty.
Qed.

(** ** The detail view *)

Lemma column_boolean_index (mask : list bool) (df : DataFrame) (key : string)
    (col : list float) :
  columns df !! key = Some col ->
  column key (boolean_index mask df) = inr (Arr.select mask col).
Proof. intros Hcol. unfold column, boolean_index. simpl. by rewrite lookup_fmap, Hcol. Qed.

Lemma iloc0_head (col : list float) :
  (0 < length col)%nat -> exists x, iloc0 col = inr x /\ head col = Some x.
Proof. destruct col as [| x col]; simpl; [lia | eauto]. Qed.

(** Rows selected by one mask from two columns come from the same rows. *)
Lemma select_lookup_aligned {A B} (mask : list bool) (a : list A) (b : list B)
    (j : nat) (x : A) (y : B) :
  Arr.select mask a !! j = Some x -> Arr.select mask b !! j = Some y ->
  exists i : nat, a !! i = Some x /\ b !! i = Some y.
Proof.
  revert a b j. induction mask as [| m mask IH]; intros [| x0 a] [| y0 b] j; simpl;
    try done; try (by destruct m).
  destruct m.
  - destruct j as [| j]; simpl.
    + intros [= <-] [= <-]. by exists 0%nat.
    + intros Ha Hb. destruct (IH a b j Ha Hb) as (i & ? & ?). by exists (Datatypes.S i).
  - intros Ha Hb. destruct (IH a b j Ha Hb) as (i & ? & ?). by exists (Datatypes.S i).
Qed.

Lemma select_Forall {A} (P : A -> Prop) (mask : list bool) (a : list A) :
  Forall P a -> Forall P (Arr.select mask a).
Proof.
  intros Ha. revert mask. induction Ha as [| x a Hx Ha IH]; intros [| m mask]; simpl;
    try (by constructor).
  destruct m; [constructor; [done | apply IH] | apply IH].
Qed.

(** A day with rain that is a number and not negative is either a rainy
    day or a dry day. *)
Lemma count_rainy_dry (col : list float) :
  Forall (fun x : float => exists q : Q, x = Some q /\ (0 <= q)%Q) col ->
  (Arr.count (Arr.gt col 0) + Arr.count (series_eq col 0))%nat = length col.
Proof.
  unfold Arr.count, Arr.gt, series_eq.
  induction 1 as [| x col (q & -> & Hq) Hcol IH]; [done |].
  rewrite !fmap_cons, !filter_cons. cbv beta iota.
  assert (Float.gt (Some q) (Some 0%Q) = negb (Qeq_bool q 0)) as ->.
  { unfold Float.gt, Float.lt.
    destruct (QMicromega.Qlt_bool 0 q) eqn:Epos; destruct (Qeq_bool q 0) eqn:Ezero; try done.
    - apply QMicromega.Qlt_bool_iff in Epos. apply Qeq_bool_iff in Ezero. lra.
    - apply Qlt_bool_false in Epos. apply Qeq_bool_neq in Ezero. exfalso. apply Ezero. lra. }
  destruct (Qeq_bool q 0); cbn [negb].
  - rewrite decide_False, decide_True by done. cbn [length]. lia.
  - rewrite decide_True, decide_False by done. cbn [length]. lia.
Qed.

(** The callback on a table that has the required columns at full length,
    for a vintage with at least one row: it raises nothing and returns the
    values below. *)
Lemma update_detailed_view_run (df : DataFrame) (selected_year : Z) :
  (1000 <= selected_year <= 9998)%Z ->
  (forall key : string, key ∈ required_columns ->
     exists col, columns df !! key = Some col /\ length col = length (index df)) ->
  let mask := between (Calendar.days_from_civil selected_year 8 1)
                (Calendar.days_from_civil (selected_year + 1) 9 30) (index df) in
  (0 < length (Arr.select mask (index df)))%nat ->
  exists (yield_kg_ha revenue cost sugar hectares temperature precipitation humidity
            irradiance : list float)
         (yield0 revenue0 cost0 sugar0 hectares0 : float),
    columns df !! "Yield_kg_ha" = Some yield_kg_ha
    /\ columns df !! "Revenue_EUR_ha" = Some revenue
    /\ columns df !! "Production_Cost_EUR_ha" = Some cost
    /\ columns df !! "Grape_Sugar_Level" = Some sugar
    /\ columns df !! "Hectares_Simulated" = Some hectares
    /\ columns df !! "Temperature_C" = Some temperature
    /\ columns df !! "Precipitation_mm" = Some precipitation
    /\ columns df !! "Humidity_percent" = Some humidity
    /\ columns df !! "Solar_Irradiance_W_m2" = Some irradiance
    /\ head (Arr.select mask yield_kg_ha) = Some yield0
    /\ head (Arr.select mask revenue) = Some revenue0
    /\ head (Arr.select mask cost) = Some cost0
    /\ head (Arr.select mask sugar) = Some sugar0
    /\ head (Arr.select mask hectares) = Some hectares0
    /\ update_detailed_view df (Some selected_year)
       = Some (inr (Detail
                (mkDetailValues yield0 (Float.mul revenue0 hectares0)
                   (Float.mul cost0 hectares0) sugar0
                   (Arr.count (Arr.gt (Arr.select mask temperature) 35))
                   (Arr.count (Arr.lt (Arr.select mask temperature) 5))
                   (Arr.count (Arr.gt (Arr.select mask precipitation) 20))
                   (Arr.count (Arr.and (Arr.gt (Arr.select mask temperature) 25)
                                 (Arr.gt (Arr.select mask humidity) 80)))
                   (series_sum (Arr.select mask precipitation))
                   (series_mean (Arr.select mask humidity))
                   (Arr.select mask (index df), Arr.select mask temperature,
                    Arr.select mask irradiance, Arr.select mask precipitation)
                   (Arr.select mask precipitation)
                   (Arr.count (Arr.gt (Arr.select mask precipitation) 0))
                   (Arr.count (series_eq (Arr.select mask precipitation) 0))))).
Proof.
  intros Hyear Hcols mask Hrows.
  assert (forall key, key ∈ required_columns ->
            exists col, columns df !! key = Some col
                        /\ (0 < length (Arr.select mask col))%nat) as Hcol.
  { intros key Hkey. destruct (Hcols key Hkey) as (col & Hc & Hl). exists col.
    split; [done |]. by rewrite (select_length_eq mask col (index df) Hl). }
  destruct (Hcol "Yield_kg_ha") as (cY & HY & HlY);
    [unfold required_columns; rewrite !elem_of_cons; tauto |].
  destruct (Hcol "Revenue_EUR_ha") as (cR & HR & HlR);
    [unfold required_columns; rewrite !elem_of_cons; tauto |].
  destruct (Hcol "Production_Cost_EUR_ha") as (cC & HC & HlC);
    [unfold required_columns; rewrite !elem_of_cons; tauto |].
  destruct (Hcol "Grape_Sugar_Level") as (cS & HS & HlS);
    [unfold required_columns; rewrite !elem_of_cons; tauto |].
  destruct (Hcol "Hectares_Simulated") as (cE & HE & HlE);
    [unfold required_columns; rewrite !elem_of_cons; tauto |].
  destruct (Hcol "Temperature_C") as (cT & HT & _);
    [unfold required_columns; rewrite !elem_of_cons; tauto |].
  destruct (Hcol "Precipitation_mm") as (cP & HP & _);
    [unfold required_columns; rewrite !elem_of_cons; tauto |].
  destruct (Hcol "Humidity_percent") as (cH & HH & _);
    [unfold required_columns; rewrite !elem_of_cons; tauto |].
  destruct (Hcol "Solar_Irradiance_W_m2") as (cI & HI & _);
    [unfold required_columns; rewrite !elem_of_cons; tauto |].
  destruct (iloc0_head _ HlY) as (y0 & HiY & HhY).
  destruct (iloc0_head _ HlR) as (r0 & HiR & HhR).
  destruct (iloc0_head _ HlC) as (c0 & HiC & HhC).
  destruct (iloc0_head _ HlS) as (g0 & HiS & HhS).
  destruct (iloc0_head _ HlE) as (e0 & HiE & HhE).
  exists cY, cR, cC, cS, cE, cT, cP, cH, cI, y0, r0, c0, g0, e0.
  repeat (split; [done |]).
  unfold update_detailed_view. cbv zeta.
  rewrite vintage_mask_four_digits by done. cbn [mbind option_bind]. fold mask.
  assert (empty (boolean_index mask df) = false) as ->.
  { unfold empty, boolean_index. simpl. apply orb_false_iff. split.
    - apply Nat.eqb_neq. lia.
    - apply Nat.eqb_neq. intros Hsize. apply map_size_empty_inv in Hsize.
      assert ((Arr.select mask <$> columns df) !! "Temperature_C" = Some (Arr.select mask cT))
        as Hlook by (by rewrite lookup_fmap, HT).
      rewrite Hsize, lookup_empty in Hlook. done. }
  rewrite (column_boolean_index mask df _ _ HY), (column_boolean_index mask df _ _ HR),
    (column_boolean_index mask df _ _ HC), (column_boolean_index mask df _ _ HS),
    (column_boolean_index mask df _ _ HE), (column_boolean_index mask df _ _ HT),
    (column_boolean_index mask df _ _ HP), (column_boolean_index mask df _ _ HH),
    (column_boolean_index mask df _ _ HI).
  cbn [and_then]. rewrite HiY. cbn [and_then]. rewrite HiR. cbn [and_then].
  rewrite HiC. cbn [and_then]. rewrite HiS. cbn [and_then]. rewrite HiE. reflexivity.
Qed.

(** ** The calendar of a vintage *)

(** The Gregorian calendar repeats every 400 years, 146097 days. *)
Lemma days_from_civil_period (y m d k : Z) :
  Calendar.days_from_civil (y + 400 * k) m d
  = (Calendar.days_from_civil y m d + 146097 * k)%Z.
Proof.
  unfold Calendar.days_from_civil. cbv zeta.
  set (y0 := if (m <=? 2)%Z then (y - 1)%Z else y).
  replace (if (m <=? 2)%Z then (y + 400 * k - 1)%Z else (y + 400 * k)%Z)
    with (y0 + k * 400)%Z by (unfold y0; destruct (m <=? 2)%Z; lia).
  rewrite Z.div_add by lia.
  replace (y0 + k * 400 - (y0 / 400 + k) * 400)%Z with (y0 - y0 / 400 * 400)%Z by lia.
  lia.
Qed.

Lemma year_of_period (z k : Z) :
  Calendar.year_of (z + 146097 * k) = (Calendar.year_of z + 400 * k)%Z.
Proof.
  unfold Calendar.year_of. cbv zeta.
  replace (z + 146097 * k + 719468)%Z with ((z + 719468) + k * 146097)%Z by lia.
  rewrite Z.div_add by lia.
  set (zz := (z + 719468)%Z).
  replace (zz + k * 146097 - (zz / 146097 + k) * 146097)%Z
    with (zz - zz / 146097 * 146097)%Z by lia.
  set (doe := (zz - zz / 146097 * 146097)%Z).
  destruct (_ <=? 2)%Z; lia.
Qed.

(** The first of August lies in its year, and a vintage has 426 or 427
    days; both checked on the 400 years of one period. *)
Lemma august_checked :
  forallb (fun r => (Calendar.year_of (Calendar.days_from_civil r 8 1) =? r)%Z)
    (Z.of_nat <$> seq 0 400) = true.
Proof. vm_compute. reflexivity. Qed.

Lemma vintage_checked :
  forallb (fun r =>
             let days := (Calendar.days_from_civil (r + 1) 9 30
                          - Calendar.days_from_civil r 8 1)%Z in
             (days =? 425)%Z || (days =? 426)%Z)
    (Z.of_nat <$> seq 0 400) = true.
Proof. vm_compute. reflexivity. Qed.

Lemma in_one_period (y : Z) : In (y mod 400)%Z (Z.of_nat <$> seq 0 400).
Proof.
  pose proof (Z.mod_pos_bound y 400 ltac:(lia)) as Hb.
  apply in_map_iff. exists (Z.to_nat (y mod 400)). split; [lia |]. apply in_seq. lia.
Qed.

Lemma year_of_august (y : Z) : Calendar.year_of (Calendar.days_from_civil y 8 1) = y.
Proof.
  pose proof (Z.div_mod y 400 ltac:(lia)) as Hy.
  assert (Calendar.year_of (Calendar.days_from_civil (y mod 400) 8 1) = (y mod 400)%Z)
    as Hyear.
  { apply Z.eqb_eq. pose proof august_checked as Hc. rewrite forallb_forall in Hc.
    apply Hc, in_one_period. }
  assert (Calendar.days_from_civil y 8 1
          = (Calendar.days_from_civil (y mod 400) 8 1 + 146097 * (y / 400))%Z) as ->.
  { rewrite <- days_from_civil_period. f_equal. lia. }
  rewrite year_of_period, Hyear. lia.
Qed.

Lemma vintage_length (y : Z) :
  (Calendar.days_from_civil (y + 1) 9 30 - Calendar.days_from_civil y 8 1 = 425
   \/ Calendar.days_from_civil (y + 1) 9 30 - Calendar.days_from_civil y 8 1 = 426)%Z.
Proof.
  pose proof (Z.div_mod y 400 ltac:(lia)) as Hy.
  assert (Calendar.days_from_civil y 8 1
          = (Calendar.days_from_civil (y mod 400) 8 1 + 146097 * (y / 400))%Z) as ->.
  { rewrite <- days_from_civil_period. f_equal. lia. }
  assert (Calendar.days_from_civil (y + 1) 9 30
          = (Calendar.days_from_civil (y mod 400 + 1) 9 30 + 146097 * (y / 400))%Z) as ->.
  { rewrite <- days_from_civil_period. f_equal. lia. }
  pose proof vintage_checked as Hc. rewrite forallb_forall in Hc.
  specialize (Hc (y mod 400)%Z (in_one_period y)). cbv zeta in Hc.
  rewrite orb_true_iff, !Z.eqb_eq in Hc. lia.
Qed.

(** The table of a run has what [update_detailed_view_run] asks for. *)
Lemma required_columns_full (df : DataFrame) :
  (forall key : string, is_Some (columns df !! key) <-> key ∈ required_columns) ->
  (forall (key : string) (col : list float),
     columns df !! key = Some col -> length col = length (index df) /\ finite col) ->
  forall key : string, key ∈ required_columns ->
    exists col, columns df !! key = Some col /\ length col = length (index df).
Proof.
  intros Hkeys Hcols key Hkey. destruct (proj2 (Hkeys key) Hkey) as [col Hcol].
  exists col. split; [done |]. by destruct (Hcols key col Hcol).
Qed.

(** X9. On the table that [run_simulation] returns, [update_detailed_view]
    raises nothing for a year selected that has four digits, as has the
    next one. It answers "Nessun dato" when no day of the table lies in the
    vintage. Otherwise it returns the values of the vintage; the x axis of
    the climate figure is the run of days of the table inside the vintage,
    and the rainy days and the dry days of the pie chart add up to the
    number of these days, which is at most 427. *)
Theorem detail_view_on_generated_table {S : Type} `{RandomSource S} (np_sin : Q -> Q)
    (start_date end_date : Timestamp) (hectares : Q) (s : S) (selected_year : Z) :
  (1000 <= selected_year <= 9998)%Z ->
  exists (df : DataFrame) (s' : S),
    run_simulation np_sin (__init__ start_date end_date hectares) s = inr (df, s')
    /\ let first_day := Z.max start_date (Calendar.days_from_civil selected_year 8 1) in
       let last_day := Z.min end_date (Calendar.days_from_civil (selected_year + 1) 9 30) in
       ((last_day < first_day)%Z ->
        update_detailed_view df (Some selected_year) = Some (inr NoData))
       /\ ((first_day <= last_day)%Z ->
           exists values : DetailValues,
             update_detailed_view df (Some selected_year) = Some (inr (Detail values))
             /\ (climate_figure values).1.1.1 = pd_date_range first_day last_day
             /\ Z.of_nat (rainy_days_count values + dry_days_count values)
                = (last_day - first_day + 1)%Z
             /\ (rainy_days_count values + dry_days_count values <= 427)%nat).
Proof.
  intros Hyear.
  destruct (run_simulation_table np_sin start_date end_date hectares s)
    as (df & s' & Hrun & Hidx & Hkeys & Hcols & _ & (rain & Hrain & Hpos) & _).
  exists df, s'. split; [done |]. intros first_day last_day.
  set (mask := between (Calendar.days_from_civil selected_year 8 1)
                 (Calendar.days_from_civil (selected_year + 1) 9 30) (index df)).
  assert (Arr.select mask (index df) = pd_date_range first_day last_day) as Hslice.
  { unfold mask, between. rewrite Hidx.
    by apply (select_interval _ _ (Z.to_nat (end_date - start_date + 1))). }
  split.
  - intros Hlt. unfold update_detailed_view. cbv zeta.
    rewrite vintage_mask_four_digits by done. cbn [mbind option_bind]. fold mask.
    unfold empty, boolean_index. simpl.
    rewrite Hslice, pd_date_range_empty by done. reflexivity.
  - intros Hle.
    destruct (update_detailed_view_run df selected_year Hyear
                (required_columns_full df Hkeys Hcols))
      as (cY & cR & cC & cS & cE & cT & cP & cH & cI & y0 & r0 & c0 & g0 & e0
          & _ & _ & _ & _ & _ & _ & HP & _ & _ & _ & _ & _ & _ & _ & Hview).
    { fold mask. rewrite Hslice, length_pd_date_range. lia. }
    fold mask in Hview.
    eexists. split; [exact Hview |]. simpl.
    split; [exact Hslice |].
    assert (cP = rain) as -> by congruence.
    rewrite count_rainy_dry by (by apply select_Forall).
    destruct (Hcols _ _ Hrain) as [Hlen _].
    rewrite (select_length_eq _ rain (index df) Hlen), Hslice, length_pd_date_range.
    pose proof (vintage_length selected_year). lia.
Qed.

(** A table from 2020-07-31 to 2020-08-02 and the vintage 2020. *)
Lemma detail_view_on_generated_table_witness :
  (1000 <= 2020 <= 9998)%Z
  /\ exists (df : DataFrame) (s' : Z),
      @run_simulation Z TestSource.source TestSource.sin (__init__ 18474 18476 600) 42%Z
      = inr (df, s')
      /\ let first_day := Z.max 18474 (Calendar.days_from_civil 2020 8 1) in
         let last_day := Z.min 18476 (Calendar.days_from_civil (2020 + 1) 9 30) in
         ((last_day < first_day)%Z ->
          update_detailed_view df (Some 2020%Z) = Some (inr NoData))
         /\ ((first_day <= last_day)%Z ->
             exists values : DetailValues,
               update_detailed_view df (Some 2020%Z) = Some (inr (Detail values))
               /\ (climate_figure values).1.1.1 = pd_date_range first_day last_day
               /\ Z.of_nat (rainy_days_count values + dry_days_count values)
                  = (last_day - first_day + 1)%Z
               /\ (rainy_days_count values + dry_days_count values <= 427)%nat).
Proof.
  assert (1000 <= 2020 <= 9998)%Z as Hyear by lia.
  split; [exact Hyear |].
  exact (detail_view_on_generated_table TestSource.sin 18474 18476 600 42%Z 2020 Hyear).
Defined.

(** X10. The cards of a vintage show the values of the calendar year in
    which the vintage begins: for a year selected that has four digits, as
    has the next one, and whose first of August is a day of the table, the
    yield and the quality that [update_detailed_view] returns are the
    annual values of that year (the ones on its rows), and the total
    revenue and the total cost are its revenue and cost per hectare times
    the hectares. *)
Theorem detail_view_shows_first_year {S : Type} `{RandomSource S} (np_sin : Q -> Q)
    (start_date end_date : Timestamp) (hectares : Q) (s : S) (selected_year : Z) :
  (1000 <= selected_year <= 9998)%Z ->
  (start_date <= Calendar.days_from_civil selected_year 8 1 <= end_date)%Z ->
  exists (df : DataFrame) (s' : S) (values : DetailValues) (m : AnnualMetrics),
    run_simulation np_sin (__init__ start_date end_date hectares) s = inr (df, s')
    /\ update_detailed_view df (Some selected_year) = Some (inr (Detail values))
    /\ year_has df selected_year m
    /\ yearly_yield values = Some (final_yield m)
    /\ yearly_quality values = Some (final_sugar_level m)
    /\ total_revenue values = Some (revenue_per_ha m * hectares)%Q
    /\ total_cost values = Some (final_production_cost_per_ha m * hectares)%Q.
Proof.
  intros Hyear [Hstart Hend].
  destruct (run_simulation_table np_sin start_date end_date hectares s)
    as (df & s' & Hrun & Hidx & Hkeys & Hcols & Hyears & _ & Hhectares).
  set (august := Calendar.days_from_civil selected_year 8 1) in *.
  set (mask := between august (Calendar.days_from_civil (selected_year + 1) 9 30) (index df)).
  pose proof (vintage_length selected_year) as Hlength. fold august in Hlength.
  assert (exists rest, Arr.select mask (index df) = august :: rest) as [rest Hslice].
  { unfold mask, between. rewrite Hidx.
    rewrite (select_interval _ _ (Z.to_nat (end_date - start_date + 1))) by done.
    replace (Z.max start_date august) with august by lia.
    apply pd_date_range_cons. lia. }
  destruct (update_detailed_view_run df selected_year Hyear
              (required_columns_full df Hkeys Hcols))
    as (cY & cR & cC & cS & cE & cT & cP & cH & cI & y0 & r0 & c0 & g0 & e0
        & HY & HR & HC & HS & HE & _ & _ & _ & _ & HhY & HhR & HhC & HhS & HhE & Hview).
  { fold august mask. rewrite Hslice. simpl. lia. }
  fold august mask in HhY, HhR, HhC, HhS, HhE.
  assert (forall (col : list float) (x : float),
            head (Arr.select mask col) = Some x ->
            exists i : nat, index df !! i = Some august /\ col !! i = Some x) as Hrow.
  { intros col x Hx. rewrite head_lookup in Hx.
    apply (select_lookup_aligned mask (index df) col 0); [| done].
    by rewrite Hslice. }
  destruct (Hrow _ _ HhY) as (i & Hi & HiY).
  destruct (Hyears i august Hi) as (m & _ & Hhas).
  unfold august in Hhas. rewrite year_of_august in Hhas. fold august in Hhas.
  assert (forall (key : string) (col : list float) (x : float) (q : Q),
            columns df !! key = Some col ->
            head (Arr.select mask col) = Some x ->
            (forall j, index df !! j = Some august -> cell df key j = Some (Some q)) ->
            x = Some q) as Hvalue.
  { intros key col x q Hcol Hx Hcell. destruct (Hrow _ _ Hx) as (j & Hj & Hjx).
    specialize (Hcell j Hj). rewrite (cell_column _ _ _ _ Hcol) in Hcell. congruence. }
  assert (y0 = Some (final_yield m)) as ->.
  { eapply Hvalue; [exact HY | exact HhY |]. intros j Hj.
    by apply (Hhas j august Hj), year_of_august. }
  assert (r0 = Some (revenue_per_ha m)) as ->.
  { eapply Hvalue; [exact HR | exact HhR |]. intros j Hj.
    by apply (Hhas j august Hj), year_of_august. }
  assert (c0 = Some (final_production_cost_per_ha m)) as ->.
  { eapply Hvalue; [exact HC | exact HhC |]. intros j Hj.
    by apply (Hhas j august Hj), year_of_august. }
  assert (g0 = Some (final_sugar_level m)) as ->.
  { eapply Hvalue; [exact HS | exact HhS |]. intros j Hj.
    by apply (Hhas j august Hj), year_of_august. }
  assert (e0 = Some hectares) as ->.
  { destruct (Hrow _ _ HhE) as (j & _ & Hj). rewrite Hhectares in HE. injection HE as <-.
    apply lookup_replicate in Hj as [-> _]. done. }
  eexists df, s', _, m. split; [done |]. split; [exact Hview |]. split; [done |].
  simpl. done.
Qed.

(** A table from 2020-07-31 to 2020-08-02 and the vintage 2020. *)
Lemma detail_view_shows_first_year_witness :
  (1000 <= 2020 <= 9998)%Z
  /\ (18474 <= Calendar.days_from_civil 2020 8 1 <= 18476)%Z
  /\ exists (df : DataFrame) (s' : Z) (values : DetailValues) (m : AnnualMetrics),
      @run_simulation Z TestSource.source TestSource.sin (__init__ 18474 18476 600) 42%Z
      = inr (df, s')
      /\ update_detailed_view df (Some 2020%Z) = Some (inr (Detail values))
      /\ year_has df 2020 m
      /\ yearly_yield values = Some (final_yield m)
      /\ yearly_quality values = Some (final_sugar_level m)
      /\ total_revenue values = Some (revenue_per_ha m * 600)%Q
      /\ total_cost values = Some (final_production_cost_per_ha m * 600)%Q.
Proof.
  assert (1000 <= 2020 <= 9998)%Z as Hyear by lia.
  assert (18474 <= Calendar.days_from_civil 2020 8 1 <= 18476)%Z as Hin
    by (split; vm_compute; discriminate).
  split; [exact Hyear |]. split; [exact Hin |].
  exact (detail_view_shows_first_year TestSource.sin 18474 18476 600 42%Z 2020 Hyear Hin).
Defined.

(** ** The overview by year *)

Lemma elem_of_available_years (df : DataFrame) (year : Z) :
  year ∈ available_years df <-> year ∈ Calendar.year_of <$> index df.
Proof. unfold available_years. by rewrite merge_sort_Permutation, elem_of_unique. Qed.

Lemma StronglySorted_le_lt (l : list Z) :
  StronglySorted Z.le l -> NoDup l -> StronglySorted Z.lt l.
Proof.
  induction 1 as [| x l Hl IH Hx]; intros Hnd; [constructor |].
  apply NoDup_cons in Hnd as [Hout Hnd]. constructor; [by apply IH |].
  apply Forall_forall. intros y Hy.
  assert (x <= y)%Z by (by eapply Forall_forall in Hx).
  assert (x <> y) by (intros ->; done). lia.
Qed.

Lemma available_years_sorted (df : DataFrame) : StronglySorted Z.lt (available_years df).
Proof.
  apply StronglySorted_le_lt.
  - unfold available_years. apply StronglySorted_merge_sort; apply _.
  - unfold available_years. rewrite merge_sort_Permutation.
    apply unique_fold_NoDup, NoDup_nil_2.
Qed.

(** What [.iloc[:-1]] leaves of an ascending list: the elements below
    another element. *)
Lemma removelast_sorted (l : list Z) :
  StronglySorted Z.lt l ->
  StronglySorted Z.lt (removelast l)
  /\ forall y : Z, y ∈ removelast l <-> y ∈ l /\ exists z : Z, z ∈ l /\ (y < z)%Z.
Proof.
  destruct l as [| x l] using rev_ind.
  - intros _. split; [constructor |]. intros y. simpl. rewrite elem_of_nil. tauto.
  - clear IHl. rewrite removelast_last. intros Hsorted.
    apply StronglySorted_app in Hsorted as (Hlt & Hl & _).
    split; [done |]. intros y. rewrite elem_of_app, list_elem_of_singleton. split.
    + intros Hy. split; [tauto |]. exists x. split.
      * rewrite elem_of_app, list_elem_of_singleton. tauto.
      * apply Hlt; [done | apply list_elem_of_here].
    + intros [[Hy | ->] (z & Hz & Hyz)]; [done |].
      apply elem_of_app in Hz as [Hz | Hz].
      * specialize (Hlt z x Hz (list_elem_of_here _ _)). lia.
      * apply list_elem_of_singleton in Hz. lia.
Qed.

Lemma elem_of_removelast {A} (l : list A) (x : A) : x ∈ removelast l -> x ∈ l.
Proof.
  destruct l as [| y l] using rev_ind; [simpl; auto |].
  rewrite removelast_last, elem_of_app. tauto.
Qed.

Lemma fmap_removelast {A B} (f : A -> B) (l : list A) :
  f <$> removelast l = removelast (f <$> l).
Proof.
  destruct l as [| y l] using rev_ind; [done |].
  rewrite removelast_last, fmap_app. change (f <$> [y]) with [f y].
  by rewrite removelast_last.
Qed.

(** The days that a year's mask selects lie in the year. *)
Lemma select_in_year_year (year : Z) (idx : list Timestamp) (d : Timestamp) :
  d ∈ Arr.select (in_year year idx) idx -> Calendar.year_of d = year.
Proof.
  induction idx as [| d0 idx IH]; simpl; [by rewrite elem_of_nil |].
  destruct (Z.eqb_spec (Calendar.year_of d0) year) as [Heq | Hne]; [| done].
  rewrite elem_of_cons. intros [-> | Hd]; [done | by apply IH].
Qed.

(** ['first'] on the group of a year, for a column that is constant on the
    rows of the year. *)
Lemma agg_first_year (df : DataFrame) (key : string) (col : list float) (year : Z) (q : Q) :
  columns df !! key = Some col -> length col = length (index df) ->
  year ∈ Calendar.year_of <$> index df ->
  (forall (i : nat) (d : Timestamp),
     index df !! i = Some d -> Calendar.year_of d = year -> cell df key i = Some (Some q)) ->
  agg_first (Arr.select (in_year year (index df)) col) = Some q.
Proof.
  intros Hcol Hlen Hyear Hcell.
  set (mask := in_year year (index df)).
  pose proof (select_in_year_nonempty year (index df) Hyear) as Hrows. fold mask in Hrows.
  pose proof (select_length_eq mask col (index df) Hlen) as Hsame.
  destruct (Arr.select mask (index df)) as [| d days] eqn:Edays; [simpl in Hrows; lia |].
  destruct (Arr.select mask col) as [| x rest] eqn:Ecol; [done |].
  destruct (select_lookup_aligned mask (index df) col 0 d x) as (i & Hi & Hx).
  { by rewrite Edays. }
  { by rewrite Ecol. }
  assert (Calendar.year_of d = year) as Hd.
  { apply (select_in_year_year year (index df)). fold mask. rewrite Edays.
    apply list_elem_of_here. }
  specialize (Hcell i d Hi Hd). rewrite (cell_column _ _ _ _ Hcol) in Hcell.
  assert (x = Some q) as -> by congruence. done.
Qed.

Ltac required := unfold required_columns; rewrite !elem_of_cons; tauto.

(** The overview on a table that has the columns, with at least one row. *)
Lemma df_annual_run (df : DataFrame) :
  (forall key : string, key ∈ required_columns ->
     exists col, columns df !! key = Some col /\ length col = length (index df)) ->
  (0 < length (index df))%nat ->
  exists (rows : list AnnualRow) (hectares : float)
         (yield_kg_ha sugar revenue cost price hectares_column : list float),
    df_annual df = Some rows
    /\ columns df !! "Yield_kg_ha" = Some yield_kg_ha
    /\ columns df !! "Grape_Sugar_Level" = Some sugar
    /\ columns df !! "Revenue_EUR_ha" = Some revenue
    /\ columns df !! "Production_Cost_EUR_ha" = Some cost
    /\ columns df !! "Selling_Price_EUR_kg" = Some price
    /\ columns df !! "Hectares_Simulated" = Some hectares_column
    /\ head hectares_column = Some hectares
    /\ forall r : AnnualRow, r ∈ rows ->
        let mask := in_year (Year r) (index df) in
        Year r ∈ available_years df
        /\ Yield_kg_ha r = agg_first (Arr.select mask yield_kg_ha)
        /\ Grape_Sugar_Level r = agg_first (Arr.select mask sugar)
        /\ Revenue_EUR_ha r = agg_first (Arr.select mask revenue)
        /\ Production_Cost_EUR_ha r = agg_first (Arr.select mask cost)
        /\ Selling_Price_EUR_kg r = agg_first (Arr.select mask price)
        /\ Total_Revenue_EUR r = Float.mul (Revenue_EUR_ha r) hectares
        /\ Total_Cost_EUR r = Float.mul (Production_Cost_EUR_ha r) hectares.
Proof.
  intros Hcols Hrows.
  assert (forall key, key ∈ required_columns -> exists col, columns df !! key = Some col)
    as Hcol by (intros key Hkey; destruct (Hcols key Hkey) as (col & ? & _); eauto).
  destruct (Hcols "Hectares_Simulated") as (cE & HE & HlE); [required |].
  destruct cE as [| hectares cE]; [simpl in HlE; lia |].
  destruct (Hcol "Yield_kg_ha") as [cY HY]; [required |].
  destruct (Hcol "Grape_Sugar_Level") as [cS HS]; [required |].
  destruct (Hcol "Revenue_EUR_ha") as [cR HR]; [required |].
  destruct (Hcol "Production_Cost_EUR_ha") as [cC HC]; [required |].
  destruct (Hcol "Selling_Price_EUR_kg") as [cP HP]; [required |].
  destruct (Hcol "Temperature_C") as [cT HT]; [required |].
  destruct (Hcol "Precipitation_mm") as [cM HM]; [required |].
  destruct (Hcol "Solar_Irradiance_W_m2") as [cI HI]; [required |].
  destruct (Hcol "Humidity_percent") as [cH HH]; [required |].
  eexists _, hectares, cY, cS, cR, cC, cP, (hectares :: cE).
  split.
  { unfold df_annual, hectares_simulated. rewrite HE, HY, HS, HR, HC, HP, HT, HM, HI, HH.
    simpl. reflexivity. }
  do 7 (split; [done |]).
  intros r Hr. apply elem_of_removelast, list_elem_of_fmap in Hr as (year & -> & Hyear).
  simpl. done.
Qed.

(** What a computed overview was computed from. *)
Lemma df_annual_inv (df : DataFrame) (rows : list AnnualRow) :
  df_annual df = Some rows ->
  Year <$> rows = removelast (available_years df)
  /\ exists temperature precipitation humidity : list float,
      columns df !! "Temperature_C" = Some temperature
      /\ columns df !! "Precipitation_mm" = Some precipitation
      /\ columns df !! "Humidity_percent" = Some humidity
      /\ forall r : AnnualRow, r ∈ rows ->
          let mask := in_year (Year r) (index df) in
          Extreme_Heat_Days r = Arr.count (Arr.gt (Arr.select mask temperature) 35)
          /\ Frost_Days r = Arr.count (Arr.lt (Arr.select mask temperature) 5)
          /\ Extreme_Rain_Days r = Arr.count (Arr.gt (Arr.select mask precipitation) 20)
          /\ Disease_Risk_Days r
             = Arr.count (Arr.and (Arr.gt (Arr.select mask humidity) 80)
                            (Arr.gt (Arr.select mask temperature) 25)).
Proof.
  unfold df_annual.
  destruct (hectares_simulated df) as [hectares |]; [| done].
  destruct (columns df !! "Yield_kg_ha") as [cY |]; [| done].
  destruct (columns df !! "Grape_Sugar_Level") as [cS |]; [| done].
  destruct (columns df !! "Revenue_EUR_ha") as [cR |]; [| done].
  destruct (columns df !! "Production_Cost_EUR_ha") as [cC |]; [| done].
  destruct (columns df !! "Selling_Price_EUR_kg") as [cP |]; [| done].
  destruct (columns df !! "Temperature_C") as [cT |]; [| done].
  destruct (columns df !! "Precipitation_mm") as [cM |]; [| done].
  destruct (columns df !! "Solar_Irradiance_W_m2") as [cI |]; [| done].
  destruct (columns df !! "Humidity_percent") as [cH |]; [| done].
  simpl. intros [= <-]. split.
  - rewrite fmap_removelast, <- list_fmap_compose. f_equal.
    rewrite <- (list_fmap_id (available_years df)) at 2. by apply list_fmap_ext.
  - exists cT, cM, cH. do 3 (split; [done |]).
    intros r Hr. apply elem_of_removelast, list_elem_of_fmap in Hr as (year & -> & _).
    simpl. done.
Qed.

Lemma count_cons (b : bool) (mask : list bool) :
  Arr.count (b :: mask) = ((if b then 1 else 0) + Arr.count mask)%nat.
Proof.
  unfold Arr.count. rewrite filter_cons. destruct b.
  - by rewrite decide_True.
  - by rewrite decide_False.
Qed.

(** No temperature is above 35 and below 5: the hot days and the cold days
    add up to the days that are one or the other. *)
Lemma count_hot_or_cold (temperature : list float) :
  Arr.count (Arr.or (Arr.gt temperature 35) (Arr.lt temperature 5))
  = (Arr.count (Arr.gt temperature 35) + Arr.count (Arr.lt temperature 5))%nat.
Proof.
  unfold Arr.or, Arr.gt, Arr.lt.
  induction temperature as [| x temperature IH]; [done |].
  rewrite !fmap_cons. cbn [zip_with]. rewrite !count_cons, IH.
  assert (Float.gt x (Some 35%Q) && Float.lt x (Some 5%Q) = false) as Hnot.
  { destruct x as [q |]; [| done]. unfold Float.gt, Float.lt.
    destruct (QMicromega.Qlt_bool 35 q) eqn:Ehot; [| done].
    destruct (QMicromega.Qlt_bool q 5) eqn:Ecold; [| done].
    apply QMicromega.Qlt_bool_iff in Ehot, Ecold. lra. }
  destruct (Float.gt x (Some 35%Q)), (Float.lt x (Some 5%Q)); simpl in *; try done; lia.
Qed.

(** A condition more leaves no more days. *)
Lemma count_and_le (a b c : list bool) :
  (Arr.count (Arr.and (Arr.and a b) c) <= Arr.count (Arr.and b a))%nat.
Proof.
  unfold Arr.and. revert b c.
  induction a as [| x a IH]; intros [| y b] [| z c]; cbn [zip_with];
    try (unfold Arr.count; simpl; lia).
  rewrite !count_cons. specialize (IH b c). destruct x, y, z; simpl; lia.
Qed.

Lemma getitem_boolean_index (mask : list bool) (df : DataFrame) (key : string)
    (col selected : list float) :
  columns df !! key = Some col ->
  getitem key (boolean_index mask df) = inr selected -> selected = Arr.select mask col.
Proof.
  intros Hcol. unfold getitem, boolean_index. simpl. rewrite lookup_fmap, Hcol. simpl.
  congruence.
Qed.

(** X12. The day counts of the overview against the counts behind the
    penalties of the simulator, on the rows of one calendar year
    ([yearly_data] of [calculate_annual_metrics]): the days of extreme heat
    and the days of frost add up to the days that the simulator counts as
    extreme temperature, the days of extreme rain are the days it counts as
    extreme rain, and the days of disease risk are at least the days it
    counts, since the overview leaves out the condition on rain. *)
Theorem overview_day_counts (df : DataFrame) (rows : list AnnualRow) (r : AnnualRow)
    (temperature humidity precipitation : list float) :
  df_annual df = Some rows -> r ∈ rows ->
  let yearly_data := boolean_index (in_year (Year r) (index df)) df in
  getitem "Temperature_C" yearly_data = inr temperature ->
  getitem "Humidity_percent" yearly_data = inr humidity ->
  getitem "Precipitation_mm" yearly_data = inr precipitation ->
  (Extreme_Heat_Days r + Frost_Days r)%nat
  = Arr.count (Arr.or (Arr.gt temperature 35) (Arr.lt temperature 5))
  /\ Extreme_Rain_Days r = Arr.count (Arr.gt precipitation 20)
  /\ (Arr.count (Arr.and (Arr.and (Arr.gt temperature 25) (Arr.gt humidity 80))
                   (Arr.gt precipitation 0))
      <= Disease_Risk_Days r)%nat.
Proof.
  intros Hrows Hr yearly_data HT HH HP.
  destruct (df_annual_inv df rows Hrows) as (_ & cT & cP & cH & HcT & HcP & HcH & Hfields).
  destruct (Hfields r Hr) as (-> & -> & -> & ->).
  apply (getitem_boolean_index _ _ _ _ _ HcT) in HT.
  apply (getitem_boolean_index _ _ _ _ _ HcH) in HH.
  apply (getitem_boolean_index _ _ _ _ _ HcP) in HP. subst.
  split; [by rewrite count_hot_or_cold |]. split; [done |]. apply count_and_le.
Qed.

(** The year 2019 of the table of two days. *)
Lemma overview_day_counts_witness :
  exists r : AnnualRow,
    (Extreme_Heat_Days r + Frost_Days r)%nat
    = Arr.count (Arr.or (Arr.gt [Some 36%Q] 35) (Arr.lt [Some 36%Q] 5))
    /\ Extreme_Rain_Days r = Arr.count (Arr.gt [Some 0%Q] 20)
    /\ (Arr.count (Arr.and (Arr.and (Arr.gt [Some 36%Q] 25) (Arr.gt [Some 85%Q] 80))
                     (Arr.gt [Some 0%Q] 0))
        <= Disease_Risk_Days r)%nat.
Proof.
  assert (df_annual two_days = Some two_days_overview) as Hrows by (vm_compute; reflexivity).
  assert (exists r rest, two_days_overview = r :: rest /\ Year r = 2019%Z)
    as (r & rest & Hr & Hyear) by (unfold two_days_overview; eauto).
  exists r.
  apply (overview_day_counts two_days two_days_overview r); [exact Hrows | | | |].
  - rewrite Hr. apply list_elem_of_here.
  - rewrite Hyear. vm_compute. reflexivity.
  - rewrite Hyear. vm_compute. reflexivity.
  - rewrite Hyear. vm_compute. reflexivity.
Defined.

(** X13. The overview lists the calendar years of the table in ascending
    order, each once, without the largest: a year is listed exactly when
    some day of the table lies in it and some day of the table lies in a
    later year. A table inside one calendar year has an empty overview. *)
Theorem overview_leaves_out_last_year (df : DataFrame) (rows : list AnnualRow) :
  df_annual df = Some rows ->
  StronglySorted Z.lt (Year <$> rows)
  /\ forall year : Z,
      year ∈ Year <$> rows
      <-> (exists d : Timestamp, d ∈ index df /\ Calendar.year_of d = year)
          /\ (exists d : Timestamp, d ∈ index df /\ (year < Calendar.year_of d)%Z).
Proof.
  intros Hrows. destruct (df_annual_inv df rows Hrows) as [-> _].
  destruct (removelast_sorted _ (available_years_sorted df)) as [Hsorted Hin].
  split; [done |]. intros year. rewrite Hin, elem_of_available_years, list_elem_of_fmap.
  split.
  - intros [(d & -> & Hd) (z & Hz & Hlt)]. split; [eauto |].
    apply elem_of_available_years, list_elem_of_fmap in Hz as (d' & -> & Hd'). eauto.
  - intros [(d & Hd & <-) (d' & Hd' & Hlt)]. split; [eauto |].
    exists (Calendar.year_of d'). split; [| done].
    apply elem_of_available_years, list_elem_of_fmap. eauto.
Qed.

(** The table of two days: 2019 is listed, 2020 is not. *)
Lemma overview_leaves_out_last_year_witness :
  StronglySorted Z.lt (Year <$> two_days_overview)
  /\ forall year : Z,
      year ∈ Year <$> two_days_overview
      <-> (exists d : Timestamp, d ∈ index two_days /\ Calendar.year_of d = year)
          /\ (exists d : Timestamp, d ∈ index two_days /\ (year < Calendar.year_of d)%Z).
Proof.
  apply (overview_leaves_out_last_year two_days two_days_overview).
  vm_compute. reflexivity.
Defined.

(** X11. On the table that [run_simulation] returns for a range of at
    least one day the overview is computed, and the row of a year holds the
    annual values of that year, the ones on every day of the year in the
    table: ['first'] picks the yield, the sugar level, the revenue, the
    cost and the price of the year, and the totals are the revenue and the
    cost per hectare times the hectares. *)
Theorem overview_shows_annual_values {S : Type} `{RandomSource S} (np_sin : Q -> Q)
    (start_date end_date : Timestamp) (hectares : Q) (s : S) :
  (start_date <= end_date)%Z ->
  exists (df : DataFrame) (s' : S) (rows : list AnnualRow),
    run_simulation np_sin (__init__ start_date end_date hectares) s = inr (df, s')
    /\ df_annual df = Some rows
    /\ forall r : AnnualRow, r ∈ rows ->
        exists m : AnnualMetrics,
          year_has df (Year r) m
          /\ (exists d : Timestamp, d ∈ index df /\ Calendar.year_of d = Year r)
          /\ Yield_kg_ha r = Some (final_yield m)
          /\ Grape_Sugar_Level r = Some (final_sugar_level m)
          /\ Revenue_EUR_ha r = Some (revenue_per_ha m)
          /\ Production_Cost_EUR_ha r = Some (final_production_cost_per_ha m)
          /\ Selling_Price_EUR_kg r = Some (final_selling_price_per_kg m)
          /\ Total_Revenue_EUR r = Some (revenue_per_ha m * hectares)%Q
          /\ Total_Cost_EUR r = Some (final_production_cost_per_ha m * hectares)%Q.
Proof.
  intros Hle.
  destruct (run_simulation_table np_sin start_date end_date hectares s)
    as (df & s' & Hrun & Hidx & Hkeys & Hcols & Hyears & _ & Hhectares).
  destruct (df_annual_run df (required_columns_full df Hkeys Hcols))
    as (rows & e0 & cY & cS & cR & cC & cP & cE & Hrows & HY & HS & HR & HC & HP & HE
        & He0 & Hfields).
  { rewrite Hidx, length_pd_date_range. lia. }
  exists df, s', rows. split; [done |]. split; [done |]. intros r Hr.
  destruct (Hfields r Hr) as (Hyear & -> & -> & -> & -> & -> & -> & ->).
  apply elem_of_available_years in Hyear.
  pose proof Hyear as Hday. apply list_elem_of_fmap in Hday as (d & Hd & Hin).
  pose proof Hin as Hi. apply list_elem_of_lookup in Hi as [i Hi].
  destruct (Hyears i d Hi) as (m & _ & Hhas). rewrite <- Hd in Hhas.
  exists m. split; [done |]. split; [eauto |].
  assert (e0 = Some hectares) as ->.
  { rewrite Hhectares in HE. injection HE as <-.
    destruct (length (index df)); simpl in He0; congruence. }
  assert (forall (key : string) (col : list float) (q : Q),
            columns df !! key = Some col ->
            (forall (j : nat) (d' : Timestamp),
               index df !! j = Some d' -> Calendar.year_of d' = Year r ->
               cell df key j = Some (Some q)) ->
            agg_first (Arr.select (in_year (Year r) (index df)) col) = Some q) as Hfirst.
  { intros key col q Hcol Hcell. apply (agg_first_year df key); try done.
    by destruct (Hcols key col Hcol). }
  rewrite (Hfirst _ _ (final_yield m) HY) by (intros j d' Hj Hd'; apply (Hhas j d' Hj Hd')).
  rewrite (Hfirst _ _ (final_sugar_level m) HS)
    by (intros j d' Hj Hd'; apply (Hhas j d' Hj Hd')).
  rewrite (Hfirst _ _ (revenue_per_ha m) HR)
    by (intros j d' Hj Hd'; apply (Hhas j d' Hj Hd')).
  rewrite (Hfirst _ _ (final_production_cost_per_ha m) HC)
    by (intros j d' Hj Hd'; apply (Hhas j d' Hj Hd')).
  rewrite (Hfirst _ _ (final_selling_price_per_kg m) HP)
    by (intros j d' Hj Hd'; apply (Hhas j d' Hj Hd')).
  simpl. done.
Qed.

(** A table from 2019-12-31 to 2020-01-01. *)
Lemma overview_shows_annual_values_witness :
  (18261 <= 18262)%Z
  /\ exists (df : DataFrame) (s' : Z) (rows : list AnnualRow),
      @run_simulation Z TestSource.source TestSource.sin (__init__ 18261 18262 600) 42%Z
      = inr (df, s')
      /\ df_annual df = Some rows
      /\ forall r : AnnualRow, r ∈ rows ->
          exists m : AnnualMetrics,
            year_has df (Year r) m
            /\ (exists d : Timestamp, d ∈ index df /\ Calendar.year_of d = Year r)
            /\ Yield_kg_ha r = Some (final_yield m)
            /\ Grape_Sugar_Level r = Some (final_sugar_level m)
            /\ Revenue_EUR_ha r = Some (revenue_per_ha m)
            /\ Production_Cost_EUR_ha r = Some (final_production_cost_per_ha m)
            /\ Selling_Price_EUR_kg r = Some (final_selling_price_per_kg m)
            /\ Total_Revenue_EUR r = Some (revenue_per_ha m * 600)%Q
            /\ Total_Cost_EUR r = Some (final_production_cost_per_ha m * 600)%Q.
Proof.
  assert (18261 <= 18262)%Z as Hle by lia.
  split; [exact Hle |].
  exact (overview_shows_annual_values TestSource.sin 18261 18262 600 42%Z Hle).
Defined.

(** ** The years of a table of consecutive days *)

(** The year of a day, from the period of 400 years the day lies in
    ([era]), its day inside the period ([doe]) and its year inside the
    period, counted from March ([yoe]). *)
Lemma year_of_bounds (z : Z) :
  exists era doe yoe : Z,
    (z + 719468 = era * 146097 + doe)%Z /\ (0 <= doe < 146097)%Z
    /\ (0 <= yoe <= 399)%Z
    /\ (0 <= doe - (365 * yoe + yoe / 4 - yoe / 100) <= 365)%Z
    /\ Calendar.year_of z
       = (yoe + era * 400
          + (if 306 <=? doe - (365 * yoe + yoe / 4 - yoe / 100) then 1 else 0))%Z.
Proof.
  unfold Calendar.year_of. cbv zeta.
  set (zz := (z + 719468)%Z).
  pose proof (Z.div_mod zz 146097 ltac:(lia)) as Hz.
  pose proof (Z.mod_pos_bound zz 146097 ltac:(lia)) as Hb.
  set (era := (zz / 146097)%Z) in *.
  set (doe := (zz - era * 146097)%Z).
  assert (0 <= doe < 146097)%Z as Hdoe by (unfold doe; lia).
  set (yoe := ((doe - doe / 1460 + doe / 36524 - doe / 146096) / 365)%Z).
  exists era, doe, yoe.
  split; [unfold doe; lia |]. split; [done |].
  assert (0 <= yoe <= 399)%Z as Hyoe.
  { unfold yoe. clearbody doe. clear -Hdoe. Z.to_euclidean_division_equations. lia. }
  split; [done |].
  assert (0 <= doe - (365 * yoe + yoe / 4 - yoe / 100) <= 365)%Z as Hdoy.
  { unfold yoe. clearbody doe. clear -Hdoe. Z.to_euclidean_division_equations. lia. }
  split; [done |].
  set (doy := (doe - (365 * yoe + yoe / 4 - yoe / 100))%Z) in *.
  clearbody doy yoe era.
  destruct (Z.leb_spec 306 doy) as [Hlate | Hearly].
  - assert (10 <= (5 * doy + 2) / 153 <= 11)%Z as Hmp
      by (clear -Hlate Hdoy; Z.to_euclidean_division_equations; lia).
    destruct (Z.ltb_spec ((5 * doy + 2) / 153) 10) as [? | _]; [lia |].
    destruct (Z.leb_spec ((5 * doy + 2) / 153 - 9) 2) as [_ | ?]; lia.
  - assert (0 <= (5 * doy + 2) / 153 < 10)%Z as Hmp
      by (clear -Hearly Hdoy; Z.to_euclidean_division_equations; lia).
    destruct (Z.ltb_spec ((5 * doy + 2) / 153) 10) as [_ | ?]; [| lia].
    destruct (Z.leb_spec ((5 * doy + 2) / 153 + 3) 2) as [? | _]; lia.
Qed.

(** A later day lies in the same year or in a later year. *)
Lemma year_of_mono (z z' : Z) :
  (z <= z')%Z -> (Calendar.year_of z <= Calendar.year_of z')%Z.
Proof.
  intros Hle.
  destruct (year_of_bounds z) as (era & doe & yoe & Hz & Hdoe & Hyoe & Hdoy & ->).
  destruct (year_of_bounds z') as (era' & doe' & yoe' & Hz' & Hdoe' & Hyoe' & Hdoy' & ->).
  assert (era <= era')%Z by nia.
  destruct (Z.leb_spec 306 (doe - (365 * yoe + yoe / 4 - yoe / 100)));
    destruct (Z.leb_spec 306 (doe' - (365 * yoe' + yoe' / 4 - yoe' / 100)));
    destruct (Z.eq_dec era era') as [-> | Hne]; try lia.
  all: assert (doe <= doe')%Z by lia.
  all: Z.to_euclidean_division_equations; lia.
Qed.

(** The thirtieth of September lies in its year; checked on the 400 years
    of one period. *)
Lemma september_checked :
  forallb (fun r => (Calendar.year_of (Calendar.days_from_civil (r + 1) 9 30) =? r + 1)%Z)
    (Z.of_nat <$> seq 0 400) = true.
Proof. vm_compute. reflexivity. Qed.

Lemma year_of_september (y : Z) :
  Calendar.year_of (Calendar.days_from_civil (y + 1) 9 30) = (y + 1)%Z.
Proof.
  pose proof (Z.div_mod y 400 ltac:(lia)) as Hy.
  assert (Calendar.year_of (Calendar.days_from_civil (y mod 400 + 1) 9 30)
          = (y mod 400 + 1)%Z) as Hyear.
  { apply Z.eqb_eq. pose proof september_checked as Hc. rewrite forallb_forall in Hc.
    apply Hc, in_one_period. }
  assert (Calendar.days_from_civil (y + 1) 9 30
          = (Calendar.days_from_civil (y mod 400 + 1) 9 30 + 146097 * (y / 400))%Z) as ->.
  { rewrite <- days_from_civil_period. f_equal. lia. }
  rewrite year_of_period, Hyear. lia.
Qed.

(** A table from [start_date] to [end_date] with a day in the year [year]
    and a day in a later year has days in the vintage of [year]. *)
Lemma vintage_of_listed_year (start_date end_date d d' : Timestamp) :
  (start_date <= d)%Z -> (d' <= end_date)%Z ->
  (Calendar.year_of d < Calendar.year_of d')%Z ->
  let year := Calendar.year_of d in
  (Z.max start_date (Calendar.days_from_civil year 8 1)
   <= Z.min end_date (Calendar.days_from_civil (year + 1) 9 30))%Z.
Proof.
  intros Hd Hd' Hlt year.
  pose proof (year_of_august year) as Haugust.
  pose proof (year_of_september year) as Hseptember.
  pose proof (vintage_length year) as Hlength.
  assert (d < d')%Z.
  { destruct (Z.lt_ge_cases d d') as [? | Hge]; [done |].
    apply year_of_mono in Hge. lia. }
  assert (d < Calendar.days_from_civil (year + 1) 9 30)%Z.
  { destruct (Z.lt_ge_cases d (Calendar.days_from_civil (year + 1) 9 30)) as [? | Hge]; [done |].
    apply year_of_mono in Hge. fold year in Hge. lia. }
  assert (Calendar.days_from_civil year 8 1 < d')%Z.
  { destruct (Z.lt_ge_cases (Calendar.days_from_civil year 8 1) d') as [? | Hge]; [done |].
    apply year_of_mono in Hge. lia. }
  lia.
Qed.

(** X14. On the table that [run_simulation] returns for a range of dates
    in the years 1000 to 9999, every vintage that the dropdown offers has
    data: for each of its options [update_detailed_view] returns the values
    of the vintage, never "Nessun dato" and never an exception. *)
Theorem dropdown_vintages_have_data {S : Type} `{RandomSource S} (np_sin : Q -> Q)
    (start_date end_date : Timestamp) (hectares : Q) (s : S) :
  (1000 <= Calendar.year_of start_date)%Z ->
  (Calendar.year_of end_date <= 9999)%Z ->
  exists (df : DataFrame) (s' : S),
    run_simulation np_sin (__init__ start_date end_date hectares) s = inr (df, s')
    /\ forall (label : string) (selected_year : Z),
        (label, selected_year) ∈ dropdown_options df ->
        exists values : DetailValues,
          update_detailed_view df (Some selected_year) = Some (inr (Detail values)).
Proof.
  intros Hfirst Hlast.
  destruct (run_simulation_table np_sin start_date end_date hectares s)
    as (df & s' & Hrun & Hidx & Hkeys & Hcols & _).
  exists df, s'. split; [done |]. intros label selected_year Hyear.
  apply list_elem_of_fmap in Hyear as (year & [= _ ->] & Hyear).
  apply (removelast_sorted _ (available_years_sorted df)) in Hyear
    as [Hyear (later & Hlater & Hlt)].
  apply elem_of_available_years, list_elem_of_fmap in Hyear as (d & -> & Hd).
  apply elem_of_available_years, list_elem_of_fmap in Hlater as (d' & -> & Hd').
  rewrite Hidx in Hd, Hd'. apply elem_of_pd_date_range in Hd, Hd'.
  pose proof (vintage_of_listed_year start_date end_date d d'
                ltac:(lia) ltac:(lia) Hlt) as Hdays.
  cbv zeta in Hdays.
  pose proof (year_of_mono start_date d ltac:(lia)) as Hlow.
  pose proof (year_of_mono d' end_date ltac:(lia)) as Hhigh.
  destruct (update_detailed_view_run df (Calendar.year_of d) ltac:(lia)
              (required_columns_full df Hkeys Hcols))
    as (cY & cR & cC & cS & cE & cT & cP & cH & cI & y0 & r0 & c0 & g0 & e0
        & _ & _ & _ & _ & _ & _ & _ & _ & _ & _ & _ & _ & _ & _ & Hview).
  { unfold between. rewrite Hidx.
    rewrite (select_interval _ _ (Z.to_nat (end_date - start_date + 1))) by done.
    rewrite length_pd_date_range. lia. }
  eauto.
Qed.

(** A table from 2019-12-31 to 2020-01-01. *)
Lemma dropdown_vintages_have_data_witness :
  (1000 <= Calendar.year_of 18261)%Z
  /\ (Calendar.year_of 18262 <= 9999)%Z
  /\ exists (df : DataFrame) (s' : Z),
      @run_simulation Z TestSource.source TestSource.sin (__init__ 18261 18262 600) 7%Z
      = inr (df, s')
      /\ forall (label : string) (selected_year : Z),
          (label, selected_year) ∈ dropdown_options df ->
          exists values : DetailValues,
            update_detailed_view df (Some selected_year) = Some (inr (Detail values)).
Proof.
  assert (1000 <= Calendar.year_of 18261)%Z as Hfirst by (vm_compute; discriminate).
  assert (Calendar.year_of 18262 <= 9999)%Z as Hlast by (vm_compute; discriminate).
  split; [exact Hfirst |]. split; [exact Hlast |].
  exact (dropdown_vintages_have_data TestSource.sin 18261 18262 600 7%Z Hfirst Hlast).
Defined.

(** X15. On the table that [run_simulation] returns for a range of at
    least one day, the overview lists, in ascending order and once each,
    the calendar years from the year of the start date up to the year
    before the year of the end date: the year of the end date is the one
    left out, and no year in between is missing. *)
Theorem overview_years_of_generated_table {S : Type} `{RandomSource S} (np_sin : Q -> Q)
    (start_date end_date : Timestamp) (hectares : Q) (s : S) :
  (start_date <= end_date)%Z ->
  exists (df : DataFrame) (s' : S) (rows : list AnnualRow),
    run_simulation np_sin (__init__ start_date end_date hectares) s = inr (df, s')
    /\ df_annual df = Some rows
    /\ StronglySorted Z.lt (Year <$> rows)
    /\ forall year : Z,
        year ∈ Year <$> rows
        <-> (Calendar.year_of start_date <= year < Calendar.year_of end_date)%Z.
Proof.
  intros Hle.
  destruct (run_simulation_table np_sin start_date end_date hectares s)
    as (df & s' & Hrun & Hidx & Hkeys & Hcols & _).
  destruct (df_annual_run df (required_columns_full df Hkeys Hcols))
    as (rows & _ & _ & _ & _ & _ & _ & _ & Hrows & _).
  { rewrite Hidx, length_pd_date_range. lia. }
  exists df, s', rows. split; [done |]. split; [done |].
  destruct (df_annual_inv df rows Hrows) as [-> _].
  destruct (removelast_sorted _ (available_years_sorted df)) as [Hsorted Hin].
  split; [done |]. intros year. rewrite Hin. split.
  - intros [Hyear (later & Hlater & Hlt)].
    apply elem_of_available_years, list_elem_of_fmap in Hyear as (d & -> & Hd).
    apply elem_of_available_years, list_elem_of_fmap in Hlater as (d' & -> & Hd').
    rewrite Hidx in Hd, Hd'. apply elem_of_pd_date_range in Hd, Hd'.
    pose proof (year_of_mono start_date d ltac:(lia)).
    pose proof (year_of_mono d' end_date ltac:(lia)). lia.
  - intros [Hfirst Hlast].
    assert (forall d : Timestamp, (start_date <= d <= end_date)%Z ->
              Calendar.year_of d ∈ available_years df) as Hday.
    { intros d Hd. apply elem_of_available_years, list_elem_of_fmap. exists d.
      split; [done |]. rewrite Hidx. by apply elem_of_pd_date_range. }
    split.
    + destruct (Z.eq_dec (Calendar.year_of start_date) year) as [<- | Hne].
      * apply Hday. lia.
      * rewrite <- (year_of_august year). apply Hday.
        pose proof (year_of_august year) as Haugust. split.
        -- destruct (Z.le_gt_cases start_date (Calendar.days_from_civil year 8 1)) as [? | Hgt];
             [done |].
           assert (Calendar.days_from_civil year 8 1 <= start_date)%Z as Hge by lia.
           apply year_of_mono in Hge. lia.
        -- destruct (Z.le_gt_cases (Calendar.days_from_civil year 8 1) end_date) as [? | Hgt];
             [done |].
           assert (end_date <= Calendar.days_from_civil year 8 1)%Z as Hge by lia.
           apply year_of_mono in Hge. lia.
    + exists (Calendar.year_of end_date). split; [apply Hday; lia | done].
Qed.

(** A table from 2019-12-31 to 2020-01-01. *)
Lemma overview_years_of_generated_table_witness :
  (18261 <= 18262)%Z
  /\ exists (df : DataFrame) (s' : Z) (rows : list AnnualRow),
      @run_simulation Z TestSource.source TestSource.sin (__init__ 18261 18262 600) 7%Z
      = inr (df, s')
      /\ df_annual df = Some rows
      /\ StronglySorted Z.lt (Year <$> rows)
      /\ forall year : Z,
          year ∈ Year <$> rows
          <-> (Calendar.year_of 18261 <= year < Calendar.year_of 18262)%Z.
Proof.
  assert (18261 <= 18262)%Z as Hle by lia.
  split; [exact Hle |].
  exact (overview_years_of_generated_table TestSource.sin 18261 18262 600 7%Z Hle).
Defined.
